(** * Parts-ordering engine: a shallow embedding of [logic.py]

    The development follows the layout of the Python module: the part-number
    normaliser, the cart, order commit and reversal, the bulk reconciliation
    preview and the catalog search.  The relational store is a record of
    tables, each table a list of rows in scan order; a statement executed on
    the connection is a function on that record.  Quantities are integers
    ([Z]), which the INTEGER columns of the store take between -2^31 and
    2^31 - 1; a NUMERIC value of the store is an exact rational ([Q]); a
    Python number is its value together with its type (int, Decimal or
    float), and an operation on it rounds as that type does; text is ASCII
    ([string]); a nullable column is an [option].  The list that stands for
    a table fixes one order of its rows: the store promises none, and what
    is proved of a table is about its rows. *)

From Stdlib Require Import String Ascii List ZArith QArith Qabs Lia Bool.
From Stdlib Require Import DecimalString Sorted Permutation.
Import ListNotations.

Local Open Scope string_scope.
Local Open Scope list_scope.
Local Open Scope Z_scope.

(* ===================================================================== *)
(** * Part I: definitions *)
(* ===================================================================== *)

(** ** Python built-ins used by the module *)

Module Py.

(** [c.upper()] on an ASCII character. *)
Definition upper_char (c : ascii) : ascii :=
  let n := nat_of_ascii c in
  if ((97 <=? n) && (n <=? 122))%nat then ascii_of_nat (n - 32)%nat else c.

(** [s.upper()]. *)
Fixpoint upper (s : string) : string :=
  match s with
  | EmptyString => EmptyString
  | String c s' => String (upper_char c) (upper s')
  end.

(** Scan of [s.replace(old, new)] for a non-empty [old]: [skip] counts the
    characters of the occurrence just replaced that are still to be
    consumed. *)
Fixpoint replace_scan (old new : string) (skip : nat) (s : string) : string :=
  match s with
  | EmptyString => EmptyString
  | String c s' =>
      match skip with
      | S k => replace_scan old new k s'
      | O =>
          if prefix old s
          then (new ++ replace_scan old new (String.length old - 1) s')%string
          else String c (replace_scan old new 0 s')
      end
  end.

(** With an empty [old], Python inserts [new] before every character and
    at the end. *)
Fixpoint intersperse (new s : string) : string :=
  match s with
  | EmptyString => new
  | String c s' => (new ++ String c (intersperse new s'))%string
  end.

(** [s.replace(old, new)]. *)
Definition replace (old new s : string) : string :=
  match old with
  | EmptyString => intersperse new s
  | _ => replace_scan old new 0 s
  end.

(** [c.isspace()] on an ASCII character: TAB, LF, VT, FF, CR, the four
    separators FS, GS, RS, US, and the blank. *)
Definition isspace (c : ascii) : bool :=
  let n := nat_of_ascii c in
  (((9 <=? n) && (n <=? 13)) || ((28 <=? n) && (n <=? 32)))%nat.

Fixpoint lstrip (s : string) : string :=
  match s with
  | EmptyString => EmptyString
  | String c s' => if isspace c then lstrip s' else s
  end.

Fixpoint rstrip (s : string) : string :=
  match s with
  | EmptyString => EmptyString
  | String c s' =>
      match rstrip s' with
      | EmptyString => if isspace c then EmptyString else String c EmptyString
      | r => String c r
      end
  end.

(** [s.strip()]. *)
Definition strip (s : string) : string := rstrip (lstrip s).

(** [str(n)] for an [int]. *)
Definition str_int (n : Z) : string := NilZero.string_of_int (Z.to_int n).

(** [x in xs] for a collection of strings. *)
Definition mem (x : string) (xs : list string) : bool :=
  existsb (String.eqb x) xs.

(** A stable sort, by insertion: an element goes in front of the first
    element it is not greater than, so that elements the order does not
    tell apart keep their places.  It stands for [sort_values] and for the
    store's ORDER BY. *)
Section Sort.
Context {A : Type} (leb : A -> A -> bool).

Fixpoint insert (x : A) (l : list A) : list A :=
  match l with
  | [] => [x]
  | y :: l' => if leb x y then x :: l else y :: insert x l'
  end.

Definition sort (l : list A) : list A := fold_right insert [] l.
End Sort.

End Py.

(** ** Python's decimal and binary arithmetic, on exact values *)

(** Rounding to the nearest integer, ties to even. *)
Definition round_half_even (q : Q) : Z :=
  let n := Qnum q in
  let d := Zpos (Qden q) in
  let fl := n / d in
  let twice := 2 * (n mod d) in
  if twice <? d then fl
  else if d <? twice then fl + 1
  else if Z.even fl then fl else fl + 1.

Module PyNum.

(** [q * base ^ n], for [n] of either sign. *)
Definition scale (base : Z) (q : Q) (n : Z) : Q :=
  if 0 <=? n then (q * inject_Z (base ^ n))%Q
  else (q / inject_Z (base ^ (- n)))%Q.

(** The number of digits of a positive integer in base [base]. *)
Fixpoint digits_fuel (fuel : nat) (base n : Z) : Z :=
  match fuel with
  | O => 0
  | S fuel' => if n <? base then 1 else 1 + digits_fuel fuel' base (n / base)
  end.

Definition digits (base n : Z) : Z :=
  digits_fuel (S (Z.to_nat (Z.log2 n))) base n.

(** The [p] with [base ^ p <= |q| < base ^ (p + 1)], for [q] other than 0. *)
Definition floor_log (base : Z) (q : Q) : Z :=
  let a := Z.abs (Qnum q) in
  let b := Zpos (Qden q) in
  let d := digits base a - digits base b in
  if Qle_bool (scale base 1 d) (Qabs q) then d else d - 1.

(** Rounding to a multiple of [base ^ e], ties to even. *)
Definition round_to (base : Z) (e : Z) (q : Q) : Q :=
  scale base (inject_Z (round_half_even (scale base q (- e)))) e.

(** Rounding to [k] significant decimal digits, ties to even. *)
Definition round_sig (k : Z) (q : Q) : Q :=
  if Qeq_bool q 0 then 0%Q
  else Qred (round_to 10 (floor_log 10 q - (k - 1)) q).

(** What the decimal context does to the exact result of an operation on
    [Decimal] values: 28 significant digits, ties to even. *)
Definition dec_round (q : Q) : Q := round_sig 28 (Qred q).

(** The float nearest to [q], ties to even (binary64: 53 bits, exponents
    down to -1074); [None] when that is beyond the largest float, where
    Python's result is an infinity. *)
Definition fl (q : Q) : option Q :=
  if Qeq_bool q 0 then Some 0%Q
  else
    let e := Z.max (floor_log 2 q - 52) (- 1074) in
    let r := round_to 2 e q in
    if Qle_bool (inject_Z (2 ^ 1024)) (Qabs r) then None else Some (Qred r).

(** A float: a finite value, an infinity or NaN.  The sign of a zero is
    not kept: nothing here depends on it. *)
Inductive Float : Type :=
| Finite (x : Q)
| Infinity (negative : bool)
| NaN.

(** The float an operation returns when its exact result is [q]. *)
Definition of_exact (q : Q) : Float :=
  match fl q with
  | Some y => Finite y
  | None => Infinity (Qnum q <? 0)
  end.

Definition mul (x y : Float) : Float :=
  match x, y with
  | NaN, _ | _, NaN => NaN
  | Finite a, Finite b => of_exact (a * b)
  | Infinity s, Finite b | Finite b, Infinity s =>
      if Qeq_bool b 0 then NaN else Infinity (xorb s (Qnum b <? 0))
  | Infinity s, Infinity t => Infinity (xorb s t)
  end.

Definition add (x y : Float) : Float :=
  match x, y with
  | NaN, _ | _, NaN => NaN
  | Finite a, Finite b => of_exact (a + b)
  | Infinity s, Finite _ | Finite _, Infinity s => Infinity s
  | Infinity s, Infinity t => if Bool.eqb s t then Infinity s else NaN
  end.

(** [x / 100.0]. *)
Definition percent (x : Float) : Float :=
  match x with
  | Finite a => of_exact (a / 100)
  | other => other
  end.

(** [float(n)] for an int [n]; [None] is the OverflowError. *)
Definition of_int (n : Z) : option Float :=
  match fl (inject_Z n) with
  | Some y => Some (Finite y)
  | None => None
  end.

(** [round(x, 2)] for a float [x]: the float nearest to the exact value of
    [x] rounded to two decimals, ties to even. *)
Definition round2 (x : Float) : Float :=
  match x with
  | Finite a => of_exact (Qmake (round_half_even (a * 100)%Q) 100)
  | other => other
  end.

(** The two decimals of [k] significant digits around [x], the nearer
    first. *)
Definition neighbours (k : Z) (x : Q) : Q * Q :=
  let e := floor_log 10 x - (k - 1) in
  let c := round_to 10 e x in
  let step := scale 10 1 e in
  if Qle_bool c x then (c, (c + step)%Q) else (c, (c - step)%Q).

Definition same_float (c x : Q) : bool :=
  match fl c with
  | Some y => Qeq_bool y x
  | None => false
  end.

(** [repr(x)] read as a number, which is how a float reaches the store:
    the shortest decimal that reads back as [x], the nearest to [x] among
    those of that length. *)
Fixpoint repr_from (fuel : nat) (k : Z) (x : Q) : Q :=
  match fuel with
  | O => x
  | S fuel' =>
      let '(c, d) := neighbours k x in
      if same_float c x then Qred c
      else if same_float d x then Qred d
      else repr_from fuel' (k + 1) x
  end.

Definition repr (x : Q) : Q :=
  if Qeq_bool x 0 then 0%Q else repr_from 17 1 x.

End PyNum.

(** ** Helper: the part-number normaliser *)

(** [sanitize_part_number(part_number)].  The argument is [None] for
    Python's [None]; [if not part_number] also catches the empty string. *)
Definition sanitize_part_number (part_number : option string) : string :=
  match part_number with
  | None => ""
  | Some EmptyString => ""
  | Some p =>
      let s := Py.upper p in
      let s := fold_left (fun s char => Py.replace char "" s) ["*"; "@"; "+"] s in
      let s := Py.replace "O" "0" s in
      Py.strip s
  end.

(** The normaliser as the specification words it: uppercase, drop every
    [*], [@] and [+], turn every letter O into the digit 0, trim. *)
Module NormalizeSpec.

Fixpoint map_chars (f : ascii -> ascii) (s : string) : string :=
  match s with
  | EmptyString => EmptyString
  | String c s' => String (f c) (map_chars f s')
  end.

Fixpoint drop_chars (bad : ascii -> bool) (s : string) : string :=
  match s with
  | EmptyString => EmptyString
  | String c s' => if bad c then drop_chars bad s' else String c (drop_chars bad s')
  end.

Definition is_symbol (c : ascii) : bool :=
  (Ascii.eqb c "*" || Ascii.eqb c "@" || Ascii.eqb c "+")%char.

Definition o_to_zero (c : ascii) : ascii :=
  if Ascii.eqb c "O"%char then "0"%char else c.

Definition normalize (raw : option string) : string :=
  match raw with
  | None => ""
  | Some s =>
      Py.strip (map_chars o_to_zero (drop_chars is_symbol (map_chars Py.upper_char s)))
  end.

(** White space only. *)
Fixpoint blank (s : string) : bool :=
  match s with
  | EmptyString => true
  | String c s' => Py.isspace c && blank s'
  end.

Definition starts_blank (s : string) : bool :=
  match s with
  | EmptyString => false
  | String c _ => Py.isspace c
  end.

Fixpoint ends_blank (s : string) : bool :=
  match s with
  | EmptyString => false
  | String c s' =>
      match s' with
      | EmptyString => Py.isspace c
      | String _ _ => ends_blank s'
      end
  end.

(** [t] is [s] without its leading and trailing white space. *)
Definition trimmed (s t : string) : Prop :=
  exists l r,
    s = (l ++ t ++ r)%string /\ blank l = true /\ blank r = true /\
    starts_blank t = false /\ ends_blank t = false.

End NormalizeSpec.

(** ** The store *)

(** Rows of [parts_stock].  The table has no uniqueness constraint on
    [(part_number, stock_type)]: a catalog upload deactivates the previous
    generation of rows and appends the new one. *)
Record StockItem := mkStock {
  ps_part_number : string;
  ps_description : option string;
  ps_free_stock : option Z;
  ps_price : option Q;
  ps_stock_type : string;
  ps_is_active : bool;
  ps_superseded : option string
}.

(** Rows of [cart]; [cart_id] is the SERIAL primary key. *)
Record CartLine := mkCart {
  cart_id : Z;
  cart_user_id : Z;
  cart_part_number : string;
  cart_description : option string;
  cart_qty : Z;
  cart_price : Q;
  cart_supersedes : option string
}.

(** Rows of [orders]; [o_order_id] is the SERIAL primary key and
    [order_status] defaults to ['Pending']. *)
Record Order := mkOrder {
  o_order_id : Z;
  o_user_id : Z;
  total_price : Q;
  order_status : string;
  o_stock_type : string
}.

(** Rows of [order_items] (the columns the module reads or writes). *)
Record OrderItem := mkOrderItem {
  oi_order_id : Z;
  oi_part_number : string;
  oi_description : option string;
  oi_qty : Z;
  oi_requested_qty : Z;
  oi_available_qty : Z;
  oi_price : Q;
  oi_supersedes : option string
}.

(** The database: four tables and the two sequences behind the SERIAL keys
    the module relies on. *)
Record DB := mkDB {
  parts_stock : list StockItem;
  cart : list CartLine;
  orders : list Order;
  order_items : list OrderItem;
  orders_seq : Z;
  cart_seq : Z
}.

Definition set_parts_stock (ps : list StockItem) (db : DB) : DB :=
  mkDB ps (cart db) (orders db) (order_items db) (orders_seq db) (cart_seq db).
Definition set_cart (c : list CartLine) (db : DB) : DB :=
  mkDB (parts_stock db) c (orders db) (order_items db) (orders_seq db) (cart_seq db).
Definition set_orders (os : list Order) (db : DB) : DB :=
  mkDB (parts_stock db) (cart db) os (order_items db) (orders_seq db) (cart_seq db).
Definition set_order_items (ois : list OrderItem) (db : DB) : DB :=
  mkDB (parts_stock db) (cart db) (orders db) ois (orders_seq db) (cart_seq db).
Definition set_orders_seq (n : Z) (db : DB) : DB :=
  mkDB (parts_stock db) (cart db) (orders db) (order_items db) n (cart_seq db).
Definition set_cart_seq (n : Z) (db : DB) : DB :=
  mkDB (parts_stock db) (cart db) (orders db) (order_items db) (orders_seq db) n.

(** What a mutating operation hands back: [(True, value)] or
    [(False, str(e))]. *)
Inductive outcome (A : Type) : Type :=
| Success (a : A)
| Failure (msg : string).
Arguments Success {A} a.
Arguments Failure {A} msg.

(** ** Prices and totals as Python has them *)

(** The number behind [item['price']] or [total_alloc_price], with its
    type: an [int], a [Decimal] (what the driver returns for a NUMERIC) or a
    [float]. *)
Inductive Num : Type :=
| NInt (n : Z)
| NDecimal (q : Q)
| NFloat (x : PyNum.Float).

(** [n * price] for an int [n]: exact on an int, rounded by the decimal
    context on a [Decimal], in floats on a float. *)
Definition num_mul_int (n : Z) (price : Num) : outcome Num :=
  match price with
  | NInt p => Success (NInt (n * p))
  | NDecimal q => Success (NDecimal (PyNum.dec_round (inject_Z n * q)))
  | NFloat x =>
      match PyNum.of_int n with
      | Some f => Success (NFloat (PyNum.mul f x))
      | None => Failure "int too large to convert to float"
      end
  end.

(** [total += v].  A [Decimal] and a float do not add. *)
Definition num_add (total v : Num) : outcome Num :=
  match total, v with
  | NInt a, NInt b => Success (NInt (a + b))
  | NInt a, NDecimal q => Success (NDecimal (PyNum.dec_round (inject_Z a + q)))
  | NDecimal p, NInt b => Success (NDecimal (PyNum.dec_round (p + inject_Z b)))
  | NDecimal p, NDecimal q => Success (NDecimal (PyNum.dec_round (p + q)))
  | NInt a, NFloat y =>
      match PyNum.of_int a with
      | Some f => Success (NFloat (PyNum.add f y))
      | None => Failure "int too large to convert to float"
      end
  | NFloat x, NInt b =>
      match PyNum.of_int b with
      | Some f => Success (NFloat (PyNum.add x f))
      | None => Failure "int too large to convert to float"
      end
  | NFloat x, NFloat y => Success (NFloat (PyNum.add x y))
  | NDecimal _, NFloat _ =>
      Failure "unsupported operand type(s) for +=: 'decimal.Decimal' and 'float'"
  | NFloat _, NDecimal _ =>
      Failure "unsupported operand type(s) for +=: 'float' and 'decimal.Decimal'"
  end.

(** The NUMERIC a number becomes as a parameter of a statement: the driver
    writes an int or a [Decimal] in full and a float as its [repr].  NaN,
    and the infinities that PostgreSQL has from version 14, are NUMERIC
    values that this model of the store leaves out: writing one is the
    failure that an infinity meets before version 14. *)
Definition to_numeric (v : Num) : outcome Q :=
  match v with
  | NInt n => Success (inject_Z n)
  | NDecimal q => Success q
  | NFloat (PyNum.Finite x) => Success (PyNum.repr x)
  | NFloat _ => Failure "cannot convert infinity to numeric"
  end.

(** [float(v)]. *)
Definition num_float (v : Num) : outcome PyNum.Float :=
  match v with
  | NInt n =>
      match PyNum.of_int n with
      | Some f => Success f
      | None => Failure "int too large to convert to float"
      end
  | NDecimal q => Success (PyNum.of_exact q)
  | NFloat x => Success x
  end.

(** The range of an INTEGER column. *)
Definition int4 (n : Z) : bool :=
  (- 2 ^ 31 <=? n) && (n <=? 2 ^ 31 - 1).

(** [WHERE part_number = :pn AND stock_type = :stype] on [parts_stock]. *)
Definition stock_key_matches (pn stype : string) (r : StockItem) : bool :=
  String.eqb (ps_part_number r) pn && String.eqb (ps_stock_type r) stype.

(** The row [r] with another [free_stock]. *)
Definition with_free_stock (r : StockItem) (free_stock : option Z) : StockItem :=
  mkStock (ps_part_number r) (ps_description r) free_stock (ps_price r)
          (ps_stock_type r) (ps_is_active r) (ps_superseded r).

(** [UPDATE parts_stock SET free_stock = free_stock + :delta WHERE
    part_number = :pn AND stock_type = :stype]: every matching row is
    updated; NULL stays NULL.  A row is told from the others by its place
    in the list, which it keeps; where the store then puts the row, and so
    the order in which a later scan returns the rows, is not modelled. *)
Definition add_free_stock (delta : Z) (pn stype : string)
    (ps : list StockItem) : list StockItem :=
  map (fun r =>
         if stock_key_matches pn stype r
         then with_free_stock r (option_map (fun f => f + delta) (ps_free_stock r))
         else r) ps.

(** ** Stock management *)

(** A row of the uploaded catalog once its columns are mapped: the price is
    already numeric (0 when it could not be read). *)
Record UploadRow := mkUploadRow {
  u_part_number : string;
  u_description : option string;
  u_free_stock : option Z;
  u_price : Q;
  u_superseded : option string
}.

(** [upload_parts_stock(df_parts, stock_type)]: the active rows of the
    stock type are deactivated, not deleted, and the new generation is
    appended. *)
Definition upload_parts_stock (db : DB) (df_parts : list UploadRow)
    (stock_type : string) : DB :=
  set_parts_stock
    (map (fun r =>
            if String.eqb (ps_stock_type r) stock_type && ps_is_active r
            then mkStock (ps_part_number r) (ps_description r) (ps_free_stock r)
                         (ps_price r) (ps_stock_type r) false (ps_superseded r)
            else r) (parts_stock db)
     ++
     map (fun u =>
            mkStock (Py.strip (u_part_number u)) (u_description u)
                    (u_free_stock u) (Some (u_price u)) stock_type true
                    (u_superseded u)) df_parts) db.

(** ** Cart management *)

(** [add_to_cart_db(user_id, part_number, description, qty, price,
    supersedes)].  [fetchone] yields the first matching row in scan order.
    The function has no handler of its own: if the INSERT violates the
    primary key the transaction is rolled back (the sequence keeps its new
    value, as sequences do). *)
Definition add_to_cart_db (db : DB) (user_id : Z) (part_number : string)
    (description : option string) (qty : Z) (price : Q)
    (supersedes : option string) : DB :=
  let part_number := sanitize_part_number (Some part_number) in
  let curr :=
    find (fun c => Z.eqb (cart_user_id c) user_id &&
                   String.eqb (cart_part_number c) part_number) (cart db) in
  match curr with
  | Some curr =>
      let new_qty := cart_qty curr + qty in
      set_cart
        (map (fun c =>
                if Z.eqb (cart_id c) (cart_id curr)
                then mkCart (cart_id c) (cart_user_id c) (cart_part_number c)
                            (cart_description c) new_qty (cart_price c)
                            (cart_supersedes c)
                else c) (cart db)) db
  | None =>
      let id := cart_seq db in
      let db := set_cart_seq (id + 1) db in
      if existsb (fun c => Z.eqb (cart_id c) id) (cart db)
      then db
      else set_cart
             (cart db ++ [mkCart id user_id part_number description qty price
                                 supersedes]) db
  end.

(** ** Order processing *)

(** An entry of [items]: [{part_number, description, qty, price,
    supersedes}], where [qty] is the requested quantity. *)
Record Item := mkItem {
  it_part_number : string;
  it_description : option string;
  it_qty : Z;
  it_price : Num;
  it_supersedes : option string
}.

(** The state the loop of [create_order] threads: the connection's view of
    the database and [total_alloc_price]. *)
Definition commit_state : Type := DB * Num.

(** Whether the UPDATE that adds [delta] leaves every row it touches within
    the INTEGER range. *)
Definition free_stock_in_range (delta : Z) (pn stype : string)
    (ps : list StockItem) : bool :=
  forallb (fun r =>
             if stock_key_matches pn stype r
             then match ps_free_stock r with
                  | Some f => int4 (f + delta)
                  | None => true
                  end
             else true) ps.

(** One iteration of [for item in items].  A matching row whose
    [free_stock] is NULL makes [min(requested_qty, None)] raise; the store
    refuses an integer beyond the INTEGER range and a price that is not a
    number; the product and the sum are Python's. *)
Definition create_order_item (order_id : Z) (stock_type : string)
    (st : commit_state) (item : Item) : outcome commit_state :=
  let '(db, total_alloc_price) := st in
  let row := find (stock_key_matches (it_part_number item) stock_type)
                  (parts_stock db) in
  let current_stock :=
    match row with
    | Some r => ps_free_stock r
    | None => Some 0
    end in
  match current_stock with
  | None => Failure "'<' not supported between instances of 'NoneType' and 'int'"
  | Some current_stock =>
      let requested_qty := it_qty item in
      let allocated_qty := Z.min requested_qty current_stock in
      if (0 <? allocated_qty) &&
         negb (free_stock_in_range (- allocated_qty) (it_part_number item)
                                   stock_type (parts_stock db))
      then Failure "integer out of range"
      else
        let db :=
          if 0 <? allocated_qty
          then set_parts_stock
                 (add_free_stock (- allocated_qty) (it_part_number item)
                                 stock_type (parts_stock db)) db
          else db in
        if negb (int4 allocated_qty && int4 requested_qty && int4 current_stock)
        then Failure "integer out of range"
        else
          match to_numeric (it_price item) with
          | Failure e => Failure e
          | Success price =>
              let db :=
                set_order_items
                  (order_items db ++
                   [mkOrderItem order_id (it_part_number item)
                                (it_description item) allocated_qty requested_qty
                                current_stock price (it_supersedes item)]) db in
              match num_mul_int allocated_qty (it_price item) with
              | Failure e => Failure e
              | Success line_price =>
                  match num_add total_alloc_price line_price with
                  | Failure e => Failure e
                  | Success total_alloc_price => Success (db, total_alloc_price)
                  end
              end
          end
  end.

(** [for item in items: ...], stopping at the first exception. *)
Fixpoint create_order_items (order_id : Z) (stock_type : string)
    (st : commit_state) (items : list Item) : outcome commit_state :=
  match items with
  | [] => Success st
  | item :: items' =>
      match create_order_item order_id stock_type st item with
      | Success st' => create_order_items order_id stock_type st' items'
      | Failure e => Failure e
      end
  end.

(** [create_order(user_id, items, stock_type)].  The header INSERT draws
    [order_id] from the sequence and fails on a primary-key clash.  Any
    exception rolls the transaction back; the sequence is not rolled
    back.  [user_id] is the key of a customer, an INTEGER already. *)
Definition create_order (db : DB) (user_id : Z) (items : list Item)
    (stock_type : string) : DB * outcome Z :=
  let order_id := orders_seq db in
  let rolled_back := set_orders_seq (order_id + 1) db in
  if existsb (fun o => Z.eqb (o_order_id o) order_id) (orders db)
  then (rolled_back, Failure "duplicate key value violates unique constraint")
  else
    let conn :=
      set_orders (orders db ++ [mkOrder order_id user_id 0%Q "Pending" stock_type])
                 rolled_back in
    match create_order_items order_id stock_type (conn, NInt 0) items with
    | Failure e => (rolled_back, Failure e)
    | Success (conn, total_alloc_price) =>
        match to_numeric total_alloc_price with
        | Failure e => (rolled_back, Failure e)
        | Success tot =>
            let conn :=
              set_orders
                (map (fun o =>
                        if Z.eqb (o_order_id o) order_id
                        then mkOrder (o_order_id o) (o_user_id o) tot
                                     (order_status o) (o_stock_type o)
                        else o) (orders conn)) conn in
            let conn :=
              set_cart (filter (fun c => negb (Z.eqb (cart_user_id c) user_id))
                               (cart conn)) conn in
            (conn, Success order_id)
        end
    end.

(** The commit as the specification words it, item by item: read the
    current free stock of [(part_number, stock_type)], a missing row counting
    as zero; allocate the minimum of the request and that stock; decrement
    the stock by the allocation when it is positive; record the line. *)
Module CommitSpec.

Definition other_key (pn stype : string) (r : StockItem) : Prop :=
  ps_part_number r <> pn \/ ps_stock_type r <> stype.

(** Step 1. *)
Definition reads (ps : list StockItem) (pn stype : string) (current : Z) : Prop :=
  (Forall (other_key pn stype) ps /\ current = 0) \/
  (exists before r after,
      ps = before ++ r :: after /\
      Forall (other_key pn stype) before /\
      ps_part_number r = pn /\ ps_stock_type r = stype /\
      ps_free_stock r = Some current).

(** Step 3: row by row, a row of the key loses [allocated] when that is
    positive, and nothing else changes. *)
Definition decrements (allocated : Z) (pn stype : string)
    (ps ps' : list StockItem) : Prop :=
  Forall2
    (fun r r' =>
       (ps_part_number r = pn /\ ps_stock_type r = stype /\ 0 < allocated ->
        r' = with_free_stock r (option_map (fun f => f - allocated)
                                           (ps_free_stock r))) /\
       (other_key pn stype r \/ allocated <= 0 -> r' = r))
    ps ps'.

Inductive commits (stock_type : string) (order_id : Z)
  : list StockItem -> list Item -> list StockItem -> list OrderItem -> Prop :=
| commits_nil ps : commits stock_type order_id ps [] ps []
| commits_cons ps item items ps1 ps' current price lines :
    reads ps (it_part_number item) stock_type current ->
    decrements (Z.min (it_qty item) current) (it_part_number item) stock_type
               ps ps1 ->
    to_numeric (it_price item) = Success price ->
    commits stock_type order_id ps1 items ps' lines ->
    commits stock_type order_id ps (item :: items) ps'
            (mkOrderItem order_id (it_part_number item) (it_description item)
                         (Z.min (it_qty item) current) (it_qty item) current
                         price (it_supersedes item) :: lines).

(** [sum(OrderItem.qty * OrderItem.price)], summed in table order. *)
Definition lines_total (lines : list OrderItem) : Q :=
  fold_left (fun acc l => (acc + inject_Z (oi_qty l) * oi_price l)%Q) lines 0%Q.

(** [total_alloc_price] as Python accumulates it from the allocations: the
    line of an item carries its allocation. *)
Fixpoint accumulated (total : Num) (lines : list OrderItem) (items : list Item)
    : outcome Num :=
  match lines, items with
  | l :: lines', item :: items' =>
      match num_mul_int (oi_qty l) (it_price item) with
      | Failure e => Failure e
      | Success line_price =>
          match num_add total line_price with
          | Failure e => Failure e
          | Success total' => accumulated total' lines' items'
          end
      end
  | _, _ => Success total
  end.

(** The value of a number that is not a float. *)
Definition exact_value (v : Num) : option Q :=
  match v with
  | NInt n => Some (inject_Z n)
  | NDecimal q => Some q
  | NFloat _ => None
  end.

(** The three quantities of a line fit their INTEGER columns. *)
Definition in_integer_range (l : OrderItem) : bool :=
  int4 (oi_qty l) && int4 (oi_requested_qty l) && int4 (oi_available_qty l).

(** A price that is an [int] or a [Decimal]. *)
Definition exact_price (item : Item) : bool :=
  match it_price item with
  | NFloat _ => false
  | _ => true
  end.

(** Whether the decimal context keeps [q] as it is: [q] has no more than 28
    significant digits. *)
Definition in_context (q : Q) : bool :=
  Qeq_bool (PyNum.dec_round q) q.

(** Whether every product [qty * price] and every partial sum of them, taken
    exactly, is kept by the decimal context. *)
Fixpoint sums_in_context (total : Q) (lines : list OrderItem) : bool :=
  match lines with
  | [] => true
  | l :: lines' =>
      let line_price := (inject_Z (oi_qty l) * oi_price l)%Q in
      in_context line_price && in_context (total + line_price) &&
      sums_in_context (total + line_price)%Q lines'
  end.

End CommitSpec.

(** ** Order reversal *)

(** [SELECT ... FROM orders WHERE order_id = :oid], [fetchone]. *)
Definition order_header (db : DB) (oid : Z) : option Order :=
  find (fun o => Z.eqb (o_order_id o) oid) (orders db).

(** [SELECT ... FROM order_items WHERE order_id = :oid]. *)
Definition order_lines (db : DB) (oid : Z) : list OrderItem :=
  filter (fun i => Z.eqb (oi_order_id i) oid) (order_items db).

(** [restore_stock_from_order(conn, order_id)]: adds the allocated quantity
    of every line of the order back to the stock rows of the header's
    stock type. *)
Definition restore_stock_from_order (db : DB) (oid : Z) : DB :=
  let items := order_lines db oid in
  let header := order_header db oid in
  match header with
  | None => db
  | Some header =>
      let stype := o_stock_type header in
      fold_left
        (fun db item =>
           if 0 <? oi_qty item
           then set_parts_stock
                  (add_free_stock (oi_qty item) (oi_part_number item) stype
                                  (parts_stock db)) db
           else db)
        items db
  end.

(** What the lines [items] give back to part [pn]: the sum of their
    positive quantities for that part. *)
Definition restored_qty (items : list OrderItem) (pn : string) : Z :=
  fold_right
    (fun i acc =>
       if (0 <? oi_qty i) && String.eqb (oi_part_number i) pn
       then oi_qty i + acc else acc)
    0 items.

(** A stock row once the lines [items] of an order with header [header]
    are given back: rows of the header's stock type gain what the lines
    hold for their part number. *)
Definition gives_back (header : Order) (items : list OrderItem) (r : StockItem)
    : StockItem :=
  if String.eqb (ps_stock_type r) (o_stock_type header)
  then with_free_stock r
         (option_map (fun f => f + restored_qty items (ps_part_number r))
                     (ps_free_stock r))
  else r.

(** [update_order_status(order_id, status)]. *)
Definition update_order_status (db : DB) (oid : Z) (status : string)
    : DB * outcome string :=
  let curr := order_header db oid in
  let db :=
    match curr with
    | Some curr =>
        if negb (String.eqb (order_status curr) "Rejected") &&
           String.eqb status "Rejected"
        then restore_stock_from_order db oid
        else db
    | None => db
    end in
  (set_orders
     (map (fun o =>
             if Z.eqb (o_order_id o) oid
             then mkOrder (o_order_id o) (o_user_id o) (total_price o) status
                          (o_stock_type o)
             else o) (orders db)) db,
   Success "Updated").

(** [delete_order(order_id)]. *)
Definition delete_order (db : DB) (oid : Z) : DB * outcome string :=
  let db := restore_stock_from_order db oid in
  let db :=
    set_order_items
      (filter (fun i => negb (Z.eqb (oi_order_id i) oid)) (order_items db)) db in
  let db :=
    set_orders (filter (fun o => negb (Z.eqb (o_order_id o) oid)) (orders db)) db in
  (db, Success "Deleted").

(** [delete_all_users_history()]. *)
Definition delete_all_users_history (db : DB) : DB * outcome string :=
  let todo :=
    filter (fun o => negb (String.eqb (order_status o) "Rejected")) (orders db) in
  let db := fold_left (fun db row => restore_stock_from_order db (o_order_id row))
                      todo db in
  let db := set_order_items [] db in
  let db := set_orders [] db in
  (db, Success "All history deleted and stock restored where applicable").

(** [delete_all_orders(stock_type)]. *)
Definition delete_all_orders (db : DB) (stock_type : string)
    : DB * outcome string :=
  let todo :=
    filter (fun o => String.eqb (o_stock_type o) stock_type &&
                     negb (String.eqb (order_status o) "Rejected")) (orders db) in
  let db := fold_left (fun db row => restore_stock_from_order db (o_order_id row))
                      todo db in
  let of_type := filter (fun o => String.eqb (o_stock_type o) stock_type)
                        (orders db) in
  let db :=
    set_order_items
      (filter (fun i => negb (existsb (fun o => Z.eqb (o_order_id o) (oi_order_id i))
                                      of_type))
              (order_items db)) db in
  let db :=
    set_orders (filter (fun o => negb (String.eqb (o_stock_type o) stock_type))
                       (orders db)) db in
  (db, Success "All orders deleted and stock restored").

(** ** Sequences of commits and reversals *)

(** The operations that write [free_stock]. *)
Inductive Op : Type :=
| OpCreateOrder (user_id : Z) (items : list Item) (stock_type : string)
| OpUpdateOrderStatus (order_id : Z) (status : string)
| OpDeleteOrder (order_id : Z)
| OpDeleteAllUsersHistory
| OpDeleteAllOrders (stock_type : string).

Definition step (db : DB) (op : Op) : DB :=
  match op with
  | OpCreateOrder user_id items stock_type =>
      fst (create_order db user_id items stock_type)
  | OpUpdateOrderStatus oid status => fst (update_order_status db oid status)
  | OpDeleteOrder oid => fst (delete_order db oid)
  | OpDeleteAllUsersHistory => fst (delete_all_users_history db)
  | OpDeleteAllOrders stock_type => fst (delete_all_orders db stock_type)
  end.

Definition run (db : DB) (ops : list Op) : DB := fold_left step ops db.

(** No stock row holds a negative [free_stock]. *)
Definition stock_nonneg (ps : list StockItem) : Prop :=
  Forall (fun r => forall f, ps_free_stock r = Some f -> 0 <= f) ps.

Definition stock_key (r : StockItem) : string * string :=
  (ps_part_number r, ps_stock_type r).

(** At most one row per [(part_number, stock_type)], which the table does
    not enforce. *)
Definition stock_keys_unique (ps : list StockItem) : Prop :=
  NoDup (map stock_key ps).

Definition stock_ok (ps : list StockItem) : Prop :=
  stock_keys_unique ps /\ stock_nonneg ps.

(** ** Price adjustment *)

(** [round(float(price) * (1 + adjustment_percent / 100.0), 2)], in floats
    throughout: [base] is the stored price (0 for NULL) and
    [adjustment_percent] the value of the float passed, which the callers
    take from [float(price_adjustment_percent or 0)]. *)
Definition adjust_price (base adjustment_percent : Q) : PyNum.Float :=
  PyNum.round2
    (PyNum.mul (PyNum.of_exact base)
               (PyNum.add (PyNum.Finite 1)
                          (PyNum.percent (PyNum.of_exact adjustment_percent)))).

(** ** Bulk processing *)

(** A row of the uploaded sheet once its headers are normalised: [s.no],
    [part_number], [qty]. *)
Record BulkRow := mkBulkRow {
  b_sno : Z;
  b_part_number : string;
  b_qty : Z
}.

(** A row of the [stock] frame: the selected columns of an active catalog
    row, with its [match_key]. *)
Record StockFrameRow := mkStockFrameRow {
  sf_part_number : string;
  sf_description : option string;
  sf_free_stock : option Z;
  sf_price : option Num;
  sf_superseded : option string;
  sf_match_key : string
}.

(** A row of the merged frame: the sheet's columns and, when the left join
    found one, the catalog row. *)
Record MergedRow := mkMergedRow {
  m_sno : Z;
  m_original_part_number : string;
  m_qty : Z;
  m_stock : option StockFrameRow
}.

(** The ['S.No'] cell of an output row: the number itself in an "Invalid
    Part" row, text everywhere else. *)
Inductive SerialNo : Type :=
| SNoNum (n : Z)
| SNoStr (s : string).

(** An entry of [results_list]. *)
Record OutRow := mkOutRow {
  r_sno : SerialNo;
  r_original_part_number : string;
  r_description : option string;
  r_price : option Num;
  r_available_qty : Z;
  r_requested_qty : Z;
  r_allocated_qty : Z;
  r_back_order : Z;
  r_no_record : bool;
  r_status : string;
  r_allocated_part_number : option string;
  r_supersedes : option string
}.

Definition default {A : Type} (d : A) (o : option A) : A :=
  match o with
  | Some a => a
  | None => d
  end.

(** [str(x).strip()] when [x] is not null and that text is not empty. *)
Definition nonblank (x : option string) : option string :=
  match x with
  | Some s =>
      match Py.strip s with
      | EmptyString => None
      | t => Some t
      end
  | None => None
  end.

(** The rows of the [stock] frame as they are fetched: active rows of the
    stock type, in scan order, each with its [match_key]. *)
Definition stock_frame (ps : list StockItem) (stock_type : string)
    : list StockFrameRow :=
  map (fun r =>
         mkStockFrameRow
           (ps_part_number r) (ps_description r) (ps_free_stock r)
           (option_map NDecimal (ps_price r)) (ps_superseded r)
           (Py.strip (Py.replace "-" "" (ps_part_number r))))
      (filter (fun r => String.eqb (ps_stock_type r) stock_type && ps_is_active r)
              ps).

(** [if adjustment_percent != 0: stock['price'] = stock['price'].fillna(0) *
    (1 + adjustment_percent / 100.0)], then [.round(2)].  The column holds
    what the driver returned, a [Decimal] for each price, and a [Decimal]
    does not multiply with a float; where every price is NULL the column
    becomes one of [0.0]. *)
Definition adjust_stock (adjustment_percent : Q) (stock : list StockFrameRow)
    : outcome (list StockFrameRow) :=
  if Qeq_bool adjustment_percent 0 then Success stock
  else if existsb (fun s => match sf_price s with
                            | Some _ => true
                            | None => false
                            end) stock
       then Failure
              "unsupported operand type(s) for *: 'decimal.Decimal' and 'float'"
       else Success
              (map (fun s =>
                      mkStockFrameRow (sf_part_number s) (sf_description s)
                                      (sf_free_stock s)
                                      (Some (NFloat (PyNum.Finite 0)))
                                      (sf_superseded s) (sf_match_key s))
                   stock).

(** [df.merge(stock, left_on="lookup_part_number", right_on="match_key",
    how="left")]: every sheet row, in order, once per catalog row with its
    key, or once with empty catalog columns. *)
Definition merge_left (df : list BulkRow) (stock : list StockFrameRow)
    : list MergedRow :=
  flat_map
    (fun row =>
       let lookup_part_number :=
         Py.replace "-" "" (sanitize_part_number (Some (b_part_number row))) in
       match filter (fun s => String.eqb (sf_match_key s) lookup_part_number)
                    stock with
       | [] => [mkMergedRow (b_sno row) (b_part_number row) (b_qty row) None]
       | found =>
           map (fun s => mkMergedRow (b_sno row) (b_part_number row) (b_qty row)
                                     (Some s)) found
       end) df.

(** [int(superseded_part_data.get('free_stock') or 0)].  A NULL in a column
    that also holds numbers reaches Python as NaN, which is truthy and which
    [int] refuses; in a column of NULLs only it stays [None]. *)
Definition replacement_stock (stock : list StockFrameRow)
    (superseded_part_data : StockFrameRow) : outcome Z :=
  match sf_free_stock superseded_part_data with
  | Some n => Success n
  | None =>
      if forallb (fun s => match sf_free_stock s with
                           | None => true
                           | Some _ => false
                           end) stock
      then Success 0
      else Failure "cannot convert float NaN to integer"
  end.

(** The lookup of the replacement: [stock_map] by part number first, then
    [stock_map_norm] by the marker without its hyphens; each map keeps the
    first catalog row of a key. *)
Definition superseded_lookup (stock : list StockFrameRow) (new_pn : string)
    : option StockFrameRow :=
  match find (fun s => String.eqb (sf_part_number s) new_pn) stock with
  | Some d => Some d
  | None =>
      find (fun s => String.eqb (sf_match_key s) (Py.replace "-" "" new_pn)) stock
  end.

(** The body of [for idx, row in df.iterrows()]: the rows it appends to
    [results_list]. *)
Definition bulk_row (stock : list StockFrameRow) (row : MergedRow)
    : outcome (list OutRow) :=
  let orig_pn := m_original_part_number row in
  let desc := match m_stock row with
              | Some s => sf_description s
              | None => None
              end in
  let avail := match m_stock row with
               | Some s => default 0 (sf_free_stock s)
               | None => 0
               end in
  let price := match m_stock row with
               | Some s => sf_price s
               | None => None
               end in
  let req_qty := m_qty row in
  let sno := m_sno row in
  let real_pn := match m_stock row with
                 | Some s => sf_part_number s
                 | None => orig_pn
                 end in
  match desc with
  | None =>
      Success [mkOutRow (SNoNum sno) orig_pn None (Some (NInt 0)) 0 req_qty 0
                        req_qty true "Invalid Part" None None]
  | Some _ =>
      let alloc_orig := Z.min req_qty avail in
      let back_order_orig := Z.max 0 (req_qty - alloc_orig) in
      let remainder := req_qty - alloc_orig in
      let sup_pointer := match m_stock row with
                         | Some s => sf_superseded s
                         | None => None
                         end in
      let superseded_part_data :=
        if 0 <? remainder
        then match nonblank sup_pointer with
             | Some new_pn => superseded_lookup stock new_pn
             | None => None
             end
        else None in
      let sup_display := nonblank sup_pointer in
      let plain status back_order :=
        mkOutRow (SNoStr (Py.str_int sno)) orig_pn desc price avail req_qty
                 alloc_orig back_order false status (Some real_pn) sup_display in
      let standard :=
        Success [plain (if 0 <? alloc_orig then "Partial" else "Out of Stock")
                       back_order_orig] in
      if remainder <=? 0
      then Success [plain "Fully Allocated" 0]
      else
        match superseded_part_data with
        | Some d =>
            match replacement_stock stock d with
            | Failure e => Failure e
            | Success sup_avail =>
                if 0 <? sup_avail
                then
                  match num_float (default (NInt 0) (sf_price d)) with
                  | Failure e => Failure e
                  | Success sup_price =>
                      let alloc_sup := Z.min remainder sup_avail in
                      Success
                        [plain (if 0 <? alloc_orig then "Partial - Split"
                                else "Out of Stock") back_order_orig;
                         mkOutRow (SNoStr (Py.str_int sno ++ ".1")%string) orig_pn
                                  (Some ("(Superseded) " ++
                                         default "None" (sf_description d))%string)
                                  (Some (NFloat sup_price)) sup_avail 0 alloc_sup
                                  0 false "Superseded fulfillment"
                                  (Some (sf_part_number d)) None]
                  end
                else standard
            end
        | None => standard
        end
  end.

(** The loop over the merged frame: [results_list], or the exception that
    ends it. *)
Fixpoint bulk_rows (stock : list StockFrameRow) (rows : list MergedRow)
    : outcome (list OutRow) :=
  match rows with
  | [] => Success []
  | row :: rows' =>
      match bulk_row stock row with
      | Failure e => Failure e
      | Success out =>
          match bulk_rows stock rows' with
          | Failure e => Failure e
          | Success outs => Success (out ++ outs)
          end
      end
  end.

(** The order [sort_values] puts on a column of mixed cells: numbers before
    text, numbers by value, text by code point. *)
Definition serial_compare (a b : SerialNo) : comparison :=
  match a, b with
  | SNoNum x, SNoNum y => Z.compare x y
  | SNoNum _, SNoStr _ => Lt
  | SNoStr _, SNoNum _ => Gt
  | SNoStr x, SNoStr y => String.compare x y
  end.

(** [by=['S.No', 'status'], ascending=[True, False]]. *)
Definition output_leb (a b : OutRow) : bool :=
  match serial_compare (r_sno a) (r_sno b) with
  | Lt => true
  | Gt => false
  | Eq => String.leb (r_status b) (r_status a)
  end.

(** [process_bulk_enquiry(df_bulk, stock_type, adjustment_percent)], from
    the sort on [s.no] onwards; a [Failure] is the exception the call
    raises.  Sheet rows of equal [s.no] are taken in sheet order.  With no
    active catalog row the [stock] frame has no [price] and no [free_stock]
    column, and the first access to one of them fails. *)
Definition process_bulk_enquiry (db : DB) (df_bulk : list BulkRow)
    (stock_type : string) (adjustment_percent : Q) : outcome (list OutRow) :=
  let df := Py.sort (fun a b => b_sno a <=? b_sno b) df_bulk in
  let stock := stock_frame (parts_stock db) stock_type in
  match stock with
  | [] =>
      if Qeq_bool adjustment_percent 0
      then Failure "KeyError: 'free_stock'"
      else Failure "KeyError: 'price'"
  | _ =>
      match adjust_stock adjustment_percent stock with
      | Failure e => Failure e
      | Success stock =>
          match bulk_rows stock (merge_left df stock) with
          | Failure e => Failure e
          | Success results_list => Success (Py.sort output_leb results_list)
          end
      end
  end.

(** ** Catalog search *)

(** An element of the list [get_parts_like] returns: the selected columns
    with the adjusted price, and the replacement chain hanging off
    [superseded_part]. *)
#[warnings="-register-all"] Inductive Part : Type :=
| mkPart (part_number : string) (description : option string)
         (free_stock : option Z) (price : PyNum.Float) (stock_type : string)
         (superseded : option string) (is_superseded_replacement : bool)
         (superseded_part : option Part) (has_supersession : bool).

Definition p_part_number (p : Part) : string :=
  let 'mkPart pn _ _ _ _ _ _ _ _ := p in pn.
Definition p_free_stock (p : Part) : option Z :=
  let 'mkPart _ _ fs _ _ _ _ _ _ := p in fs.
Definition p_price (p : Part) : PyNum.Float :=
  let 'mkPart _ _ _ pr _ _ _ _ _ := p in pr.
Definition p_superseded_part (p : Part) : option Part :=
  let 'mkPart _ _ _ _ _ _ _ sp _ := p in sp.
Definition p_has_supersession (p : Part) : bool :=
  let 'mkPart _ _ _ _ _ _ _ _ h := p in h.

(** A result and the replacements hanging off it, outermost first. *)
Fixpoint chain (p : Part) : list Part :=
  match p with
  | mkPart _ _ _ _ _ _ _ sp _ =>
      p :: match sp with
           | Some q => chain q
           | None => []
           end
  end.

Definition is_some {A : Type} (o : option A) : bool :=
  match o with
  | Some _ => true
  | None => false
  end.

Section CatalogSearch.

(** The store's operators, which the module only names in its SQL text:
    [ilike s pattern] for [s ILIKE pattern], and [collate_leb a b] for
    "[a] sorts no later than [b]" under the column's collation. *)
Variable ilike : string -> string -> bool.
Variable collate_leb : string -> string -> bool.

Variable ps : list StockItem.
Variable stock_type : string.
Variable adjustment_percent : Q.

Definition ilike_null (x : option string) (pattern : string) : bool :=
  match x with
  | Some s => ilike s pattern
  | None => false
  end.

(** [CASE WHEN part_number ILIKE :exact_start THEN 1 ELSE 2 END]. *)
Definition search_rank (cleaned_prefix : string) (part_number : string) : Z :=
  if ilike part_number (cleaned_prefix ++ "%")%string then 1 else 2.

(** [ORDER BY CASE ... END, part_number]. *)
Definition search_leb (cleaned_prefix : string) (a b : StockItem) : bool :=
  (search_rank cleaned_prefix (ps_part_number a) <?
   search_rank cleaned_prefix (ps_part_number b)) ||
  ((search_rank cleaned_prefix (ps_part_number a) =?
    search_rank cleaned_prefix (ps_part_number b)) &&
   collate_leb (ps_part_number a) (ps_part_number b)).

(** The order of the result as the specification words it: the part
    numbers the cleaned query is a prefix of come first; within each
    group, part numbers ascend. *)
Definition search_before (cleaned_prefix : string) (a b : string) : Prop :=
  search_rank cleaned_prefix a < search_rank cleaned_prefix b \/
  (search_rank cleaned_prefix a = search_rank cleaned_prefix b /\
   collate_leb a b = true).

(** The SELECT of [get_parts_like]: WHERE, ORDER BY, LIMIT 50.  Rows the
    ORDER BY does not tell apart are taken in scan order. *)
Definition search_query (prefix : string) : list StockItem :=
  let sanitized_input := sanitize_part_number (Some prefix) in
  let cleaned_prefix := Py.strip (Py.replace "-" "" sanitized_input) in
  let pattern := ("%" ++ cleaned_prefix ++ "%")%string in
  let raw_pattern := ("%" ++ Py.strip prefix ++ "%")%string in
  firstn 50
    (Py.sort (search_leb cleaned_prefix)
       (filter
          (fun r =>
             (ilike (ps_part_number r) pattern ||
              ilike (ps_part_number r) raw_pattern ||
              ilike_null (ps_description r) pattern ||
              ilike_null (ps_superseded r) pattern) &&
             String.eqb (ps_stock_type r) stock_type && ps_is_active r)
          ps)).

(** The SELECT of [check_supersession]. *)
Definition select_part (pn : string) : list StockItem :=
  filter (fun r => String.eqb (ps_part_number r) pn &&
                   String.eqb (ps_stock_type r) stock_type && ps_is_active r)
         ps.

(** What [process_row] makes of a row whose part number is new. *)
Definition processed (row : StockItem) (replacement : bool)
    (sup : option Part) (flag : bool) : Part :=
  mkPart (ps_part_number row) (ps_description row) (ps_free_stock row)
         (adjust_price (default 0%Q (ps_price row)) adjustment_percent)
         (ps_stock_type row) (ps_superseded row) replacement sup flag.

(** A result made from a catalog row: same part number and stock, and
    the row's price, NULL counting as 0, adjusted and rounded. *)
Definition from_row (row : StockItem) (p : Part) : Prop :=
  p_part_number p = ps_part_number row /\
  p_free_stock p = ps_free_stock row /\
  p_price p = adjust_price (default 0%Q (ps_price row)) adjustment_percent.

(** A result made from an active catalog row of the stock type. *)
Definition catalog_part (p : Part) : Prop :=
  exists row,
    In row ps /\ ps_stock_type row = stock_type /\ ps_is_active row = true /\
    from_row row p.

(** [check_supersession(current_part_data, depth)], with [budget] the
    number of levels left, [6 - depth]: the call at depth 6 returns
    [None].  [seen] is [seen_parts], which [process_row] consults and
    extends; the result is the replacement, if any, and the set as the
    call leaves it. *)
Fixpoint check_supersession (budget : nat) (seen : list string)
    (sup : option string) : option Part * list string :=
  match budget with
  | O => (None, seen)
  | S budget' =>
      match nonblank sup with
      | None => (None, seen)
      | Some sup_clean =>
          (fix each (sup_rows : list StockItem) (seen : list string)
             : option Part * list string :=
             match sup_rows with
             | [] => (None, seen)
             | s_row :: rest =>
                 if Py.mem (ps_part_number s_row) seen
                 then each rest seen
                 else
                   let seen := ps_part_number s_row :: seen in
                   let '(resup, seen) :=
                     check_supersession budget' seen (ps_superseded s_row) in
                   (Some (processed s_row true resup false), seen)
             end) (select_part sup_clean) seen
      end
  end.

(** [for row in rows: ...]: the list [results]. *)
Fixpoint search_results (rows : list StockItem) (seen : list string)
    : list Part :=
  match rows with
  | [] => []
  | row :: rest =>
      if Py.mem (ps_part_number row) seen
      then search_results rest seen
      else
        let seen := ps_part_number row :: seen in
        let '(sup_obj, seen) := check_supersession 6 seen (ps_superseded row) in
        processed row false sup_obj (is_some sup_obj)
        :: search_results rest seen
  end.

(** [get_parts_like(prefix, stock_type, adjustment_percent)]. *)
Definition get_parts_like (prefix : string) : list Part :=
  search_results (search_query prefix) [].

End CatalogSearch.

(** A reference ILIKE for ASCII text without escapes: [%] stands for any
    run of characters, [_] for any one character, letters match whatever
    their case. *)
Fixpoint ilike_ascii_chars (pattern : list ascii) : list ascii -> bool :=
  match pattern with
  | [] => fun s => match s with [] => true | _ :: _ => false end
  | c :: pattern' =>
      if Ascii.eqb c "%"
      then fix any (s : list ascii) : bool :=
             ilike_ascii_chars pattern' s ||
             match s with
             | [] => false
             | _ :: s' => any s'
             end
      else fun s =>
             match s with
             | [] => false
             | d :: s' =>
                 (Ascii.eqb c "_" ||
                  Ascii.eqb (Py.upper_char c) (Py.upper_char d)) &&
                 ilike_ascii_chars pattern' s'
             end
  end.

Definition ilike_ascii (s pattern : string) : bool :=
  ilike_ascii_chars (list_ascii_of_string pattern) (list_ascii_of_string s).

(** ** Sample data *)

Module Sample.

(** A cart built by the function itself: another user's line, then a line
    of user 7. *)
Definition cart_db : DB :=
  add_to_cart_db
    (add_to_cart_db (mkDB [] [] [] [] 1 1) 8 "ab-1" (Some "Bolt") 5 (3 # 2) None)
    7 "ab*o-1" (Some "Washer") 2 (5 # 4) (Some "AB-9").

Definition widget (free_stock : Z) (is_active : bool) : StockItem :=
  mkStock "W-100" (Some "Widget") (Some free_stock) (Some (5 # 2))
          "parts_stock" is_active None.

(** One active widget, four in stock. *)
Definition four_widgets : DB := mkDB [widget 4 true] [] [] [] 1 1.

Definition ten_widgets : Item :=
  mkItem "W-100" (Some "Widget") 10 (NDecimal (5 # 2)) None.

(** Three widgets at [float('0.1')], the float nearest to one tenth. *)
Definition three_at_a_tenth : Item :=
  mkItem "W-100" (Some "Widget") 3
         (NFloat (PyNum.Finite (3602879701896397 # 36028797018963968))) None.

Definition widget_upload (free_stock : Z) : UploadRow :=
  mkUploadRow "W-100" (Some "Widget") (Some free_stock) (5 # 2) None.

(** The catalog after two uploads, of ten widgets and then of two: the
    deactivated row of the first generation and the active row of the
    second. *)
Definition two_generations : DB :=
  upload_parts_stock
    (upload_parts_stock (mkDB [] [] [] [] 1 1) [widget_upload 10] "parts_stock")
    [widget_upload 2] "parts_stock".

(** A pump, five in stock, superseded by a newer pump, thirty in stock. *)
Definition pump (description : option string) : StockItem :=
  mkStock "P-1" description (Some 5) (Some (10 # 1)) "parts_stock" true
          (Some "P-2").

Definition pump_v2 : StockItem :=
  mkStock "P-2" (Some "Pump v2") (Some 30) (Some (12 # 1)) "parts_stock" true
          None.

Definition pumps : DB := mkDB [pump (Some "Pump"); pump_v2] [] [] [] 1 1.

(** The same catalog, the first pump uploaded without a description. *)
Definition undescribed_pumps : DB :=
  upload_parts_stock (mkDB [] [] [] [] 1 1)
    [mkUploadRow "P-1" None (Some 5) (10 # 1) (Some "P-2");
     mkUploadRow "P-2" (Some "Pump v2") (Some 30) (12 # 1) None]
    "parts_stock".

(** A store with no catalog row at all. *)
Definition no_catalog : DB := mkDB [] [] [] [] 1 1.

(** Two parts whose numbers hold "BLT-1", one of them at its start. *)
Definition bolts : list StockItem :=
  [mkStock "BLT-10" (Some "Bolt") (Some 5) (Some (2 # 1)) "parts_stock" true None;
   mkStock "ABLT-1X" (Some "Adapter") (Some 5) (Some (3 # 1)) "parts_stock" true
           None].

(** The same parts, numbered without hyphens. *)
Definition plain_bolts : list StockItem :=
  [mkStock "ABLT1X" (Some "Adapter") (Some 5) (Some (3 # 1)) "parts_stock" true
           None;
   mkStock "BLT10" (Some "Bolt") (Some 5) (Some (2 # 1)) "parts_stock" true None].

(** A catalog for the search: two bolts, one of them superseded by the
    other, a nut with no price, a retired bolt and a bolt of another
    stock type. *)
Definition fasteners : list StockItem :=
  [mkStock "NUT-7" (Some "Nut for BLT") (Some 0) None "parts_stock" true None;
   mkStock "BLT-20" (Some "Bolt M20") (Some 3) (Some (199 # 100)) "parts_stock"
           true None;
   mkStock "BLT-10" (Some "Bolt M10") (Some 0) (Some (5 # 4)) "parts_stock"
           true (Some " BLT-20 ");
   mkStock "BLT-05" (Some "Bolt M5") (Some 9) (Some (1 # 2)) "parts_stock"
           false None;
   mkStock "BLT-30" (Some "Bolt M30") (Some 1) (Some (3 # 1)) "HBD_stock"
           true None].

End Sample.

(** ** Stock management and reads *)

(** [reset_stock(stock_type)]: the rows of the stock type are deleted,
    active or not. *)
Definition reset_stock (db : DB) (stock_type : string) : DB :=
  set_parts_stock
    (filter (fun r => negb (String.eqb (ps_stock_type r) stock_type))
            (parts_stock db)) db.

(** [get_part_by_number(part_number, stock_type)]: the first active row of
    the key, of which the caller reads [part_number], [description],
    [free_stock] and [price]. *)
Definition get_part_by_number (db : DB) (part_number stock_type : string)
    : option StockItem :=
  find (fun r => String.eqb (ps_part_number r) part_number &&
                 String.eqb (ps_stock_type r) stock_type && ps_is_active r)
       (parts_stock db).

(** The frame [get_stock_csv(stock_type)] writes out: [part_number],
    [description] and [stock] of the active rows of the stock type. *)
Definition get_stock_csv_frame (db : DB) (stock_type : string)
    : list (string * option string * option Z) :=
  map (fun r => (ps_part_number r, ps_description r, ps_free_stock r))
      (filter (fun r => String.eqb (ps_stock_type r) stock_type && ps_is_active r)
              (parts_stock db)).

(** A stock row once the lines [lines] of an order on [stock_type] are
    taken from it: the mirror image of [gives_back]. *)
Definition takes (stock_type : string) (lines : list OrderItem) (r : StockItem)
    : StockItem :=
  if String.eqb (ps_stock_type r) stock_type
  then with_free_stock r
         (option_map (fun f => f - restored_qty lines (ps_part_number r))
                     (ps_free_stock r))
  else r.

(** Nothing but [free_stock] differs between [r] and [r'], and
    [free_stock] is not lower in [r']. *)
Definition raised (r r' : StockItem) : Prop :=
  with_free_stock r' (ps_free_stock r) = r /\
  match ps_free_stock r, ps_free_stock r' with
  | Some f, Some f' => f <= f'
  | None, None => True
  | _, _ => False
  end.

(** The same, row by row along the two lists. *)
Definition raised_in_place (ps ps' : list StockItem) : Prop :=
  Forall2 raised ps ps'.

(** The rows of [ps'] are the rows of [ps] one for one, each related to its
    counterpart by [R], in whatever order either table holds them. *)
Definition rows_paired (R : StockItem -> StockItem -> Prop)
    (ps ps' : list StockItem) : Prop :=
  exists l l', Permutation l ps /\ Permutation l' ps' /\ Forall2 R l l'.

(** Every row has a counterpart that differs in nothing but a [free_stock]
    that is not lower. *)
Definition only_raised (ps ps' : list StockItem) : Prop :=
  rows_paired raised ps ps'.

(** Rows of another stock type are left exactly as they are. *)
Definition same_outside (stock_type : string) (ps ps' : list StockItem) : Prop :=
  Forall2 (fun r r' => ps_stock_type r <> stock_type -> r' = r) ps ps'.

(** What [restore_stock_from_order] does to the stock rows for the order
    [o], as a function of the two order tables. *)
Definition restore_rows (os : list Order) (ois : list OrderItem)
    (ps : list StockItem) (o : Order) : list StockItem :=
  match find (fun h => Z.eqb (o_order_id h) (o_order_id o)) os with
  | Some h =>
      map (gives_back h (filter (fun i => Z.eqb (oi_order_id i) (o_order_id o)) ois))
          ps
  | None => ps
  end.

(** A run of commits: [(user_id, items, stock_type)] each. *)
Definition commit_all (db : DB) (commits : list (Z * list Item * string)) : DB :=
  fold_left (fun db c => fst (create_order db (fst (fst c)) (snd (fst c)) (snd c)))
            commits db.

(** The stock rows once every order of the store is given back, oldest
    first. *)
Definition undone (db : DB) : list StockItem :=
  fold_left (restore_rows (orders db) (order_items db)) (orders db) (parts_stock db).

Definition none_rejected (db : DB) : Prop :=
  Forall (fun o => order_status o <> "Rejected") (orders db).

(** The primary key of [orders], and the foreign key of [order_items]. *)
Definition orders_key_ok (db : DB) : Prop :=
  NoDup (map o_order_id (orders db)).

Definition lines_key_ok (db : DB) : Prop :=
  Forall (fun i => exists o, In o (orders db) /\ o_order_id o = oi_order_id i)
         (order_items db).

Module SampleOrders.

(** Two stock types with the same part, and one order on each. *)
Definition two_types : DB :=
  fst (create_order
         (fst (create_order
                 (mkDB [Sample.widget 4 true;
                        mkStock "W-100" (Some "Widget") (Some 9) (Some (3 # 1))
                                "HBD_stock" true None] [] [] [] 1 1)
                 7 [Sample.ten_widgets] "parts_stock"))
         8 [mkItem "W-100" (Some "Widget") 2 (NDecimal (3 # 1)) None] "HBD_stock").

End SampleOrders.

(** ** More of the cart *)

(** [remove_from_cart_db(cart_id)]. *)
Definition remove_from_cart_db (db : DB) (cid : Z) : DB :=
  set_cart (filter (fun c => negb (Z.eqb (cart_id c) cid)) (cart db)) db.

(** [update_cart_item_db(cart_id, new_qty)]. *)
Definition update_cart_item_db (db : DB) (cid new_qty : Z) : DB :=
  set_cart
    (map (fun c =>
            if Z.eqb (cart_id c) cid
            then mkCart (cart_id c) (cart_user_id c) (cart_part_number c)
                        (cart_description c) new_qty (cart_price c)
                        (cart_supersedes c)
            else c) (cart db)) db.

(** [clear_cart_db(user_id)]. *)
Definition clear_cart_db (db : DB) (user_id : Z) : DB :=
  set_cart (filter (fun c => negb (Z.eqb (cart_user_id c) user_id)) (cart db)) db.

(** An entry of the list [get_user_cart] returns: the selected columns and
    the four keys the loop adds. *)
Record CartView := mkCartView {
  cv_id : Z;
  cv_part_number : string;
  cv_supersedes : option string;
  cv_description : option string;
  cv_qty : Z;
  cv_price : Q;
  cv_available_qty : option Z;
  cv_allocated_qty : Z;
  cv_status : string;
  cv_no_record : bool;
  cv_back_order : Z
}.

(** The body of [for row in rows] in [get_user_cart]; [available_qty] is
    NULL when the left join found no stock row, or a row with no stock
    figure. *)
Definition cart_view (c : CartLine) (available_qty : option Z) : CartView :=
  let req := cart_qty c in
  let avail := default 0 available_qty in
  let allocated_status :=
    if req <=? avail then (req, "Fully Allocated")
    else if 0 <? avail then (avail, "Partial Fulfillment")
    else (0, "Out of Stock") in
  mkCartView (cart_id c) (cart_part_number c) (cart_supersedes c)
             (cart_description c) req (cart_price c) available_qty
             (fst allocated_status) (snd allocated_status) false
             (Z.max 0 (req - avail)).

(** [get_user_cart(user_id, stock_type)]: the lines of the user, newest
    first (the table is kept in insertion order, the order of the
    timestamps), each joined to the active stock rows of its part number
    and the stock type, once per such row, or once with no stock figure. *)
Definition get_user_cart (db : DB) (user_id : Z) (stock_type : string)
    : list CartView :=
  flat_map
    (fun c =>
       match filter (fun p => String.eqb (cart_part_number c) (ps_part_number p) &&
                              String.eqb (ps_stock_type p) stock_type &&
                              ps_is_active p) (parts_stock db) with
       | [] => [cart_view c None]
       | found => map (fun p => cart_view c (ps_free_stock p)) found
       end)
    (rev (filter (fun c => Z.eqb (cart_user_id c) user_id) (cart db))).

(** The "Checkout Selected" button of [show_cart_ui]: [selected] holds, for
    each selected row of the editor, the cart [id] and the item fields
    ([qty] is the row's [Requested_Qty]). *)
Definition checkout_selected (db : DB) (user_id : Z) (selected : list (Z * Item))
    (stock_type : string) : DB * outcome Z :=
  match selected with
  | [] => (db, Failure "No items selected.")
  | _ =>
      match create_order db user_id (map snd selected) stock_type with
      | (db, Success order_id) =>
          (fold_left (fun db row => remove_from_cart_db db (fst row)) selected db,
           Success order_id)
      | (db, Failure msg) => (db, Failure msg)
      end
  end.

(** The operations that write the cart. *)
Inductive CartOp : Type :=
| CartAdd (user_id : Z) (part_number : string) (description : option string)
          (qty : Z) (price : Q) (supersedes : option string)
| CartRemove (cid : Z)
| CartUpdate (cid new_qty : Z)
| CartClear (user_id : Z)
| CartCheckout (user_id : Z) (selected : list (Z * Item)) (stock_type : string)
| CartOrder (user_id : Z) (items : list Item) (stock_type : string).

Definition cart_step (db : DB) (op : CartOp) : DB :=
  match op with
  | CartAdd user_id part_number description qty price supersedes =>
      add_to_cart_db db user_id part_number description qty price supersedes
  | CartRemove cid => remove_from_cart_db db cid
  | CartUpdate cid new_qty => update_cart_item_db db cid new_qty
  | CartClear user_id => clear_cart_db db user_id
  | CartCheckout user_id selected stock_type =>
      fst (checkout_selected db user_id selected stock_type)
  | CartOrder user_id items stock_type =>
      fst (create_order db user_id items stock_type)
  end.

Definition cart_run (db : DB) (ops : list CartOp) : DB := fold_left cart_step ops db.

(** The cart as the module keeps it: one line per key, one line per user
    and part number, every part number in normal form. *)
Definition cart_ok (db : DB) : Prop :=
  NoDup (map cart_id (cart db)) /\
  NoDup (map (fun c => (cart_user_id c, cart_part_number c)) (cart db)) /\
  Forall (fun c => sanitize_part_number (Some (cart_part_number c)) =
                   cart_part_number c) (cart db).

(** Every character of [s] passes [p]. *)
Fixpoint all_chars (p : ascii -> bool) (s : string) : bool :=
  match s with
  | EmptyString => true
  | String c s' => p c && all_chars p s'
  end.

(** A character a normalised part number can hold: no [*], [@] or [+], no
    letter O, no lower-case letter. *)
Definition normal_char (c : ascii) : bool :=
  negb (NormalizeSpec.is_symbol c) && negb (Ascii.eqb c "O") &&
  Ascii.eqb (Py.upper_char c) c.

(** ** The bulk order screen *)

(** The item the "Process Bulk Order" button of [bulk_order_tab] makes of a
    selected row of the review table that is not flagged [No Record]: the
    part number is [real_part_number], or the displayed one when that is
    missing, and the quantity is the row's [Requested_Qty]; [price] is what
    [float(row['Price'])] returns. *)
Definition bulk_order_item (row : OutRow) (price : PyNum.Float) : Item :=
  mkItem (default (r_original_part_number row) (r_allocated_part_number row))
         (r_description row) (r_requested_qty row) (NFloat price)
         (r_supersedes row).

(** ** The enquiry screen *)

(** A row of [res_data], the table [parts_enquiry_tab] shows for a search. *)
Record EnquiryRow := mkEnquiryRow {
  e_sno : Z;
  e_part_number : string;
  e_description : option string;
  e_price : PyNum.Float;
  e_available_qty : Z;
  e_requested_qty : Z;
  e_supersedes : option string;
  e_select : bool
}.

(** [add_to_results(part_obj, is_superseded, parent_pn)]: the state is
    [s_no_counter] and [res_data]. *)
Fixpoint add_to_results (part_obj : Part) (is_superseded : bool)
    (parent_pn : option string) (st : Z * list EnquiryRow)
    : Z * list EnquiryRow :=
  match part_obj with
  | mkPart pn description free_stock price _ _ _ sup_part _ =>
      let '(s_no_counter, res_data) := st in
      let res_data :=
        res_data ++
        [mkEnquiryRow s_no_counter pn description price (default 0 free_stock)
                      (if 0 <? default 0 free_stock then 1 else 0)
                      (if is_superseded then parent_pn
                       else option_map p_part_number sup_part)
                      false] in
      let s_no_counter := s_no_counter + 1 in
      match sup_part with
      | Some sup_part => add_to_results sup_part true (Some pn) (s_no_counter, res_data)
      | None => (s_no_counter, res_data)
      end
  end.

(** [for r in results: add_to_results(r)]. *)
Definition enquiry_table (results : list Part) : list EnquiryRow :=
  snd (fold_left (fun st r => add_to_results r false None st) results (1, [])).

(** ** The order history screen *)

(** [header_tot_req] and [header_tot_alloc] of [display_order_history], over
    the lines [get_order_details] returns for the order.  The prices come
    back from the store as [Decimal]s, so each product and each sum is
    rounded by the decimal context; a price of zero is replaced by the int
    0, which changes no value. *)
Definition header_totals (details : list OrderItem) : Q * Q :=
  fold_left
    (fun tot d =>
       let p := oi_price d in
       (PyNum.dec_round
          (fst tot + PyNum.dec_round (p * inject_Z (oi_requested_qty d)))%Q,
        PyNum.dec_round
          (snd tot + PyNum.dec_round (p * inject_Z (oi_qty d)))%Q))
    details (0%Q, 0%Q).

(** A cell of the frame [d_df]. *)
Inductive Cell : Type :=
| CellInt (n : Z)
| CellNum (q : Q)
| CellText (s : option string)
| CellBool (b : bool).

(** [get_status(r)]. *)
Definition get_status (req alloc : Z) : string :=
  if req <=? alloc then "Fully Allocated"
  else if 0 <? alloc then "Partial Fulfillment"
  else "Out of Stock".

(** A row of [d_df] once the columns are renamed, 'Back Order' and
    'Status' are added and the columns are put in the order of [cols]; the
    table [order_items] never has its [no_record_flag] written, which
    leaves the default. *)
Definition history_row (sno : Z) (d : OrderItem) : list (string * Cell) :=
  [("Select", CellBool false);
   ("S.No", CellInt sno);
   ("Part Number", CellText (Some (oi_part_number d)));
   ("Description", CellText (oi_description d));
   ("Price", CellNum (oi_price d));
   ("Available_Qty", CellInt (oi_available_qty d));
   ("Requested_Qty", CellInt (oi_requested_qty d));
   ("Allocated_Qty", CellInt (oi_qty d));
   ("Back Order", CellInt (Z.max 0 (oi_requested_qty d - oi_qty d)));
   ("Supersedes", CellText (oi_supersedes d));
   ("Status", CellText (Some (get_status (oi_requested_qty d) (oi_qty d))));
   ("No Record", CellBool false)].

Definition history_rows (details : list OrderItem) : list (list (string * Cell)) :=
  map (fun nd => history_row (Z.of_nat (fst nd)) (snd nd))
      (combine (seq 1 (length details)) details).

(** [i_row.get(key, default)] on a row of the frame. *)
Definition series_get (key : string) (default : Cell) (i_row : list (string * Cell))
    : Cell :=
  match find (fun kv => String.eqb (fst kv) key) i_row with
  | Some kv => snd kv
  | None => default
  end.

(** [x or 0] as a number. *)
Definition cell_or_0 (x : Cell) : Q :=
  match x with
  | CellInt n => inject_Z n
  | CellNum q => q
  | CellText _ => 0%Q
  | CellBool b => if b then 1%Q else 0%Q
  end.

(** [tot_req] and [tot_alloc], the totals shown inside the expander. *)
Definition detail_totals (d_df : list (list (string * Cell))) : Q * Q :=
  fold_left
    (fun tot i_row =>
       let p := cell_or_0 (series_get "price" (CellInt 0) i_row) in
       ((fst tot +
         p * cell_or_0 (series_get "requested_qty" (CellInt 0) i_row))%Q,
        (snd tot +
         p * cell_or_0 (series_get "allocated_qty" (CellInt 0) i_row))%Q))
    d_df (0%Q, 0%Q).

(** ** Accounts *)

(** Rows of [customer_details]: [cu_user_id] is the primary key and
    [cu_user_name] is UNIQUE NOT NULL. *)
Record Customer := mkCustomer {
  cu_user_id : Z;
  cu_user_name : string;
  cu_password : string;
  cu_mail_id : option string;
  cu_phone_number : option string;
  cu_is_active : option bool;
  cu_role : option string;
  cu_assigned_stock_type : option string;
  cu_require_password_change : option bool;
  cu_price_adjustment_percent : option Q
}.

(** [get_next_user_id()]: 1001 on an empty table, [MAX(user_id) + 1]
    otherwise. *)
Definition get_next_user_id (users : list Customer) : Z :=
  match map cu_user_id users with
  | [] => 1001
  | id :: ids => fold_left Z.max ids id + 1
  end.

(** [register_user(user_name, password, mail_id, phone_number)], for a
    name and a password that are texts: the columns the INSERT leaves out
    take their defaults, and a key that is taken raises. *)
Definition register_user (users : list Customer) (user_name password : string)
    (mail_id phone_number : option string) : list Customer * outcome Z :=
  let user_id := get_next_user_id users in
  if existsb (fun u => Z.eqb (cu_user_id u) user_id) users
  then (users, Failure "duplicate key value violates unique constraint")
  else if existsb (fun u => String.eqb (cu_user_name u) user_name) users
  then (users, Failure "duplicate key value violates unique constraint")
  else (users ++ [mkCustomer user_id user_name password mail_id phone_number
                             (Some false) (Some "Standard User")
                             (Some "parts_stock") (Some false) (Some 0%Q)],
        Success user_id).

(** The dictionary [authenticate_user] returns for a customer. *)
Record Session := mkSession {
  s_user_id : Z;
  s_user_name : string;
  s_mail_id : option string;
  s_phone_number : option string;
  s_is_admin : bool;
  s_role : option string;
  s_assigned_stock_type : string;
  s_require_password_change : option bool;
  s_price_adjustment_percent : Q
}.

(** What [authenticate_user] returns: the administrator's dictionary, a
    customer's, [{"error": ...}], or [None]. *)
Inductive AuthResult : Type :=
| AdminSession
| Authenticated (s : Session)
| AuthError (msg : string)
| NoMatch.

(** [authenticate_user(user_name, password)]; [admin_user] and
    [admin_pass] are the two secrets. *)
Definition authenticate_user (admin_user admin_pass : string)
    (users : list Customer) (user_name password : string) : AuthResult :=
  if String.eqb user_name admin_user && String.eqb password admin_pass
  then AdminSession
  else
    match find (fun u => String.eqb (cu_user_name u) user_name) users with
    | Some row =>
        if String.eqb password (cu_password row)
        then
          match cu_is_active row with
          | Some true =>
              Authenticated
                (mkSession (cu_user_id row) (cu_user_name row) (cu_mail_id row)
                   (cu_phone_number row)
                   match cu_role row with
                   | Some role => String.eqb role "Admin"
                   | None => false
                   end
                   (cu_role row)
                   match cu_assigned_stock_type row with
                   | Some EmptyString | None => "parts_stock"
                   | Some st => st
                   end
                   (cu_require_password_change row)
                   (default 0%Q (cu_price_adjustment_percent row)))
          | _ => AuthError "Account pending approval"
          end
        else NoMatch
    | None => NoMatch
    end.

(** [UPDATE customer_details SET ... WHERE user_id = :uid]. *)
Definition update_customer (set : Customer -> Customer) (user_id : Z)
    (users : list Customer) : list Customer :=
  map (fun u => if Z.eqb (cu_user_id u) user_id then set u else u) users.

(** [change_password(user_id, current_password, new_password)]. *)
Definition change_password (users : list Customer) (user_id : Z)
    (current_password new_password : string) : list Customer * outcome string :=
  match find (fun u => Z.eqb (cu_user_id u) user_id) users with
  | Some row =>
      if String.eqb (cu_password row) current_password
      then (update_customer
              (fun u => mkCustomer (cu_user_id u) (cu_user_name u) new_password
                          (cu_mail_id u) (cu_phone_number u) (cu_is_active u)
                          (cu_role u) (cu_assigned_stock_type u) (Some false)
                          (cu_price_adjustment_percent u)) user_id users,
            Success "Password changed successfully")
      else (users, Failure "Incorrect current password")
  | None => (users, Failure "Incorrect current password")
  end.

(** [reset_password_admin(user_id, temp_password)]. *)
Definition reset_password_admin (users : list Customer) (user_id : Z)
    (temp_password : string) : list Customer * outcome string :=
  (update_customer
     (fun u => mkCustomer (cu_user_id u) (cu_user_name u) temp_password
                 (cu_mail_id u) (cu_phone_number u) (cu_is_active u)
                 (cu_role u) (cu_assigned_stock_type u) (Some true)
                 (cu_price_adjustment_percent u)) user_id users,
   Success "Password reset (User must change on next login)").

(** [update_user_status(user_id, is_active)]. *)
Definition update_user_status (users : list Customer) (user_id : Z)
    (is_active : bool) : list Customer * outcome string :=
  (update_customer
     (fun u => mkCustomer (cu_user_id u) (cu_user_name u) (cu_password u)
                 (cu_mail_id u) (cu_phone_number u) (Some is_active)
                 (cu_role u) (cu_assigned_stock_type u)
                 (cu_require_password_change u)
                 (cu_price_adjustment_percent u)) user_id users,
   Success "Updated").

(** The keys of [customer_details]. *)
Definition customers_ok (users : list Customer) : Prop :=
  NoDup (map cu_user_id users) /\ NoDup (map cu_user_name users).

(** ** Saving the cart editor *)

(** The "Save Changes & Recalculate" button of [show_cart_ui].
    [cart_items] is what [get_user_cart] returned when the screen was
    drawn; a row of [edited] holds the [id] of an editor row (none for a row
    typed into the editor) and its [Requested_Qty]. *)
Definition save_changes (db : DB) (user_id : Z) (cart_items : list CartView)
    (edited : list (option Z * Z)) : DB :=
  let db :=
    fold_left
      (fun db row =>
         match fst row with
         | Some id =>
             match find (fun x => Z.eqb (cv_id x) id) cart_items with
             | Some db_item =>
                 if negb (Z.eqb (snd row) (cv_qty db_item))
                 then update_cart_item_db db id (snd row)
                 else db
             | None => db
             end
         | None => db
         end) edited db in
  match edited with
  | [] => clear_cart_db db user_id
  | _ =>
      let current_ids :=
        flat_map (fun row => match fst row with
                             | Some id => [id]
                             | None => []
                             end) edited in
      fold_left
        (fun db item =>
           if negb (existsb (Z.eqb (cv_id item)) current_ids)
           then remove_from_cart_db db (cv_id item)
           else db) cart_items db
  end.

(* ===================================================================== *)
(** * Part II: theorems *)
(* ===================================================================== *)

(** ** The normaliser *)

Section Normaliser.

Import NormalizeSpec.

Lemma prefix_nil (s : string) : prefix "" s = true.
Proof. destruct s; reflexivity. Qed.

Lemma upper_map_chars (s : string) : Py.upper s = map_chars Py.upper_char s.
Proof. induction s as [|c s IH]; simpl; [reflexivity | now rewrite IH]. Qed.

(** Replacing a one-character text by nothing drops that character. *)
Lemma replace_char_empty (c : ascii) (s : string) :
  Py.replace (String c "") "" s = drop_chars (Ascii.eqb c) s.
Proof.
  unfold Py.replace.
  induction s as [|d s IH]; [reflexivity|].
  cbn [Py.replace_scan drop_chars prefix String.length Nat.sub].
  destruct (ascii_dec c d) as [->|Hne].
  - rewrite Ascii.eqb_refl, prefix_nil. simpl. exact IH.
  - apply Ascii.eqb_neq in Hne. rewrite Hne. now rewrite IH.
Qed.

(** Replacing a one-character text by another rewrites that character. *)
Lemma replace_char_char (c e : ascii) (s : string) :
  Py.replace (String c "") (String e "") s =
  map_chars (fun d => if Ascii.eqb c d then e else d) s.
Proof.
  unfold Py.replace.
  induction s as [|d s IH]; [reflexivity|].
  cbn [Py.replace_scan map_chars prefix String.length Nat.sub].
  destruct (ascii_dec c d) as [->|Hne].
  - rewrite Ascii.eqb_refl, prefix_nil. simpl. now rewrite IH.
  - apply Ascii.eqb_neq in Hne. rewrite Hne. now rewrite IH.
Qed.

Lemma drop_chars_twice (p q : ascii -> bool) (s : string) :
  drop_chars p (drop_chars q s) = drop_chars (fun c => q c || p c) s.
Proof.
  induction s as [|c s IH]; [reflexivity|].
  simpl. destruct (q c); simpl; [exact IH|].
  destruct (p c); [exact IH | now rewrite IH].
Qed.

Lemma drop_chars_ext (p q : ascii -> bool) (s : string) :
  (forall c, p c = q c) -> drop_chars p s = drop_chars q s.
Proof.
  intros E. induction s as [|c s IH]; [reflexivity|].
  simpl. now rewrite E, IH.
Qed.

Lemma map_chars_ext (f g : ascii -> ascii) (s : string) :
  (forall c, f c = g c) -> map_chars f s = map_chars g s.
Proof.
  intros E. induction s as [|c s IH]; [reflexivity|].
  simpl. now rewrite E, IH.
Qed.

(** The three passes of the [for char in ['*', '@', '+']] loop drop
    exactly the symbols. *)
Lemma symbols_removed (s : string) :
  fold_left (fun s char => Py.replace char "" s) ["*"; "@"; "+"] s =
  drop_chars is_symbol s.
Proof.
  cbn [fold_left].
  rewrite !replace_char_empty, !drop_chars_twice.
  apply drop_chars_ext. intros c. unfold is_symbol.
  rewrite !(Ascii.eqb_sym c).
  destruct (Ascii.eqb "*" c), (Ascii.eqb "@" c), (Ascii.eqb "+" c); reflexivity.
Qed.

Lemma lstrip_split (s : string) :
  exists l, s = (l ++ Py.lstrip s)%string /\ blank l = true /\
            starts_blank (Py.lstrip s) = false.
Proof.
  induction s as [|c s (l & Hs & Hl & Hstart)]; [now exists ""|].
  cbn [Py.lstrip]. destruct (Py.isspace c) eqn:Hc.
  - exists (String c l). cbn. rewrite Hc, Hl, <- Hs. auto.
  - exists "". cbn. auto.
Qed.

Lemma rstrip_split (s : string) :
  exists r, s = (Py.rstrip s ++ r)%string /\ blank r = true /\
            ends_blank (Py.rstrip s) = false.
Proof.
  induction s as [|c s (r & Hs & Hr & Hend)]; [now exists ""|].
  cbn [Py.rstrip]. destruct (Py.rstrip s) as [|d t] eqn:E.
  - cbn in Hs. subst r. destruct (Py.isspace c) eqn:Hc.
    + exists (String c s). cbn. rewrite Hc, Hr. auto.
    + exists s. cbn. rewrite Hc. auto.
  - exists r. rewrite Hs at 1. auto.
Qed.

Lemma rstrip_keeps_start (s : string) :
  starts_blank s = false -> starts_blank (Py.rstrip s) = false.
Proof.
  destruct s as [|c s]; [reflexivity|]. cbn [starts_blank Py.rstrip]. intros Hc.
  destruct (Py.rstrip s); [rewrite Hc|]; exact Hc.
Qed.

Lemma append_assoc (a b c : string) :
  ((a ++ b) ++ c = a ++ (b ++ c))%string.
Proof. induction a as [|x a IH]; cbn; [reflexivity | now rewrite IH]. Qed.

(** [strip] removes the white space at both ends and nothing else. *)
Lemma strip_trimmed (s : string) : trimmed s (Py.strip s).
Proof.
  unfold Py.strip.
  destruct (lstrip_split s) as (l & Hs & Hl & Hstart).
  destruct (rstrip_split (Py.lstrip s)) as (r & Hm & Hr & Hend).
  exists l, r. repeat split; auto.
  - now rewrite <- Hm.
  - now apply rstrip_keeps_start.
Qed.

(** C8: [sanitize_part_number] is a function of its argument alone and
    agrees, on every input, with the normaliser of the specification:
    uppercase, remove every [*], [@] and [+], replace every letter O by
    the digit 0, trim the white space at both ends (the result is that
    text less a run of white space on either side, and neither starts nor
    ends with white space).  A null or empty input
    gives the empty string, and [normalize("AB*O12") = "AB012"]. *)
Theorem sanitize_part_number_normalize :
  (forall raw, sanitize_part_number raw = normalize raw) /\
  (forall s,
      trimmed (map_chars o_to_zero
                 (drop_chars is_symbol (map_chars Py.upper_char s)))
              (sanitize_part_number (Some s))) /\
  sanitize_part_number None = "" /\
  sanitize_part_number (Some "") = "" /\
  sanitize_part_number (Some "AB*O12") = "AB012".
Proof.
  assert (H : forall raw, sanitize_part_number raw = normalize raw).
  { intros [s|]; [|reflexivity].
    destruct s as [|c s]; [reflexivity|].
    unfold sanitize_part_number, normalize.
    rewrite symbols_removed, upper_map_chars.
    rewrite replace_char_char.
    apply (f_equal Py.strip), map_chars_ext. intros d. unfold o_to_zero.
    now rewrite Ascii.eqb_sym. }
  split; [exact H|]. split; [|repeat split; reflexivity].
  intros s. rewrite H. apply strip_trimmed.
Qed.

(** C9 (as the code has it): [normalize("O1*2@3+O")] is ["01230"]: the
    three symbols go, and each of the two letters O becomes a 0. *)
Theorem sanitize_O1_2_3_O :
  sanitize_part_number (Some "O1*2@3+O") = "01230".
Proof. reflexivity. Qed.

(** C9 (as stated) fails: the result is not ["012303"]. *)
Lemma sanitize_O1_2_3_O_not_012303 :
  sanitize_part_number (Some "O1*2@3+O") <> "012303".
Proof. vm_compute. discriminate. Qed.

End Normaliser.

(** ** Lists as tables *)

Section Tables.

Context {A : Type}.

(** [fetchone] on a non-empty selection: the row found is the first one
    the condition holds for. *)
Lemma find_first (f : A -> bool) (l : list A) (x : A) :
  find f l = Some x ->
  exists l1 l2, l = l1 ++ x :: l2 /\ f x = true /\
                Forall (fun y => f y = false) l1.
Proof.
  induction l as [|a l IH]; simpl; [discriminate|].
  destruct (f a) eqn:Fa.
  - intros [= ->]. exists [], l. repeat split; auto.
  - intros H. destruct (IH H) as (l1 & l2 & -> & Fx & Hl1).
    exists (a :: l1), l2. repeat split; auto.
Qed.

Lemma find_exists (f : A -> bool) (l : list A) (x : A) :
  In x l -> f x = true -> exists y, find f l = Some y.
Proof.
  intros Hin Fx. destruct (find f l) as [y|] eqn:E; [now exists y|].
  now rewrite (find_none f l E x Hin) in Fx.
Qed.

(** An UPDATE keyed on a unique column rewrites one row and leaves every
    other row as it was. *)
Lemma update_by_unique_key (key : A -> Z) (g : A -> A) (l1 l2 : list A) (x : A) :
  NoDup (map key (l1 ++ x :: l2)) ->
  map (fun c => if Z.eqb (key c) (key x) then g c else c) (l1 ++ x :: l2) =
  l1 ++ g x :: l2.
Proof.
  intros ND. rewrite map_app in ND. simpl in ND.
  pose proof (NoDup_remove_2 _ _ _ ND) as Hnot.
  rewrite map_app. cbn [map]. rewrite Z.eqb_refl. f_equal; [|f_equal].
  - rewrite <- (map_id l1) at 2. apply map_ext_in. intros c Hc.
    destruct (Z.eqb_spec (key c) (key x)) as [E|]; [|reflexivity].
    exfalso. apply Hnot, in_or_app. left. rewrite <- E. now apply in_map.
  - rewrite <- (map_id l2) at 2. apply map_ext_in. intros c Hc.
    destruct (Z.eqb_spec (key c) (key x)) as [E|]; [|reflexivity].
    exfalso. apply Hnot, in_or_app. right. rewrite <- E. now apply in_map.
Qed.

End Tables.

(** ** Cart management *)

Section Cart.

(** C10: adding a part that the user's cart already holds (same
    [user_id], same sanitized part number) rewrites one cart line, the
    first that matches: its quantity becomes the old quantity plus the
    added one, while its description, price and [supersedes] stay as
    stored; every other cart line, and every other table, is left as it
    was.  The cart's primary key makes [id] unique. *)
Theorem add_to_cart_db_existing_line
    (db : DB) (user_id : Z) (part_number : string)
    (description : option string) (qty : Z) (price : Q)
    (supersedes : option string) (present : CartLine) :
  NoDup (map cart_id (cart db)) ->
  In present (cart db) ->
  cart_user_id present = user_id ->
  cart_part_number present = sanitize_part_number (Some part_number) ->
  exists before line after,
    cart db = before ++ line :: after /\
    cart_user_id line = user_id /\
    cart_part_number line = sanitize_part_number (Some part_number) /\
    Forall (fun c => cart_user_id c <> user_id \/
                     cart_part_number c <> sanitize_part_number (Some part_number))
           before /\
    let db' := add_to_cart_db db user_id part_number description qty price
                              supersedes in
    cart db' =
      before ++
      mkCart (cart_id line) (cart_user_id line) (cart_part_number line)
             (cart_description line) (cart_qty line + qty) (cart_price line)
             (cart_supersedes line) :: after /\
    parts_stock db' = parts_stock db /\
    orders db' = orders db /\
    order_items db' = order_items db.
Proof.
  intros ND Hin Hu Hp.
  set (f := fun c => Z.eqb (cart_user_id c) user_id &&
                     String.eqb (cart_part_number c)
                                (sanitize_part_number (Some part_number))).
  assert (Fp : f present = true).
  { unfold f. now rewrite Hu, Hp, Z.eqb_refl, String.eqb_refl. }
  destruct (find_exists f _ _ Hin Fp) as [line Hfind].
  destruct (find_first f _ _ Hfind) as (before & after & Hcart & Fl & Hbefore).
  exists before, line, after.
  apply andb_true_iff in Fl as [Flu Flp].
  apply Z.eqb_eq in Flu. apply String.eqb_eq in Flp.
  repeat split; auto.
  - eapply Forall_impl; [|exact Hbefore]. intros c Fc. unfold f in Fc.
    apply andb_false_iff in Fc as [Fc|Fc].
    + left. now apply Z.eqb_neq.
    + right. now apply String.eqb_neq.
  - unfold add_to_cart_db. fold f. rewrite Hfind. cbn [cart set_cart].
    rewrite Hcart in ND |- *.
    exact (update_by_unique_key cart_id
             (fun c => mkCart (cart_id c) (cart_user_id c) (cart_part_number c)
                              (cart_description c) (cart_qty line + qty)
                              (cart_price c) (cart_supersedes c))
             before after line ND).
  - unfold add_to_cart_db. fold f. now rewrite Hfind.
  - unfold add_to_cart_db. fold f. now rewrite Hfind.
  - unfold add_to_cart_db. fold f. now rewrite Hfind.
Qed.

Lemma add_to_cart_db_existing_line_witness :
  exists before line after,
    cart Sample.cart_db = before ++ line :: after /\
    cart_user_id line = 7 /\
    cart_part_number line = sanitize_part_number (Some "abo-1") /\
    Forall (fun c => cart_user_id c <> 7 \/
                     cart_part_number c <> sanitize_part_number (Some "abo-1"))
           before /\
    let db' := add_to_cart_db Sample.cart_db 7 "abo-1" (Some "Other") 3 (9 # 1)
                              None in
    cart db' =
      before ++
      mkCart (cart_id line) (cart_user_id line) (cart_part_number line)
             (cart_description line) (cart_qty line + 3) (cart_price line)
             (cart_supersedes line) :: after /\
    parts_stock db' = parts_stock Sample.cart_db /\
    orders db' = orders Sample.cart_db /\
    order_items db' = order_items Sample.cart_db.
Proof.
  apply (add_to_cart_db_existing_line Sample.cart_db 7 "abo-1" (Some "Other")
           3 (9 # 1) None
           (mkCart 2 7 "AB0-1" (Some "Washer") 2 (5 # 4) (Some "AB-9"))).
  - vm_compute. repeat constructor; simpl; intuition discriminate.
  - vm_compute. auto.
  - reflexivity.
  - reflexivity.
Defined.

End Cart.

(** ** Order commit *)

Section Commit.

Import CommitSpec.

Lemma stock_key_matches_true (pn stype : string) (r : StockItem) :
  stock_key_matches pn stype r = true <->
  ps_part_number r = pn /\ ps_stock_type r = stype.
Proof.
  unfold stock_key_matches.
  now rewrite andb_true_iff, !String.eqb_eq.
Qed.

Lemma stock_key_matches_false (pn stype : string) (r : StockItem) :
  stock_key_matches pn stype r = false <-> other_key pn stype r.
Proof.
  unfold stock_key_matches, other_key.
  now rewrite andb_false_iff, !String.eqb_neq.
Qed.

Lemma Forall2_map_same {A : Type} (P : A -> A -> Prop) (f : A -> A) (l : list A) :
  (forall x, P x (f x)) -> Forall2 P l (map f l).
Proof. intros H. induction l; simpl; constructor; auto. Qed.

(** What the SELECT of step 2 reads. *)
Lemma select_free_stock_reads (ps : list StockItem) (pn stype : string) (current : Z) :
  match find (stock_key_matches pn stype) ps with
  | Some r => ps_free_stock r
  | None => Some 0
  end = Some current ->
  reads ps pn stype current.
Proof.
  destruct (find (stock_key_matches pn stype) ps) as [r|] eqn:E; intros H.
  - right. destruct (find_first _ _ _ E) as (before & after & -> & Hr & Hb).
    apply stock_key_matches_true in Hr as [Hpn Hst].
    exists before, r, after. repeat split; auto.
    eapply Forall_impl; [|exact Hb]. intros a. apply stock_key_matches_false.
  - left. injection H as <-. split; [|reflexivity].
    apply Forall_forall. intros r Hr. apply stock_key_matches_false.
    exact (find_none _ _ E r Hr).
Qed.

(** What the UPDATE of step 4 does. *)
Lemma deduct_decrements (db : DB) (pn stype : string) (allocated : Z) :
  decrements allocated pn stype (parts_stock db)
    (parts_stock
       (if 0 <? allocated
        then set_parts_stock (add_free_stock (- allocated) pn stype
                                             (parts_stock db)) db
        else db)).
Proof.
  unfold decrements.
  destruct (Z.ltb_spec 0 allocated) as [Hpos|Hneg].
  - cbn [parts_stock set_parts_stock]. unfold add_free_stock.
    apply Forall2_map_same. intros r.
    destruct (stock_key_matches pn stype r) eqn:K.
    + split; [reflexivity|]. intros [Ho|Hle]; [|lia].
      apply stock_key_matches_false in Ho. congruence.
    + split; [|reflexivity]. intros (Hpn & Hst & _).
      assert (stock_key_matches pn stype r = true)
        by now apply stock_key_matches_true.
      congruence.
  - rewrite <- (map_id (parts_stock db)) at 2.
    apply Forall2_map_same. intros r. split; [lia | reflexivity].
Qed.

Lemma create_order_item_commits
    (oid : Z) (stype : string) (db : DB) (total : Num) (item : Item)
    (db' : DB) (total' : Num) :
  create_order_item oid stype (db, total) item = Success (db', total') ->
  exists current price,
    reads (parts_stock db) (it_part_number item) stype current /\
    decrements (Z.min (it_qty item) current) (it_part_number item) stype
               (parts_stock db) (parts_stock db') /\
    to_numeric (it_price item) = Success price /\
    order_items db' =
      order_items db ++
      [mkOrderItem oid (it_part_number item) (it_description item)
                   (Z.min (it_qty item) current) (it_qty item) current
                   price (it_supersedes item)] /\
    (exists line_price,
        num_mul_int (Z.min (it_qty item) current) (it_price item) =
          Success line_price /\
        num_add total line_price = Success total') /\
    orders db' = orders db /\ cart db' = cart db /\
    orders_seq db' = orders_seq db /\ cart_seq db' = cart_seq db /\
    int4 (Z.min (it_qty item) current) && int4 (it_qty item) && int4 current
      = true.
Proof.
  unfold create_order_item.
  destruct (match find _ (parts_stock db) with
            | Some r => ps_free_stock r
            | None => Some 0
            end) as [current|] eqn:E; [|discriminate].
  destruct (_ && negb _); [discriminate|].
  destruct (negb _) eqn:Erange; [discriminate|].
  apply negb_false_iff in Erange.
  destruct (to_numeric (it_price item)) as [price|] eqn:Ep; [|discriminate].
  destruct (num_mul_int _ _) as [line_price|] eqn:Em; [|discriminate].
  destruct (num_add total line_price) as [t|] eqn:Ea; [|discriminate].
  intros [= <- <-]. exists current, price.
  split; [now apply select_free_stock_reads|].
  pose proof (deduct_decrements db (it_part_number item) stype
                (Z.min (it_qty item) current)) as D.
  destruct (0 <? Z.min (it_qty item) current); repeat split; eauto.
Qed.

(** The database a successful iteration leaves. *)
Lemma create_order_item_success
    (oid : Z) (stype : string) (db : DB) (total : Num) (item : Item)
    (db' : DB) (total' : Num) :
  create_order_item oid stype (db, total) item = Success (db', total') ->
  exists current price,
    match find (stock_key_matches (it_part_number item) stype) (parts_stock db) with
    | Some r => ps_free_stock r
    | None => Some 0
    end = Some current /\
    to_numeric (it_price item) = Success price /\
    let db1 :=
      if 0 <? Z.min (it_qty item) current
      then set_parts_stock
             (add_free_stock (- Z.min (it_qty item) current) (it_part_number item)
                             stype (parts_stock db)) db
      else db in
    db' = set_order_items
            (order_items db1 ++
             [mkOrderItem oid (it_part_number item) (it_description item)
                          (Z.min (it_qty item) current) (it_qty item) current
                          price (it_supersedes item)]) db1.
Proof.
  unfold create_order_item.
  destruct (match find _ (parts_stock db) with
            | Some r => ps_free_stock r
            | None => Some 0
            end) as [current|] eqn:E; [|discriminate].
  destruct (_ && negb _); [discriminate|].
  destruct (negb _); [discriminate|].
  destruct (to_numeric (it_price item)) as [price|] eqn:Ep; [|discriminate].
  destruct (num_mul_int _ _) as [line_price|] eqn:Em; [|discriminate].
  destruct (num_add total line_price) as [t|] eqn:Ea; [|discriminate].
  intros [= <- <-]. exists current, price. auto.
Qed.

Lemma create_order_items_commits (oid : Z) (stype : string) (items : list Item) :
  forall (db : DB) (total : Num) (db' : DB) (total' : Num),
    create_order_items oid stype (db, total) items = Success (db', total') ->
    exists lines,
      commits stype oid (parts_stock db) items (parts_stock db') lines /\
      order_items db' = order_items db ++ lines /\
      accumulated total lines items = Success total' /\
      orders db' = orders db /\ cart db' = cart db /\
      orders_seq db' = orders_seq db /\ cart_seq db' = cart_seq db /\
      Forall (fun l => in_integer_range l = true) lines.
Proof.
  induction items as [|item items IH]; intros db total db' total' H.
  - injection H as <- <-. exists []. rewrite app_nil_r.
    repeat split; auto; constructor.
  - cbn [create_order_items] in H.
    destruct (create_order_item oid stype (db, total) item)
      as [[db1 total1]|e] eqn:E1; [|discriminate].
    apply create_order_item_commits in E1
      as (current & price & Hr & Hd & Hp & Hoi & (lp & Hm & Ha) & Ho & Hc
          & Hs1 & Hs2 & Hrange).
    apply IH in H
      as (lines & Hcm & Hoi' & Ht' & Ho' & Hc' & Hs1' & Hs2' & Hranges).
    eexists (_ :: lines). split; [econstructor; eauto|].
    split; [rewrite Hoi', Hoi, <- app_assoc; reflexivity|].
    split; [cbn [accumulated oi_qty]; now rewrite Hm, Ha|].
    split; [congruence|]. split; [congruence|]. split; [congruence|].
    split; [congruence|]. constructor; [exact Hrange | exact Hranges].
Qed.

(** The decimal context rounds a value, whatever fraction writes it. *)
Lemma dec_round_Qeq (a b : Q) : Qeq a b -> PyNum.dec_round a = PyNum.dec_round b.
Proof.
  intros H. unfold PyNum.dec_round. now rewrite (Qred_complete a b H).
Qed.

Lemma in_context_Qeq (a b : Q) :
  Qeq a b -> in_context b = true -> Qeq (PyNum.dec_round a) b.
Proof.
  intros H Hb. rewrite (dec_round_Qeq a b H).
  unfold in_context in Hb. now apply Qeq_bool_iff.
Qed.

Lemma fold_total_Qeq (lines : list OrderItem) (a b : Q) :
  Qeq a b ->
  Qeq (fold_left (fun acc l => (acc + inject_Z (oi_qty l) * oi_price l)%Q) lines a)
      (fold_left (fun acc l => (acc + inject_Z (oi_qty l) * oi_price l)%Q) lines b).
Proof.
  revert a b. induction lines as [|l lines IH]; intros a b H; cbn [fold_left].
  - exact H.
  - apply IH. now rewrite H.
Qed.

(** The price on a line is the item's. *)
Lemma commits_prices (stype : string) (oid : Z) ps items ps' lines :
  commits stype oid ps items ps' lines ->
  Forall2 (fun l item => to_numeric (it_price item) = Success (oi_price l))
          lines items.
Proof. induction 1; constructor; auto. Qed.

(** With prices that are ints or [Decimal]s, and as long as the decimal
    context keeps every product and every partial sum, Python's total is
    the exact one. *)
Lemma accumulated_exact (lines : list OrderItem) :
  forall (items : list Item) (total total' : Num) (t acc : Q),
    Forall2 (fun l item => to_numeric (it_price item) = Success (oi_price l))
            lines items ->
    forallb exact_price items = true ->
    exact_value total = Some t -> Qeq t acc ->
    sums_in_context acc lines = true ->
    accumulated total lines items = Success total' ->
    exists t', exact_value total' = Some t' /\
      Qeq t'
          (fold_left (fun acc l => (acc + inject_Z (oi_qty l) * oi_price l)%Q)
                     lines acc).
Proof.
  induction lines as [|l lines IH];
    intros items total total' t acc HP HE Ht Hq HS HA.
  - cbn in HA. injection HA as <-. exists t; auto.
  - inversion HP as [|l0 item ls items' Hp HP']; subst.
    cbn [forallb] in HE. apply andb_true_iff in HE as [He HE].
    cbn [sums_in_context] in HS.
    apply andb_true_iff in HS as [HS HS3].
    apply andb_true_iff in HS as [HS1 HS2].
    cbn [accumulated] in HA. cbn [fold_left].
    destruct (num_mul_int (oi_qty l) (it_price item)) as [lp|] eqn:Em;
      [|discriminate].
    destruct (num_add total lp) as [total1|] eqn:Ea; [|discriminate].
    assert (Hstep : exists t1, exact_value total1 = Some t1 /\
                      Qeq t1 (acc + inject_Z (oi_qty l) * oi_price l)).
    { unfold exact_price in He.
      destruct (it_price item) as [p|q|x]; [| |discriminate];
        cbn in Hp; injection Hp as Hp; cbn in Em; injection Em as <-;
        destruct total as [a|d|y]; cbn in Ht; try discriminate;
        injection Ht as <-; cbn in Ea; injection Ea as <-;
        eexists; (split; [reflexivity|]).
      - rewrite <- Hp, <- Hq, !inject_Z_plus, !inject_Z_mult. reflexivity.
      - apply in_context_Qeq; [|exact HS2].
        rewrite <- Hp, <- Hq, !inject_Z_mult. reflexivity.
      - apply in_context_Qeq; [|exact HS2].
        rewrite <- Hq. apply Qplus_comp; [reflexivity|].
        apply in_context_Qeq; [|exact HS1]. now rewrite <- Hp.
      - apply in_context_Qeq; [|exact HS2].
        rewrite <- Hq. apply Qplus_comp; [reflexivity|].
        apply in_context_Qeq; [|exact HS1]. now rewrite <- Hp. }
    destruct Hstep as (t1 & Ht1 & Hq1).
    exact (IH items' total1 total' t1 _ HP' HE Ht1 Hq1 HS3 HA).
Qed.

(** A header just inserted under a fresh key is the only row the UPDATE
    of step 6 rewrites. *)
Lemma update_fresh_header (os : list Order) (o : Order) (g : Order -> Order) :
  existsb (fun x => Z.eqb (o_order_id x) (o_order_id o)) os = false ->
  map (fun x => if Z.eqb (o_order_id x) (o_order_id o) then g x else x)
      (os ++ [o]) = os ++ [g o].
Proof.
  intros Hfresh. rewrite map_app. cbn [map]. rewrite Z.eqb_refl. f_equal.
  rewrite <- (map_id os) at 2. apply map_ext_in. intros x Hx.
  destruct (Z.eqb (o_order_id x) (o_order_id o)) eqn:E; [|reflexivity].
  assert (existsb (fun x => Z.eqb (o_order_id x) (o_order_id o)) os = true)
    by (apply existsb_exists; eauto).
  congruence.
Qed.

(** Under the foreign key of [order_items], no line carries a key that no
    header has. *)
Lemma no_line_of_fresh_order (db : DB) (oid : Z) :
  Forall (fun i => exists o, In o (orders db) /\ o_order_id o = oi_order_id i)
         (order_items db) ->
  existsb (fun x => Z.eqb (o_order_id x) oid) (orders db) = false ->
  filter (fun i => Z.eqb (oi_order_id i) oid) (order_items db) = [].
Proof.
  intros FK Hfresh.
  induction FK as [|i l (o & Ho & Hk) _ IH]; [reflexivity|].
  simpl. destruct (Z.eqb_spec (oi_order_id i) oid) as [E|]; [|exact IH].
  assert (existsb (fun x => Z.eqb (o_order_id x) oid) (orders db) = true).
  { apply existsb_exists. exists o. split; [exact Ho|]. apply Z.eqb_eq. congruence. }
  congruence.
Qed.

Lemma commits_lines_order (stype : string) (oid : Z) ps items ps' lines :
  commits stype oid ps items ps' lines ->
  Forall (fun l => oi_order_id l = oid) lines.
Proof. induction 1; constructor; auto. Qed.

Lemma filter_all {A : Type} (f : A -> bool) (l : list A) :
  Forall (fun x => f x = true) l -> filter f l = l.
Proof.
  induction 1 as [|x l Hx _ IH]; [reflexivity|].
  simpl. now rewrite Hx, IH.
Qed.

(** ** Values the decimal context keeps *)

Lemma round_half_even_int (x : Q) (m : Z) :
  Qeq x (inject_Z m) -> round_half_even x = m.
Proof.
  unfold Qeq, round_half_even. destruct x as [n d]. cbn [Qnum Qden inject_Z].
  intros H. rewrite Z.mul_1_r in H. subst n.
  rewrite Z.div_mul by discriminate. rewrite Z.mod_mul by discriminate.
  cbn [Z.mul]. reflexivity.
Qed.

Lemma digits_fuel_spec (base : Z) (fuel : nat) :
  2 <= base ->
  forall n, 1 <= n -> n < 2 ^ Z.of_nat fuel ->
    let D := PyNum.digits_fuel fuel base n in
    1 <= D /\ base ^ (D - 1) <= n < base ^ D.
Proof.
  intros Hb. induction fuel as [|fuel IH]; intros n Hn Hlt.
  - cbn in Hlt. lia.
  - cbn [PyNum.digits_fuel]. destruct (Z.ltb_spec n base) as [Hs|Hge].
    + cbv zeta. split; [lia|]. change (1 - 1) with 0.
      rewrite Z.pow_0_r, Z.pow_1_r. lia.
    + assert (H1 : 1 <= n / base).
      { apply Z.div_le_lower_bound; lia. }
      assert (H2 : n / base < 2 ^ Z.of_nat fuel).
      { apply Z.div_lt_upper_bound; [lia|].
        rewrite Nat2Z.inj_succ, Z.pow_succ_r in Hlt by lia.
        assert (0 < 2 ^ Z.of_nat fuel) by (apply Z.pow_pos_nonneg; lia). nia. }
      destruct (IH (n / base) H1 H2) as (HD & Hlo & Hhi).
      set (D := PyNum.digits_fuel fuel base (n / base)) in *.
      cbv zeta. split; [lia|].
      replace (1 + D - 1) with (Z.succ (D - 1)) by lia.
      replace (1 + D) with (Z.succ D) by lia.
      rewrite !Z.pow_succ_r by lia.
      pose proof (Z.div_mod n base ltac:(lia)) as Hdm.
      pose proof (Z.mod_pos_bound n base ltac:(lia)) as Hm.
      split; nia.
Qed.

Lemma digits_spec (base n : Z) :
  2 <= base -> 1 <= n ->
  1 <= PyNum.digits base n /\
  base ^ (PyNum.digits base n - 1) <= n < base ^ PyNum.digits base n.
Proof.
  intros Hb Hn. unfold PyNum.digits. apply digits_fuel_spec; auto.
  rewrite Nat2Z.inj_succ, Z2Nat.id by apply Z.log2_nonneg.
  apply Z.log2_spec. lia.
Qed.

Lemma floor_log_lower (q : Q) (p : Z) :
  ~ Qeq q 0 -> 0 <= p -> p <= PyNum.floor_log 10 q ->
  Qle (inject_Z (10 ^ p)) (Qabs q).
Proof.
  intros Hq Hp. unfold PyNum.floor_log.
  set (a := Z.abs (Qnum q)). set (b := Zpos (Qden q)).
  assert (Ha : 1 <= a).
  { unfold a. destruct q as [n d]. unfold Qeq in Hq. cbn in *. lia. }
  assert (Hb : 1 <= b) by (unfold b; lia).
  destruct (digits_spec 10 a ltac:(lia) Ha) as (Hda & Halo & Hahi).
  destruct (digits_spec 10 b ltac:(lia) Hb) as (Hdb & Hblo & Hbhi).
  set (da := PyNum.digits 10 a) in *. set (db := PyNum.digits 10 b) in *.
  destruct (Qle_bool (PyNum.scale 10 1 (da - db)) (Qabs q)) eqn:E; intros Hfl.
  - apply Qle_bool_iff in E. unfold PyNum.scale in E.
    destruct (Z.leb_spec 0 (da - db)) as [_|]; [|lia].
    eapply Qle_trans; [|exact E]. rewrite Qmult_1_l.
    rewrite <- Zle_Qle. apply Z.pow_le_mono_r; lia.
  - assert (Hpow : 10 ^ p <= 10 ^ (da - db - 1))
      by (apply Z.pow_le_mono_r; lia).
    assert (Hmul : 10 ^ (da - db - 1) * b <= a).
    { assert (10 ^ (da - db - 1) * 10 ^ db = 10 ^ (da - 1)).
      { rewrite <- Z.pow_add_r by lia. f_equal. lia. }
      assert (0 < 10 ^ (da - db - 1)) by (apply Z.pow_pos_nonneg; lia).
      nia. }
    assert (Hgoal : 10 ^ p * b <= a) by nia.
    clearbody da db. clear - Hgoal. subst a b.
    destruct q as [n d]. unfold Qle, Qabs. cbn [Qnum Qden inject_Z] in *. lia.
Qed.

Lemma scale_comp (base : Z) (q r : Q) (n : Z) :
  Qeq q r -> Qeq (PyNum.scale base q n) (PyNum.scale base r n).
Proof.
  intros H. unfold PyNum.scale. destruct (0 <=? n); now rewrite H.
Qed.

(** A multiple of [10 ^ (- s)] below [10 ^ 28] in units is kept by the
    context. *)
Lemma in_context_scaled (k s : Z) (q : Q) :
  0 <= s <= 28 -> Z.abs k < 10 ^ 28 ->
  Qeq q (inject_Z k / inject_Z (10 ^ s)) ->
  in_context q = true.
Proof.
  intros Hs Hk Hq. unfold in_context, PyNum.dec_round, PyNum.round_sig.
  apply Qeq_bool_iff.
  assert (Hpos : 0 < 10 ^ s) by (apply Z.pow_pos_nonneg; lia).
  assert (Hnz : ~ Qeq (inject_Z (10 ^ s)) 0).
  { unfold Qeq. cbn. lia. }
  destruct (Qeq_bool (Qred q) 0) eqn:E0.
  { apply Qeq_bool_iff in E0. apply Qeq_sym.
    eapply Qeq_trans; [apply Qeq_sym, Qred_correct | exact E0]. }
  assert (Hr : ~ Qeq (Qred q) 0).
  { intros H. apply Qeq_bool_iff in H. congruence. }
  set (e := PyNum.floor_log 10 (Qred q) - (28 - 1)).
  assert (He : e <= - s).
  { destruct (Z.le_gt_cases e (- s)) as [|Hgt]; [assumption|exfalso].
    assert (Hfl : 28 - s <= PyNum.floor_log 10 (Qred q)) by (unfold e in Hgt; lia).
    pose proof (floor_log_lower (Qred q) (28 - s) Hr ltac:(lia) Hfl) as Hlow.
    rewrite (Qred_correct q), Hq in Hlow.
    unfold Qle, Qabs, Qdiv, Qmult, Qinv in Hlow.
    destruct (10 ^ s) as [|t|t] eqn:Et; try lia.
    cbn [Qnum Qden inject_Z Z.mul] in Hlow.
    assert (10 ^ (28 - s) * 10 ^ s = 10 ^ 28).
    { rewrite <- Z.pow_add_r by lia. f_equal. lia. }
    rewrite Et in *. 
    assert (Z.abs (k * 1) = Z.abs k) by (f_equal; lia).
    rewrite !Z.mul_1_r in Hlow. rewrite Pos.mul_1_l in Hlow. 
    lia. }
  rewrite Qred_correct.
  unfold PyNum.round_to.
  set (m := k * 10 ^ (- e - s)).
  assert (Hm : Qeq (PyNum.scale 10 (Qred q) (- e)) (inject_Z m)).
  { unfold PyNum.scale. destruct (Z.leb_spec 0 (- e)) as [_|]; [|lia].
    rewrite (Qred_correct q), Hq. unfold m.
    replace (- e) with ((- e - s) + s) at 1 by lia.
    rewrite Z.pow_add_r by lia. rewrite !inject_Z_mult.
    field. exact Hnz. }
  rewrite (round_half_even_int _ _ Hm).
  rewrite <- (scale_comp 10 _ _ e Hm).
  unfold PyNum.scale.
  destruct (Z.leb_spec 0 (- e)) as [_|]; [|lia].
  assert (Hp : ~ Qeq (inject_Z (10 ^ (- e))) 0).
  { unfold Qeq. cbn.
    assert (0 < 10 ^ (- e)) by (apply Z.pow_pos_nonneg; lia). lia. }
  destruct (Z.leb_spec 0 e) as [H0|H0].
  - assert (e = 0) by lia. subst e. rewrite H in *. cbn.
    rewrite (Qred_correct q). ring.
  - rewrite (Qred_correct q). field. exact Hp.
Qed.

Lemma in_context_comp (a b : Q) : Qeq a b -> in_context a = in_context b.
Proof.
  intros H. unfold in_context. rewrite (dec_round_Qeq a b H).
  destruct (Qeq_bool (PyNum.dec_round b) b) eqn:E.
  - apply Qeq_bool_iff. apply Qeq_bool_iff in E. now rewrite H.
  - destruct (Qeq_bool (PyNum.dec_round b) a) eqn:E'; [|reflexivity].
    apply Qeq_bool_iff in E'. rewrite H in E'. apply Qeq_bool_iff in E'.
    congruence.
Qed.

Lemma cents_value (c : Z) : Qeq (c # 100) (inject_Z c / inject_Z (10 ^ 2)).
Proof. unfold Qeq, Qdiv, Qmult, Qinv. cbn. lia. Qed.

Lemma int4_bound (n : Z) : int4 n = true -> Z.abs n <= 2 ^ 31.
Proof.
  unfold int4. intros H. apply andb_true_iff in H as [H1 H2].
  apply Z.leb_le in H1, H2. lia.
Qed.

(** Lines priced in whole cents: as long as the amounts stay below
    [10 ^ 28] cents, the decimal context keeps every product and every
    partial sum. *)
Lemma sums_in_context_cents (B : Z) (lines : list OrderItem) :
  0 <= B ->
  Forall (fun l => in_integer_range l = true /\
                   exists c, Qeq (oi_price l) (c # 100) /\ Z.abs c <= B) lines ->
  forall (acc : Q) (A : Z),
    Qeq acc (A # 100) ->
    Z.abs A + Z.of_nat (length lines) * (2 ^ 31 * B) < 10 ^ 28 ->
    sums_in_context acc lines = true.
Proof.
  intros HB. induction 1 as [|l lines (Hrange & c & Hprice & Hc) _ IH];
    intros acc A Hacc Hbound; [reflexivity|].
  cbn [sums_in_context]. cbn [length] in Hbound.
  rewrite Nat2Z.inj_succ in Hbound.
  assert (Hq : Z.abs (oi_qty l) <= 2 ^ 31).
  { apply int4_bound. unfold in_integer_range in Hrange.
    apply andb_true_iff in Hrange as [Hrange _].
    now apply andb_true_iff in Hrange as [Hrange _]. }
  assert (Hprod : Z.abs (oi_qty l * c) <= 2 ^ 31 * B).
  { rewrite Z.abs_mul. apply Z.mul_le_mono_nonneg; lia. }
  assert (Hlen : 0 <= Z.of_nat (length lines) * (2 ^ 31 * B)) by lia.
  assert (Hline : Qeq (inject_Z (oi_qty l) * oi_price l) (oi_qty l * c # 100)).
  { rewrite Hprice. unfold Qeq, Qmult. cbn. lia. }
  assert (Hsum : Qeq (acc + inject_Z (oi_qty l) * oi_price l)
                     (A + oi_qty l * c # 100)).
  { rewrite Hacc, Hline. unfold Qeq, Qplus. cbn. lia. }
  rewrite (in_context_comp _ _ Hline), (in_context_comp _ _ Hsum).
  rewrite (in_context_scaled (oi_qty l * c) 2 _ ltac:(lia) ltac:(lia)
             (cents_value _)).
  rewrite (in_context_scaled (A + oi_qty l * c) 2 _ ltac:(lia) ltac:(lia)
             (cents_value _)).
  cbn [andb]. apply (IH _ (A + oi_qty l * c) Hsum). lia.
Qed.

(** What a successful [create_order] has done: the lines, the total
    Python accumulated and the NUMERIC stored on the header. *)
Lemma create_order_committed
    (db : DB) (user_id : Z) (items : list Item) (stock_type : string)
    (db' : DB) (order_id : Z) :
  Forall (fun i => exists o, In o (orders db) /\ o_order_id o = oi_order_id i)
         (order_items db) ->
  create_order db user_id items stock_type = (db', Success order_id) ->
  exists lines total stored,
    commits stock_type order_id (parts_stock db) items (parts_stock db') lines /\
    order_items db' = order_items db ++ lines /\
    filter (fun i => Z.eqb (oi_order_id i) order_id) (order_items db') = lines /\
    accumulated (NInt 0) lines items = Success total /\
    to_numeric total = Success stored /\
    orders db' =
      orders db ++ [mkOrder order_id user_id stored "Pending" stock_type] /\
    (forallb exact_price items = true ->
     sums_in_context 0 lines = true ->
     Qeq stored (lines_total lines)) /\
    cart db' = filter (fun c => negb (Z.eqb (cart_user_id c) user_id)) (cart db) /\
    Forall (fun l => in_integer_range l = true) lines.
Proof.
  intros FK. unfold create_order.
  destruct (existsb _ (orders db)) eqn:Hfresh; [discriminate|].
  destruct (create_order_items _ _ _ items) as [[conn total]|e] eqn:E; [|discriminate].
  destruct (to_numeric total) as [stored|e] eqn:En; [|discriminate].
  intros [= <- <-].
  apply create_order_items_commits in E
    as (lines & Hcm & Hoi & Ht & Ho & Hc & _ & _ & Hranges).
  cbn [parts_stock cart orders order_items set_orders set_orders_seq set_cart] in *.
  exists lines, total, stored.
  split; [exact Hcm|]. split; [exact Hoi|].
  split.
  { rewrite Hoi, filter_app, (no_line_of_fresh_order db _ FK Hfresh). simpl.
    apply filter_all.
    eapply Forall_impl; [|exact (commits_lines_order _ _ _ _ _ _ Hcm)].
    intros l ->. apply Z.eqb_refl. }
  split; [exact Ht|]. split; [exact En|].
  split.
  { rewrite Ho.
    exact (update_fresh_header (orders db)
             (mkOrder (orders_seq db) user_id 0%Q "Pending" stock_type)
             (fun o => mkOrder (o_order_id o) (o_user_id o) stored
                               (order_status o) (o_stock_type o)) Hfresh). }
  split; [|split; [now rewrite Hc | exact Hranges]].
  intros Hex Hctx.
  destruct (accumulated_exact lines items (NInt 0) total 0%Q 0%Q
              (commits_prices _ _ _ _ _ _ Hcm) Hex eq_refl (Qeq_refl 0) Hctx Ht)
    as (t' & Ht' & Hq).
  unfold lines_total. rewrite <- Hq.
  destruct total as [n|q|x]; cbn in Ht', En; try discriminate;
    injection Ht' as <-; injection En as <-; reflexivity.
Qed.

(** X29: with prices that are [Decimal]s in whole cents, none beyond [B]
    cents, and few enough items for [10 ^ 28] cents to bound every amount,
    the total stored on the header of a committed order is the sum of
    [qty * price] over the lines of the order. *)
Theorem create_order_total_in_cents
    (db : DB) (user_id : Z) (items : list Item) (stock_type : string)
    (db' : DB) (order_id : Z) (B : Z) :
  Forall (fun i => exists o, In o (orders db) /\ o_order_id o = oi_order_id i)
         (order_items db) ->
  create_order db user_id items stock_type = (db', Success order_id) ->
  Forall (fun item => exists q c, it_price item = NDecimal q /\
                                  Qeq q (c # 100) /\ Z.abs c <= B) items ->
  Z.of_nat (length items) * (2 ^ 31 * B) < 10 ^ 28 ->
  exists stored,
    orders db' =
      orders db ++ [mkOrder order_id user_id stored "Pending" stock_type] /\
    Qeq stored
        (lines_total (filter (fun i => Z.eqb (oi_order_id i) order_id)
                             (order_items db'))).
Proof.
  intros FK H Hcents Hbound.
  destruct (create_order_committed _ _ _ _ _ _ FK H)
    as (lines & total & stored & Hcm & _ & Hf & _ & _ & Ho & Hex & _ & Hranges).
  exists stored. split; [exact Ho|]. rewrite Hf.
  pose proof (commits_prices _ _ _ _ _ _ Hcm) as Hp.
  assert (HB : 0 <= B \/ items = []).
  { destruct Hcents as [|item its (q & c & _ & _ & Hc) _];
      [now right | left; lia]. }
  destruct HB as [HB|Hnil].
  2:{ subst items. destruct lines; [|inversion Hp]. apply Hex; reflexivity. }
  apply Hex.
  - apply forallb_forall. intros item Hin.
    destruct (proj1 (Forall_forall _ _) Hcents item Hin) as (q & c & Hc & _).
    unfold exact_price. now rewrite Hc.
  - apply (sums_in_context_cents B lines HB) with (A := 0); [|reflexivity|].
    + clear - Hp Hcents Hranges. revert Hcents Hranges.
      induction Hp as [|l item lines items Hl _ IH]; intros Hcents Hranges;
        constructor.
      * inversion Hcents as [|? ? (q & c & Hc & Hq & HcB) _]; subst.
        inversion Hranges; subst. split; [assumption|].
        exists c. rewrite Hc in Hl. cbn in Hl. injection Hl as <-. auto.
      * inversion Hcents; inversion Hranges; subst. auto.
    + rewrite (Forall2_length Hp). cbn [Z.abs]. lia.
Qed.

Lemma create_order_total_in_cents_witness :
  let db' :=
    fst (create_order Sample.four_widgets 7 [Sample.ten_widgets] "parts_stock") in
  exists stored,
    orders db' = [mkOrder 1 7 stored "Pending" "parts_stock"] /\
    Qeq stored
        (lines_total (filter (fun i => Z.eqb (oi_order_id i) 1) (order_items db'))).
Proof.
  intros db'.
  apply (create_order_total_in_cents Sample.four_widgets 7 [Sample.ten_widgets]
           "parts_stock" db' 1 250).
  - constructor.
  - reflexivity.
  - constructor; [|constructor]. exists (5 # 2), 250.
    split; [reflexivity|]. split; [reflexivity | cbn; lia].
  - vm_compute. reflexivity.
Defined.




(** A quantity beyond the INTEGER range is refused by the store when the
    line is inserted, and the commit is rolled back. *)
Lemma create_order_refuses_wide_quantity :
  create_order Sample.four_widgets 7
    [mkItem "W-100" (Some "Widget") 3000000000 (NDecimal (5 # 2)) None]
    "parts_stock" =
  (set_orders_seq 2 Sample.four_widgets, Failure "integer out of range").
Proof. reflexivity. Qed.

(** A [Decimal] price and a float price in one order do not add up. *)
Lemma create_order_refuses_mixed_prices :
  snd (create_order Sample.four_widgets 7
         [Sample.ten_widgets; Sample.three_at_a_tenth] "parts_stock") =
  Failure "unsupported operand type(s) for +=: 'decimal.Decimal' and 'float'".
Proof. vm_compute. reflexivity. Qed.

End Commit.

(** ** Order reversal *)

Section Reversal.

Lemma set_parts_stock_same (db : DB) : set_parts_stock (parts_stock db) db = db.
Proof. now destruct db. Qed.

(** The loop of [restore_stock_from_order] only touches [parts_stock]. *)
Lemma restore_loop_parts (stype : string) (items : list OrderItem) :
  forall db,
    fold_left
      (fun db item =>
         if 0 <? oi_qty item
         then set_parts_stock
                (add_free_stock (oi_qty item) (oi_part_number item) stype
                                (parts_stock db)) db
         else db) items db =
    set_parts_stock
      (fold_left
         (fun ps item =>
            if 0 <? oi_qty item
            then add_free_stock (oi_qty item) (oi_part_number item) stype ps
            else ps) items (parts_stock db)) db.
Proof.
  induction items as [|i items IH]; intros db; cbn [fold_left].
  - symmetry. apply set_parts_stock_same.
  - rewrite IH. destruct (0 <? oi_qty i); reflexivity.
Qed.

Lemma with_free_stock_same (r : StockItem) :
  with_free_stock r (ps_free_stock r) = r.
Proof. now destruct r. Qed.

(** One more line: its quantity is added first, when positive and for the
    row's key. *)
Lemma gives_back_cons (header : Order) (i : OrderItem) (items : list OrderItem)
    (r : StockItem) :
  gives_back header (i :: items) r =
  gives_back header items
    (if 0 <? oi_qty i
     then if stock_key_matches (oi_part_number i) (o_stock_type header) r
          then with_free_stock r
                 (option_map (fun f => f + oi_qty i) (ps_free_stock r))
          else r
     else r).
Proof.
  unfold gives_back, stock_key_matches. cbn [restored_qty fold_right].
  fold (restored_qty items).
  rewrite (String.eqb_sym (oi_part_number i)).
  destruct r as [pn d f p st a sup].
  cbn [ps_part_number ps_stock_type ps_free_stock].
  destruct (0 <? oi_qty i); cbn [andb]; [|reflexivity].
  destruct (String.eqb pn (oi_part_number i)); cbn [andb]; [|reflexivity].
  destruct (String.eqb st (o_stock_type header)) eqn:E; cbn [andb].
  - unfold with_free_stock. cbn. rewrite E. destruct f as [f|]; cbn; [|reflexivity].
    now rewrite Z.add_assoc.
  - cbn. now rewrite E.
Qed.

(** Row by row, the loop adds what the lines hold for the row's part. *)
Lemma restore_loop_rows (header : Order) (items : list OrderItem) :
  forall ps,
    fold_left
      (fun ps item =>
         if 0 <? oi_qty item
         then add_free_stock (oi_qty item) (oi_part_number item)
                             (o_stock_type header) ps
         else ps) items ps =
    map (gives_back header items) ps.
Proof.
  induction items as [|i items IH]; intros ps; cbn [fold_left].
  - rewrite <- (map_id ps) at 1. apply map_ext. intros r.
    unfold gives_back. cbn [restored_qty fold_right].
    destruct (String.eqb _ _); [|reflexivity].
    destruct r as [pn d [f|] p st a sup]; cbn; [|reflexivity].
    unfold with_free_stock; cbn. now rewrite Z.add_0_r.
  - rewrite IH, (map_ext _ _ (gives_back_cons header i items)).
    rewrite <- (map_map
                  (fun r =>
                     if 0 <? oi_qty i
                     then if stock_key_matches (oi_part_number i)
                                               (o_stock_type header) r
                          then with_free_stock r
                                 (option_map (fun f => f + oi_qty i)
                                             (ps_free_stock r))
                          else r
                     else r)
                  (gives_back header items)).
    apply (f_equal (map (gives_back header items))).
    destruct (0 <? oi_qty i); [reflexivity|].
    now rewrite map_id.
Qed.

(** [restore_stock_from_order] gives back, to every stock row of the
    header's stock type, the positive quantities of the order's lines for
    that part, and changes nothing else. *)
Lemma restore_stock_from_order_rows (db : DB) (oid : Z) (header : Order) :
  order_header db oid = Some header ->
  restore_stock_from_order db oid =
  set_parts_stock (map (gives_back header (order_lines db oid)) (parts_stock db)) db.
Proof.
  unfold restore_stock_from_order. intros ->.
  now rewrite restore_loop_parts, restore_loop_rows.
Qed.

Lemma restore_stock_from_order_orphan (db : DB) (oid : Z) :
  order_header db oid = None -> restore_stock_from_order db oid = db.
Proof. unfold restore_stock_from_order. now intros ->. Qed.

(** After the UPDATE of the status the header found for the key carries
    the new status. *)
Lemma header_after_update (os : list Order) (oid : Z) (status : string) :
  find (fun o => Z.eqb (o_order_id o) oid)
       (map (fun o =>
               if Z.eqb (o_order_id o) oid
               then mkOrder (o_order_id o) (o_user_id o) (total_price o) status
                            (o_stock_type o)
               else o) os) =
  option_map
    (fun o => mkOrder (o_order_id o) (o_user_id o) (total_price o) status
                      (o_stock_type o))
    (find (fun o => Z.eqb (o_order_id o) oid) os).
Proof.
  induction os as [|o os IH]; [reflexivity|].
  cbn [map find]. destruct (Z.eqb (o_order_id o) oid) eqn:E; cbn.
  - now rewrite E.
  - now rewrite E, IH.
Qed.

Lemma update_order_status_parts (db : DB) (oid : Z) (status : string) :
  parts_stock (fst (update_order_status db oid status)) =
  parts_stock
    (match order_header db oid with
     | Some curr =>
         if negb (String.eqb (order_status curr) "Rejected") &&
            String.eqb status "Rejected"
         then restore_stock_from_order db oid
         else db
     | None => db
     end).
Proof. reflexivity. Qed.

Lemma restore_keeps_orders (db : DB) (oid : Z) :
  orders (restore_stock_from_order db oid) = orders db /\
  order_items (restore_stock_from_order db oid) = order_items db.
Proof.
  destruct (order_header db oid) as [h|] eqn:E.
  - now rewrite (restore_stock_from_order_rows _ _ _ E).
  - now rewrite (restore_stock_from_order_orphan _ _ E).
Qed.

Lemma find_after_delete {A : Type} (f : A -> bool) (l : list A) :
  find f (filter (fun x => negb (f x)) l) = None.
Proof.
  induction l as [|x l IH]; [reflexivity|].
  cbn. destruct (f x) eqn:E; cbn; [exact IH|]. now rewrite E.
Qed.

Lemma filter_after_delete {A : Type} (f : A -> bool) (l : list A) :
  filter f (filter (fun x => negb (f x)) l) = [].
Proof.
  induction l as [|x l IH]; [reflexivity|].
  cbn. destruct (f x) eqn:E; cbn; [exact IH|]. now rewrite E.
Qed.

Lemma update_order_status_tables (db : DB) (oid : Z) (status : string) :
  orders (fst (update_order_status db oid status)) =
    map (fun o =>
           if Z.eqb (o_order_id o) oid
           then mkOrder (o_order_id o) (o_user_id o) (total_price o) status
                        (o_stock_type o)
           else o) (orders db) /\
  order_items (fst (update_order_status db oid status)) = order_items db.
Proof.
  unfold update_order_status. cbn [fst orders order_items set_orders].
  destruct (order_header db oid) as [curr|]; [|auto].
  destruct (_ && _); [|auto].
  destruct (restore_keeps_orders db oid) as [-> ->]. auto.
Qed.

Lemma update_order_status_orders (db : DB) (oid : Z) (status : string) :
  order_header (fst (update_order_status db oid status)) oid =
    option_map
      (fun o => mkOrder (o_order_id o) (o_user_id o) (total_price o) status
                        (o_stock_type o))
      (order_header db oid) /\
  order_lines (fst (update_order_status db oid status)) oid = order_lines db oid.
Proof.
  destruct (update_order_status_tables db oid status) as [Ho Hi].
  unfold order_header, order_lines. rewrite Ho, Hi. split; [|reflexivity].
  apply header_after_update.
Qed.

Lemma gives_back_stock_type (h h' : Order) (items : list OrderItem) (r : StockItem) :
  o_stock_type h = o_stock_type h' -> gives_back h items r = gives_back h' items r.
Proof. unfold gives_back. now intros ->. Qed.

(** Status changes that are not rejections leave the stock alone and keep
    the order away from ['Rejected']. *)
Lemma update_order_status_others (oid : Z) (statuses : list string) :
  Forall (fun s => s <> "Rejected") statuses ->
  forall db curr,
    order_header db oid = Some curr ->
    order_status curr <> "Rejected" ->
    let db' := fold_left (fun db s => fst (update_order_status db oid s))
                         statuses db in
    parts_stock db' = parts_stock db /\
    order_lines db' oid = order_lines db oid /\
    exists curr', order_header db' oid = Some curr' /\
                  order_status curr' <> "Rejected" /\
                  o_stock_type curr' = o_stock_type curr.
Proof.
  induction 1 as [|s statuses Hs _ IH]; intros db curr Hh Hst; cbn [fold_left].
  - repeat split; auto. now exists curr.
  - destruct (update_order_status_orders db oid s) as [Hh' Hl'].
    rewrite Hh in Hh'. cbn [option_map] in Hh'.
    destruct (IH _ _ Hh' Hs) as (Hp & Hl & curr' & Hc & Hn & Ht).
    repeat split.
    + rewrite Hp, update_order_status_parts, Hh.
      apply String.eqb_neq in Hs. now rewrite Hs, andb_false_r.
    + now rewrite Hl.
    + exists curr'. auto.
Qed.

(** Once an order is ['Rejected'], further rejections leave the stock
    alone. *)
Lemma update_order_status_rejected_again (oid : Z) (n : nat) :
  forall db curr,
    order_header db oid = Some curr ->
    order_status curr = "Rejected" ->
    parts_stock (fold_left (fun db s => fst (update_order_status db oid s))
                           (repeat "Rejected" n) db) = parts_stock db.
Proof.
  induction n as [|n IH]; intros db curr Hh Hst; cbn [repeat fold_left];
    [reflexivity|].
  destruct (update_order_status_orders db oid "Rejected") as [Hh' _].
  rewrite Hh in Hh'. cbn [option_map] in Hh'.
  rewrite (IH _ _ Hh' eq_refl), update_order_status_parts, Hh, Hst.
  reflexivity.
Qed.

(** The guard of [update_order_status], one status change at a time: it
    gives the allocated quantities of an order
    back to stock when, and only when, the order's stored status is not
    ['Rejected'] and the new status is ['Rejected']: every stock row of
    the order's stock type then gains the positive quantities of the
    order's lines for its part.  Rejecting an order whose status is
    already ['Rejected'] leaves [parts_stock] as it is, so a second
    rejection in a row restores nothing: the stock goes from 0 back to 4
    and stays at 4.  Over a run of status changes in which ['Rejected'],
    once reached, is repeated, the quantities are given back exactly once.
    [delete_order] gives the quantities back whatever the status, and then
    removes the lines and the header. *)
Theorem stock_reversal_guard :
  (forall (db : DB) (oid : Z) (status : string),
      let db' := fst (update_order_status db oid status) in
      (forall curr,
          order_header db oid = Some curr ->
          order_status curr <> "Rejected" -> status = "Rejected" ->
          parts_stock db' =
            map (gives_back curr (order_lines db oid)) (parts_stock db)) /\
      (forall curr,
          order_header db oid = Some curr ->
          order_status curr = "Rejected" ->
          parts_stock db' = parts_stock db) /\
      (status <> "Rejected" -> parts_stock db' = parts_stock db) /\
      (order_header db oid = None -> parts_stock db' = parts_stock db)) /\
  (forall (db : DB) (oid : Z),
      let db1 := fst (update_order_status db oid "Rejected") in
      parts_stock (fst (update_order_status db1 oid "Rejected")) =
      parts_stock db1) /\
  (forall (db : DB) (oid : Z) (curr : Order) (others : list string) (again : nat),
      order_header db oid = Some curr ->
      order_status curr <> "Rejected" ->
      Forall (fun s => s <> "Rejected") others ->
      parts_stock
        (fold_left (fun db s => fst (update_order_status db oid s))
                   (others ++ "Rejected" :: repeat "Rejected" again) db) =
      map (gives_back curr (order_lines db oid)) (parts_stock db)) /\
  (forall (db : DB) (oid : Z) (header : Order),
      order_header db oid = Some header ->
      let db' := fst (delete_order db oid) in
      parts_stock db' =
        map (gives_back header (order_lines db oid)) (parts_stock db) /\
      order_header db' oid = None /\
      order_lines db' oid = []) /\
  (let committed :=
     fst (create_order Sample.four_widgets 7 [Sample.ten_widgets] "parts_stock") in
   let rejected := fst (update_order_status committed 1 "Rejected") in
   let rejected_twice := fst (update_order_status rejected 1 "Rejected") in
   map ps_free_stock (parts_stock committed) = [Some 0] /\
   map ps_free_stock (parts_stock rejected) = [Some 4] /\
   map ps_free_stock (parts_stock rejected_twice) = [Some 4] /\
   map ps_free_stock (parts_stock (fst (delete_order committed 1))) = [Some 4]).
Proof.
  split; [|split; [|split; [|split]]].
  - intros db oid status db'. subst db'.
    rewrite update_order_status_parts. repeat split.
    + intros curr E Hs ->. rewrite E. apply String.eqb_neq in Hs. rewrite Hs, String.eqb_refl. cbn [negb andb].
      now rewrite (restore_stock_from_order_rows _ _ _ E).
    + intros curr -> Hs. apply String.eqb_eq in Hs. now rewrite Hs.
    + intros Hs. apply String.eqb_neq in Hs.
      destruct (order_header db oid); [|reflexivity].
      now rewrite Hs, andb_false_r.
    + now intros ->.
  - intros db oid db1. rewrite update_order_status_parts.
    assert (H : order_header db1 oid =
                option_map
                  (fun o => mkOrder (o_order_id o) (o_user_id o) (total_price o)
                                    "Rejected" (o_stock_type o))
                  (order_header
                     (match order_header db oid with
                      | Some curr =>
                          if negb (String.eqb (order_status curr) "Rejected") &&
                             String.eqb "Rejected" "Rejected"
                          then restore_stock_from_order db oid
                          else db
                      | None => db
                      end) oid)).
    { unfold db1, update_order_status, order_header.
      cbn [fst orders set_orders]. apply header_after_update. }
    rewrite H. clear H.
    match goal with |- context [option_map _ ?found] => destruct found end;
      reflexivity.
  - intros db oid curr others again Hh Hst Hothers.
    rewrite fold_left_app. cbn [fold_left].
    destruct (update_order_status_others oid others Hothers db curr Hh Hst)
      as (Hp & Hl & curr' & Hh' & Hst' & Ht).
    set (db1 := fold_left (fun db s => fst (update_order_status db oid s))
                          others db) in *.
    destruct (update_order_status_orders db1 oid "Rejected") as [Hh2 _].
    rewrite Hh' in Hh2. cbn [option_map] in Hh2.
    rewrite (update_order_status_rejected_again oid again _ _ Hh2 eq_refl).
    rewrite update_order_status_parts, Hh'.
    apply String.eqb_neq in Hst'. rewrite Hst', String.eqb_refl. cbn [negb andb].
    rewrite (restore_stock_from_order_rows _ _ _ Hh'). cbn [parts_stock set_parts_stock].
    rewrite Hp, Hl. apply map_ext. intros r. now apply gives_back_stock_type.
  - intros db oid header E db'. subst db'. unfold delete_order.
    cbn [fst parts_stock set_orders set_order_items].
    split; [now rewrite (restore_stock_from_order_rows _ _ _ E)|].
    unfold order_header, order_lines.
    cbn [orders order_items set_orders set_order_items].
    split.
    + apply find_after_delete.
    + apply filter_after_delete.
  - vm_compute. repeat split; reflexivity.
Qed.

Lemma stock_reversal_guard_witness :
  let committed :=
    fst (create_order Sample.four_widgets 7 [Sample.ten_widgets] "parts_stock") in
  parts_stock (fst (update_order_status committed 1 "Rejected")) =
    [Sample.widget 4 true] /\
  parts_stock (fst (delete_order committed 1)) = [Sample.widget 4 true].
Proof.
  intros committed. split.
  - destruct (proj1 stock_reversal_guard committed 1 "Rejected") as (H & _).
    rewrite (H (mkOrder 1 7 (10 # 1) "Pending" "parts_stock")).
    + reflexivity.
    + reflexivity.
    + discriminate.
    + reflexivity.
  - destruct (proj1 (proj2 (proj2 (proj2 stock_reversal_guard))) committed 1
                (mkOrder 1 7 (10 # 1) "Pending" "parts_stock")) as (H & _).
    + reflexivity.
    + rewrite H. reflexivity.
Defined.

(** C3: the reversal does not fire exactly once per order.  The guard
    looks at the stored status only, and a status change away from
    ['Rejected'] takes nothing back from stock: an order of 4 units
    committed against a stock of 4 leaves 0; rejected, it gives the 4
    back; accepted again, it leaves the stock at 4 while its line still
    holds 4 units; rejected once more, it gives them back a second time,
    and the stock stands at 8. *)
Theorem reject_accept_reject_restores_twice :
  let committed :=
    fst (create_order Sample.four_widgets 7 [Sample.ten_widgets] "parts_stock") in
  let rejected := fst (update_order_status committed 1 "Rejected") in
  let accepted := fst (update_order_status rejected 1 "Accepted") in
  let rejected_again := fst (update_order_status accepted 1 "Rejected") in
  map ps_free_stock (parts_stock Sample.four_widgets) = [Some 4] /\
  map ps_free_stock (parts_stock committed) = [Some 0] /\
  map ps_free_stock (parts_stock rejected) = [Some 4] /\
  map ps_free_stock (parts_stock accepted) = [Some 4] /\
  map order_status (orders accepted) = ["Accepted"] /\
  map oi_qty (order_items accepted) = [4] /\
  map ps_free_stock (parts_stock rejected_again) = [Some 8] /\
  snd (update_order_status accepted 1 "Rejected") = Success "Updated".
Proof. vm_compute. repeat split; reflexivity. Qed.

End Reversal.

(** ** Free stock over sequences of commits and reversals *)

Section FreeStock.

Import CommitSpec.

Lemma unique_key_row (ps : list StockItem) (a b : StockItem) :
  stock_keys_unique ps -> In a ps -> In b ps -> stock_key a = stock_key b ->
  a = b.
Proof.
  unfold stock_keys_unique. induction ps as [|r ps IH]; simpl; [tauto|].
  intros ND [->|Ha] [->|Hb] K; inversion ND as [|k ks Hnot ND']; subst; auto.
  - exfalso. apply Hnot. rewrite K. now apply in_map.
  - exfalso. apply Hnot. rewrite <- K. now apply in_map.
Qed.

Lemma Forall2_Forall_right {A : Type} (R : A -> A -> Prop) (Q : A -> Prop)
    (l l' : list A) :
  Forall2 R l l' -> (forall r r', In r l -> R r r' -> Q r') -> Forall Q l'.
Proof.
  induction 1 as [|r r' l l' Hr _ IH]; intros H; constructor.
  - apply (H r r'); simpl; auto.
  - apply IH. intros x x' Hx. apply H. now right.
Qed.

Lemma Forall2_map_eq {A B : Type} (R : A -> A -> Prop) (k : A -> B)
    (l l' : list A) :
  Forall2 R l l' -> (forall r r', R r r' -> k r' = k r) -> map k l' = map k l.
Proof.
  induction 1 as [|r r' l l' Hr _ IH]; intros H; simpl; [reflexivity|].
  now rewrite (H r r' Hr), IH.
Qed.

(** Steps 1 to 3 on a table with unique keys: the one row of the key holds
    the stock that was read, so the decrement cannot pass zero. *)
Lemma decrement_keeps_stock_ok (ps ps1 : list StockItem) (pn stype : string)
    (requested current : Z) :
  stock_ok ps ->
  reads ps pn stype current ->
  decrements (Z.min requested current) pn stype ps ps1 ->
  stock_ok ps1.
Proof.
  intros [Huniq Hnn] Hreads Hdec. split.
  - unfold stock_keys_unique.
    rewrite (Forall2_map_eq _ stock_key _ _ Hdec); [exact Huniq|].
    intros r r' [Hhit Hmiss].
    destruct (string_dec (ps_part_number r) pn) as [Hpn|Hpn];
      [|now rewrite Hmiss by (left; left; exact Hpn)].
    destruct (string_dec (ps_stock_type r) stype) as [Hst|Hst];
      [|now rewrite Hmiss by (left; right; exact Hst)].
    destruct (Z_lt_le_dec 0 (Z.min requested current)) as [Hpos|Hle];
      [|now rewrite Hmiss by (right; exact Hle)].
    now rewrite Hhit by auto.
  - apply (Forall2_Forall_right _ _ _ _ Hdec).
    intros r r' Hin [Hhit Hmiss] f' Hf'.
    pose proof (proj1 (Forall_forall _ _) Hnn r Hin) as Hr.
    destruct (string_dec (ps_part_number r) pn) as [Hpn|Hpn];
      [|rewrite Hmiss in Hf' by (left; left; exact Hpn); now apply Hr].
    destruct (string_dec (ps_stock_type r) stype) as [Hst|Hst];
      [|rewrite Hmiss in Hf' by (left; right; exact Hst); now apply Hr].
    destruct (Z_lt_le_dec 0 (Z.min requested current)) as [Hpos|Hle];
      [|rewrite Hmiss in Hf' by (right; exact Hle); now apply Hr].
    rewrite Hhit in Hf' by auto. cbn in Hf'.
    destruct Hreads as [[Hnone _]|(before & r0 & after & Hps & _ & Hpn0 & Hst0 & Hcur)].
    + pose proof (proj1 (Forall_forall _ _) Hnone r Hin) as [Ho|Ho]; contradiction.
    + assert (r = r0) as ->.
      { apply (unique_key_row ps); auto.
        - rewrite Hps. apply in_or_app. right. now left.
        - unfold stock_key. congruence. }
      rewrite Hcur in Hf'. cbn in Hf'. injection Hf' as <-. lia.
Qed.

Lemma commits_keep_stock_ok (stype : string) (oid : Z) ps items ps' lines :
  commits stype oid ps items ps' lines -> stock_ok ps -> stock_ok ps'.
Proof.
  induction 1 as [|ps item items ps1 ps' current price lines Hr Hd _ _ IH]; auto.
  intros Hok. apply IH. eapply decrement_keeps_stock_ok; eauto.
Qed.

Lemma create_order_keeps_stock_ok (db : DB) (user_id : Z) (items : list Item)
    (stock_type : string) :
  stock_ok (parts_stock db) ->
  stock_ok (parts_stock (fst (create_order db user_id items stock_type))).
Proof.
  intros Hok. unfold create_order.
  destruct (existsb _ (orders db)); [exact Hok|].
  destruct (create_order_items _ _ _ items) as [[conn total]|e] eqn:E;
    [|exact Hok].
  destruct (to_numeric total) as [tot|e]; [|exact Hok].
  apply create_order_items_commits in E as (lines & Hcm & _).
  cbn [fst parts_stock set_orders set_cart set_orders_seq] in *.
  eapply commits_keep_stock_ok; eauto.
Qed.

Lemma restored_qty_nonneg (items : list OrderItem) (pn : string) :
  0 <= restored_qty items pn.
Proof.
  induction items as [|i items IH]; cbn; [lia|].
  fold (restored_qty items pn).
  destruct (Z.ltb_spec 0 (oi_qty i)); cbn; [|exact IH].
  destruct (String.eqb _ _); lia.
Qed.

Lemma restore_keeps_stock_ok (db : DB) (oid : Z) :
  stock_ok (parts_stock db) ->
  stock_ok (parts_stock (restore_stock_from_order db oid)).
Proof.
  intros [Huniq Hnn].
  destruct (order_header db oid) as [h|] eqn:E;
    [|rewrite (restore_stock_from_order_orphan _ _ E); now split].
  rewrite (restore_stock_from_order_rows _ _ _ E). cbn [parts_stock set_parts_stock].
  split.
  - unfold stock_keys_unique. rewrite map_map.
    erewrite map_ext; [exact Huniq|].
    intros r. unfold gives_back. now destruct (String.eqb _ _).
  - apply Forall_map. eapply Forall_impl; [|exact Hnn].
    intros r Hr f'. unfold gives_back.
    destruct (String.eqb _ _); [|apply Hr].
    cbn. destruct (ps_free_stock r) as [f|] eqn:Ef; cbn; [|discriminate].
    intros [= <-]. pose proof (Hr f Ef).
    pose proof (restored_qty_nonneg (order_lines db oid) (ps_part_number r)). lia.
Qed.

Lemma restore_all_keeps_stock_ok (todo : list Order) :
  forall db,
    stock_ok (parts_stock db) ->
    stock_ok (parts_stock
                (fold_left (fun db row => restore_stock_from_order db (o_order_id row))
                           todo db)).
Proof.
  induction todo as [|o todo IH]; intros db Hok; [exact Hok|].
  cbn [fold_left]. apply IH. now apply restore_keeps_stock_ok.
Qed.

Lemma step_keeps_stock_ok (db : DB) (op : Op) :
  stock_ok (parts_stock db) -> stock_ok (parts_stock (step db op)).
Proof.
  intros Hok. destruct op as [u items st|oid status|oid| |st]; cbn [step].
  - now apply create_order_keeps_stock_ok.
  - rewrite update_order_status_parts.
    destruct (order_header db oid) as [curr|]; [|exact Hok].
    destruct (_ && _); [now apply restore_keeps_stock_ok | exact Hok].
  - cbn. now apply restore_keeps_stock_ok.
  - cbn. now apply restore_all_keeps_stock_ok.
  - cbn. now apply restore_all_keeps_stock_ok.
Qed.

(** X26: with at most one stock row per [(part_number, stock_type)], no
    sequence of commits, status changes, deletions and history wipes
    drives a [free_stock] below zero. *)
Theorem free_stock_nonneg_under_unique_keys (ops : list Op) :
  forall db,
    stock_keys_unique (parts_stock db) ->
    stock_nonneg (parts_stock db) ->
    stock_nonneg (parts_stock (run db ops)).
Proof.
  unfold run. induction ops as [|op ops IH]; intros db Hu Hn; [exact Hn|].
  cbn [fold_left].
  destruct (step_keeps_stock_ok db op (conj Hu Hn)) as [Hu' Hn'].
  now apply IH.
Qed.

Lemma free_stock_nonneg_under_unique_keys_witness :
  stock_nonneg
    (parts_stock
       (run Sample.four_widgets
            [OpCreateOrder 7 [Sample.ten_widgets] "parts_stock";
             OpUpdateOrderStatus 1 "Rejected";
             OpCreateOrder 7 [Sample.ten_widgets; Sample.ten_widgets] "parts_stock";
             OpDeleteOrder 1])).
Proof.
  apply free_stock_nonneg_under_unique_keys.
  - vm_compute. repeat constructor; simpl; intuition discriminate.
  - unfold stock_nonneg, Sample.four_widgets. cbn.
    repeat constructor. intros f [= <-]. lia.
Defined.

(** C1 (the code at the failing input): once a second catalog upload has
    left two rows for one [(part_number, stock_type)], the deactivated one
    with 10 in stock and the active one with 2, a commit for 10 reads the
    first row, allocates 10 and decrements both rows: the active row ends
    at -8. *)
Theorem create_order_overdraws_second_generation :
  let '(db', result) :=
    create_order Sample.two_generations 7 [Sample.ten_widgets] "parts_stock" in
  result = Success 1 /\
  map oi_qty (order_items db') = [10] /\
  map ps_is_active (parts_stock db') = [false; true] /\
  map ps_free_stock (parts_stock db') = [Some 0; Some (-8)] /\
  ~ stock_nonneg (parts_stock db').
Proof.
  vm_compute. repeat split; try reflexivity.
  intros H. inversion H as [|r l _ H2]; subst.
  inversion H2 as [|r' l' Hneg _]; subst.
  specialize (Hneg (-8) eq_refl). now apply Hneg.
Qed.

End FreeStock.

(** ** Sorting *)

Section Sorting.

Context {A : Type} (leb : A -> A -> bool).

Lemma insert_perm (x : A) (l : list A) : Permutation (Py.insert leb x l) (x :: l).
Proof.
  induction l as [|y l IH]; simpl; [reflexivity|].
  destruct (leb x y); [reflexivity|].
  rewrite IH. apply perm_swap.
Qed.

(** The sort rearranges its input and nothing more. *)
Lemma sort_perm (l : list A) : Permutation (Py.sort leb l) l.
Proof.
  induction l as [|x l IH]; simpl; [reflexivity|].
  fold (Py.sort leb l). rewrite insert_perm. now constructor.
Qed.

Lemma sort_In (l : list A) (x : A) : In x (Py.sort leb l) <-> In x l.
Proof.
  split; apply Permutation_in; [|symmetry]; apply sort_perm.
Qed.

Hypothesis leb_total : forall a b, leb a b = true \/ leb b a = true.

Lemma insert_sorted (x : A) (l : list A) :
  Sorted (fun a b => leb a b = true) l ->
  Sorted (fun a b => leb a b = true) (Py.insert leb x l).
Proof.
  induction 1 as [|y l Hs IH Hhd]; simpl; [repeat constructor|].
  destruct (leb x y) eqn:E.
  - constructor; [now constructor|]. now constructor.
  - constructor; [exact IH|].
    destruct l as [|z l]; simpl.
    + constructor. destruct (leb_total x y); congruence.
    + destruct (leb x z).
      * constructor. destruct (leb_total x y); congruence.
      * constructor. now inversion Hhd.
Qed.

Lemma sort_sorted (l : list A) : Sorted (fun a b => leb a b = true) (Py.sort leb l).
Proof.
  induction l as [|x l IH]; simpl; [constructor|].
  now apply insert_sorted.
Qed.

Hypothesis leb_trans :
  forall a b c, leb a b = true -> leb b c = true -> leb a c = true.

Lemma sort_strongly_sorted (l : list A) :
  StronglySorted (fun a b => leb a b = true) (Py.sort leb l).
Proof.
  apply Sorted_StronglySorted; [|apply sort_sorted].
  intros a b c. apply leb_trans.
Qed.

End Sorting.

(** ** Bulk reconciliation *)

Section Bulk.

Lemma bulk_rows_split (stock : list StockFrameRow) (before : list MergedRow) :
  forall (row : MergedRow) (after : list MergedRow) (results_list : list OutRow),
    bulk_rows stock (before ++ row :: after) = Success results_list ->
    exists o1 out o2,
      bulk_rows stock before = Success o1 /\
      bulk_row stock row = Success out /\
      bulk_rows stock after = Success o2 /\
      results_list = o1 ++ out ++ o2.
Proof.
  induction before as [|m before IH]; intros row after results_list H.
  - cbn [app bulk_rows] in H.
    destruct (bulk_row stock row) as [out|]; [|discriminate].
    destruct (bulk_rows stock after) as [o2|]; [|discriminate].
    injection H as <-. exists [], out, o2. auto.
  - cbn [app bulk_rows] in H |- *.
    destruct (bulk_row stock m) as [om|]; [|discriminate].
    destruct (bulk_rows stock (before ++ row :: after)) as [rest|] eqn:E;
      [|discriminate].
    injection H as <-.
    destruct (IH _ _ _ E) as (o1 & out & o2 & -> & Hrow & Hafter & ->).
    exists (om ++ o1), out, o2. rewrite <- app_assoc. auto.
Qed.

(** The replacement found is a row of the [stock] frame, named by the
    marker or sharing its key. *)
Lemma superseded_lookup_found (stock : list StockFrameRow) (new_pn : string)
    (d : StockFrameRow) :
  superseded_lookup stock new_pn = Some d ->
  In d stock /\
  (sf_part_number d = new_pn \/ sf_match_key d = Py.replace "-" "" new_pn).
Proof.
  unfold superseded_lookup.
  destruct (find _ stock) as [d1|] eqn:E1.
  - intros [= <-]. apply find_some in E1 as [Hin Heq].
    split; [exact Hin|]. left. now apply String.eqb_eq.
  - intros E2. apply find_some in E2 as [Hin Heq].
    split; [exact Hin|]. right. now apply String.eqb_eq.
Qed.

(** The rows of the [stock] frame are the active catalog rows of the
    stock type. *)
Lemma stock_frame_active (ps : list StockItem) (stock_type : string)
    (d : StockFrameRow) :
  In d (stock_frame ps stock_type) ->
  exists r, In r ps /\ ps_stock_type r = stock_type /\ ps_is_active r = true /\
            ps_part_number r = sf_part_number d /\
            ps_free_stock r = sf_free_stock d.
Proof.
  unfold stock_frame. intros H. apply in_map_iff in H as (r & <- & Hr).
  apply filter_In in Hr as [Hin Hf]. apply andb_true_iff in Hf as [Hst Hact].
  exists r. repeat split; auto. now apply String.eqb_eq.
Qed.

(** The adjustment touches the price column only. *)
Lemma adjust_stock_rows (adjustment_percent : Q) (stock stock' : list StockFrameRow) :
  adjust_stock adjustment_percent stock = Success stock' ->
  Forall2 (fun s s' =>
             sf_part_number s' = sf_part_number s /\
             sf_description s' = sf_description s /\
             sf_free_stock s' = sf_free_stock s /\
             sf_superseded s' = sf_superseded s /\
             sf_match_key s' = sf_match_key s)
          stock stock'.
Proof.
  unfold adjust_stock.
  destruct (Qeq_bool adjustment_percent 0).
  - intros [= <-]. induction stock; constructor; auto.
  - destruct (existsb _ stock); [discriminate|].
    intros [= <-]. induction stock; cbn [map]; constructor; auto.
Qed.

Lemma adjust_stock_keys (adjustment_percent : Q) (stock stock' : list StockFrameRow)
    (P : string -> Prop) :
  adjust_stock adjustment_percent stock = Success stock' ->
  Forall (fun s => P (sf_match_key s)) stock ->
  Forall (fun s => P (sf_match_key s)) stock'.
Proof.
  intros H. apply adjust_stock_rows in H.
  induction H as [|s s' l l' (_ & _ & _ & _ & Hk) _ IH]; intros HP;
    [constructor|].
  inversion HP; subst. constructor; [now rewrite Hk | auto].
Qed.

(** A successful call went through the adjusted frame and the loop, and
    sorted what the loop returned. *)
Lemma process_bulk_enquiry_frame (db : DB) (df_bulk : list BulkRow)
    (stock_type : string) (adjustment_percent : Q) (out : list OutRow) :
  process_bulk_enquiry db df_bulk stock_type adjustment_percent = Success out ->
  exists stock results_list,
    adjust_stock adjustment_percent (stock_frame (parts_stock db) stock_type) =
      Success stock /\
    bulk_rows stock
              (merge_left (Py.sort (fun a b => b_sno a <=? b_sno b) df_bulk) stock)
      = Success results_list /\
    out = Py.sort output_leb results_list.
Proof.
  unfold process_bulk_enquiry.
  destruct (stock_frame _ _) as [|s0 stock0] eqn:Es.
  { destruct (Qeq_bool adjustment_percent 0); discriminate. }
  destruct (adjust_stock _ _) as [stock|] eqn:Ea; [|discriminate].
  destruct (bulk_rows _ _) as [results_list|] eqn:E; [|discriminate].
  intros [= <-]. now exists stock, results_list.
Qed.

(** For a merged row whose catalog part has a description, whose requested
    quantity exceeds the part's stock, and whose supersession marker
    resolves to a catalog row with positive stock, the loop emits exactly
    two rows, the second right after the first in [results_list]: the
    part's own row, with the minimum of request and stock allocated, the
    rest of the request as back order, and status "Partial - Split" when
    something is allocated and "Out of Stock" when not; then the row of
    the replacement, with serial number "{sno}.1", a description starting
    with "(Superseded)", the minimum of the remainder and the replacement's
    stock allocated, and back order 0.  Both rows are in the sorted
    output. *)
Lemma bulk_row_supersession_split
    (stock : list StockFrameRow) (row : MergedRow) (orig d : StockFrameRow)
    (desc new_pn : string) (replacement_free : Z) (price : option Q) :
  m_stock row = Some orig ->
  sf_description orig = Some desc ->
  default 0 (sf_free_stock orig) < m_qty row ->
  nonblank (sf_superseded orig) = Some new_pn ->
  superseded_lookup stock new_pn = Some d ->
  sf_free_stock d = Some replacement_free ->
  sf_price d = option_map NDecimal price ->
  0 < replacement_free ->
  let allocated := Z.min (m_qty row) (default 0 (sf_free_stock orig)) in
  exists parent child,
    bulk_row stock row = Success [parent; child] /\
    r_sno parent = SNoStr (Py.str_int (m_sno row)) /\
    r_allocated_qty parent = allocated /\
    r_back_order parent = m_qty row - allocated /\
    (0 < allocated -> r_status parent = "Partial - Split") /\
    (allocated <= 0 -> r_status parent = "Out of Stock") /\
    r_sno child = SNoStr (Py.str_int (m_sno row) ++ ".1")%string /\
    r_description child =
      Some ("(Superseded) " ++ default "None" (sf_description d))%string /\
    r_allocated_qty child = Z.min (m_qty row - allocated) replacement_free /\
    r_back_order child = 0 /\
    r_status child = "Superseded fulfillment" /\
    (forall before after results_list,
        bulk_rows stock (before ++ row :: after) = Success results_list ->
        (exists o1 o2, results_list = o1 ++ parent :: child :: o2) /\
        In parent (Py.sort output_leb results_list) /\
        In child (Py.sort output_leb results_list)).
Proof.
  intros Hm Hdesc Hshort Hmark Hfound Hfree Hprice Hpos allocated.
  assert (Hrem : 0 < m_qty row - allocated) by (unfold allocated; lia).
  assert (Hfloat : exists sup_price,
             num_float (default (NInt 0) (sf_price d)) = Success sup_price).
  { rewrite Hprice. destruct price as [q|]; cbn [option_map default num_float].
    - eauto.
    - eexists. reflexivity. }
  destruct Hfloat as (sup_price & Hfloat).
  eassert (Hrow : bulk_row stock row = Success [_; _]).
  { unfold bulk_row. rewrite Hm, Hdesc, Hmark, Hfound. fold allocated.
    destruct (Z.ltb_spec 0 (m_qty row - allocated)) as [_|]; [|lia].
    destruct (Z.leb_spec (m_qty row - allocated) 0) as [|_]; [lia|].
    unfold replacement_stock. rewrite Hfree.
    destruct (Z.ltb_spec 0 replacement_free) as [_|]; [|lia].
    rewrite Hfloat. reflexivity. }
  eexists _, _. split; [exact Hrow|]. cbn.
  repeat split; try reflexivity.
  - lia.
  - intros H. destruct (Z.ltb_spec 0 allocated); [reflexivity | lia].
  - intros H. destruct (Z.ltb_spec 0 allocated); [lia | reflexivity].
  - apply bulk_rows_split in H as (o1 & out & o2 & _ & Hout & _ & ->).
    rewrite Hrow in Hout. injection Hout as <-. now exists o1, o2.
  - apply sort_In. apply bulk_rows_split in H as (o1 & out & o2 & _ & Hout & _ & ->).
    rewrite Hrow in Hout. injection Hout as <-.
    apply in_or_app. right. now left.
  - apply sort_In. apply bulk_rows_split in H as (o1 & out & o2 & _ & Hout & _ & ->).
    rewrite Hrow in Hout. injection Hout as <-.
    apply in_or_app. right. right. now left.
Qed.

(** The row of the sample catalog: 20 requested of the pump that has 5,
    superseded by the pump that has 30. *)
Lemma bulk_row_supersession_split_witness :
  exists parent child,
    process_bulk_enquiry Sample.pumps [mkBulkRow 1 "p-1" 20] "parts_stock" 0
      = Success [parent; child] /\
    r_allocated_qty parent = 5 /\ r_back_order parent = 15 /\
    r_status parent = "Partial - Split" /\
    r_sno child = SNoStr "1.1" /\
    r_allocated_qty child = 15 /\ r_back_order child = 0 /\
    r_status child = "Superseded fulfillment".
Proof.
  pose (stock := stock_frame (parts_stock Sample.pumps) "parts_stock").
  pose (orig := mkStockFrameRow "P-1" (Some "Pump") (Some 5)
                                (Some (NDecimal (10 # 1))) (Some "P-2") "P1").
  pose (d := mkStockFrameRow "P-2" (Some "Pump v2") (Some 30)
                             (Some (NDecimal (12 # 1))) None "P2").
  destruct (bulk_row_supersession_split stock
              (mkMergedRow 1 "p-1" 20 (Some orig)) orig d "Pump" "P-2" 30
              (Some (12 # 1)))
    as (parent & child & Hrow & _ & Hpa & Hpb & Hps & _ & Hcs & _ & Hca & Hcb
        & Hcst & _);
    try reflexivity.
  exists parent, child. vm_compute in Hrow. injection Hrow as <- <-.
  repeat split; reflexivity.
Defined.

(** C4: the split is not emitted for every part the claim covers.  The
    loop decides that a sheet row has no catalog part by looking at the
    description the join brought, so a catalog part stored without a
    description is taken for a missing one: for 20 units of a pump that
    has 5 in stock and names a replacement that has 30, the output is the
    one row "Invalid Part", with nothing allocated from either part. *)
Theorem bulk_split_needs_description :
  map (fun r => (ps_part_number r, ps_description r, ps_free_stock r,
                 ps_superseded r, ps_is_active r))
      (parts_stock Sample.undescribed_pumps) =
    [("P-1", None, Some 5, Some "P-2", true);
     ("P-2", Some "Pump v2", Some 30, None, true)] /\
  process_bulk_enquiry Sample.undescribed_pumps [mkBulkRow 1 "P-1" 20]
                       "parts_stock" 0 =
    Success [mkOutRow (SNoNum 1) "P-1" None (Some (NInt 0)) 0 20 0 20 true
                      "Invalid Part" None None] /\
  ~ (exists parent child,
        process_bulk_enquiry Sample.undescribed_pumps [mkBulkRow 1 "P-1" 20]
                             "parts_stock" 0 = Success [parent; child]).
Proof.
  split; [reflexivity|]. split; [reflexivity|].
  intros (parent & child & H). vm_compute in H. discriminate H.
Qed.

(** With an adjustment other than zero the call raises as soon as the
    catalog holds a price: the column of [Decimal]s does not multiply with
    the float factor. *)
Lemma bulk_enquiry_adjustment_raises :
  process_bulk_enquiry Sample.pumps [mkBulkRow 1 "P-1" 1] "parts_stock" (10 # 1) =
    Failure "unsupported operand type(s) for *: 'decimal.Decimal' and 'float'".
Proof. reflexivity. Qed.

(** A sheet row whose key no catalog row has joins to nothing. *)
Lemma merge_left_unmatched (stock : list StockFrameRow) (b : BulkRow) :
  Forall (fun s => sf_match_key s <>
                   Py.replace "-" "" (sanitize_part_number (Some (b_part_number b))))
         stock ->
  merge_left [b] stock = [mkMergedRow (b_sno b) (b_part_number b) (b_qty b) None].
Proof.
  intros H. unfold merge_left. cbn [flat_map]. rewrite app_nil_r.
  replace (filter _ stock) with (@nil StockFrameRow); [reflexivity|].
  symmetry. induction H as [|s stock Hs _ IH]; [reflexivity|].
  cbn [filter]. apply String.eqb_neq in Hs. now rewrite Hs.
Qed.

Lemma merge_left_app (df1 df2 : list BulkRow) (stock : list StockFrameRow) :
  merge_left (df1 ++ df2) stock = merge_left df1 stock ++ merge_left df2 stock.
Proof. unfold merge_left. apply flat_map_app. Qed.

(** X27: with a catalog that has at least one active row of the stock type, a
    sheet row whose normalised part number is the key of no such row
    yields one merged row and, from it, exactly one output row: status
    "Invalid Part", price 0, availability 0, allocation 0, the whole
    request as back order, [no_record] set. *)
Theorem bulk_invalid_part_row
    (db : DB) (df_bulk : list BulkRow) (stock_type : string)
    (adjustment_percent : Q) (out : list OutRow) (b : BulkRow) :
  process_bulk_enquiry db df_bulk stock_type adjustment_percent = Success out ->
  In b df_bulk ->
  Forall (fun s => sf_match_key s <>
                   Py.replace "-" "" (sanitize_part_number (Some (b_part_number b))))
         (stock_frame (parts_stock db) stock_type) ->
  let invalid := mkOutRow (SNoNum (b_sno b)) (b_part_number b) None
                          (Some (NInt 0)) 0 (b_qty b) 0 (b_qty b) true
                          "Invalid Part" None None in
  exists stock,
    adjust_stock adjustment_percent (stock_frame (parts_stock db) stock_type) =
      Success stock /\
    (exists m, merge_left [b] stock = [m] /\ bulk_row stock m = Success [invalid]) /\
    In invalid out.
Proof.
  intros Hout Hin Hkeys invalid.
  apply process_bulk_enquiry_frame in Hout as (stock & results & Ha & E & ->).
  exists stock. split; [exact Ha|].
  assert (Hkeys' : Forall (fun s => sf_match_key s <>
                     Py.replace "-" ""
                       (sanitize_part_number (Some (b_part_number b)))) stock).
  { exact (adjust_stock_keys _ _ _
             (fun k => k <> Py.replace "-" ""
                             (sanitize_part_number (Some (b_part_number b))))
             Ha Hkeys). }
  pose proof (merge_left_unmatched stock b Hkeys') as Hm.
  split; [eexists; split; [exact Hm | reflexivity]|].
  apply sort_In.
  assert (Hsorted : In b (Py.sort (fun a b => b_sno a <=? b_sno b) df_bulk))
    by now apply sort_In.
  apply in_split in Hsorted as (df1 & df2 & Hdf). rewrite Hdf in E.
  change (df1 ++ b :: df2) with (df1 ++ [b] ++ df2) in E.
  rewrite !merge_left_app, Hm in E. cbn [app] in E.
  apply bulk_rows_split in E as (o1 & o & o2 & _ & Ho & _ & ->).
  cbn in Ho. injection Ho as <-. apply in_or_app. right. now left.
Qed.

Lemma bulk_invalid_part_row_witness :
  match process_bulk_enquiry Sample.pumps
          [mkBulkRow 3 "zz-9" 4; mkBulkRow 1 "P-2" 1] "parts_stock" 0 with
  | Success out =>
      In (mkOutRow (SNoNum 3) "zz-9" None (Some (NInt 0)) 0 4 0 4 true
                   "Invalid Part" None None) out
  | Failure _ => False
  end.
Proof.
  destruct (process_bulk_enquiry Sample.pumps
              [mkBulkRow 3 "zz-9" 4; mkBulkRow 1 "P-2" 1] "parts_stock" 0)
    as [out|e] eqn:E; [|discriminate E].
  destruct (bulk_invalid_part_row Sample.pumps
              [mkBulkRow 3 "zz-9" 4; mkBulkRow 1 "P-2" 1] "parts_stock" 0 out
              (mkBulkRow 3 "zz-9" 4) E) as (stock & _ & _ & H).
  - now left.
  - vm_compute. repeat constructor; discriminate.
  - exact H.
Defined.

(** C6 (the code at the failing input): with no active catalog row of the
    stock type the [stock] frame has no [free_stock] column (and no
    [price] column), and the call raises instead of reporting the part as
    invalid. *)
Theorem bulk_enquiry_fails_without_catalog :
  process_bulk_enquiry Sample.no_catalog [mkBulkRow 1 "X-1" 5] "parts_stock" 0 =
    Failure "KeyError: 'free_stock'" /\
  process_bulk_enquiry Sample.no_catalog [mkBulkRow 1 "X-1" 5] "parts_stock"
                       (10 # 1) =
    Failure "KeyError: 'price'".
Proof. split; reflexivity. Qed.

(** C5 (the code at the failing input): the serial numbers of the rows
    emitted for catalog parts are text, and text sorts by code point, so
    the row of serial number 10 comes out before the row of serial number
    2.  And when two sheet rows carry the same serial number, the second
    comes out between the first row and its ".1" replacement row. *)
Theorem bulk_output_ten_before_two :
  match process_bulk_enquiry Sample.pumps
          [mkBulkRow 2 "P-1" 1; mkBulkRow 10 "P-2" 1] "parts_stock" 0 with
  | Success out =>
      map r_sno out = [SNoStr "10"; SNoStr "2"] /\
      map r_status out = ["Fully Allocated"; "Fully Allocated"]
  | Failure _ => False
  end /\
  match process_bulk_enquiry Sample.pumps
          [mkBulkRow 1 "P-1" 20; mkBulkRow 1 "P-2" 1] "parts_stock" 0 with
  | Success out =>
      map r_sno out = [SNoStr "1"; SNoStr "1"; SNoStr "1.1"] /\
      map r_status out =
        ["Partial - Split"; "Fully Allocated"; "Superseded fulfillment"]
  | Failure _ => False
  end.
Proof. vm_compute. repeat split; reflexivity. Qed.

Lemma serial_compare_antisym (a b : SerialNo) :
  serial_compare b a = CompOpp (serial_compare a b).
Proof.
  destruct a as [x|x], b as [y|y]; cbn; try reflexivity.
  - apply Z.compare_antisym.
  - apply String.compare_antisym.
Qed.

Lemma output_leb_total (a b : OutRow) :
  output_leb a b = true \/ output_leb b a = true.
Proof.
  unfold output_leb. rewrite (serial_compare_antisym (r_sno a) (r_sno b)).
  destruct (serial_compare (r_sno a) (r_sno b)); cbn; auto.
  destruct (String.leb_total (r_status a) (r_status b)); auto.
Qed.

End Bulk.

(** ** Catalog search *)

Section Search.

Variable ilike : string -> string -> bool.
Variable collate_leb : string -> string -> bool.
Variable ps : list StockItem.
Variable stock_type : string.
Variable adjustment_percent : Q.

Lemma mem_In (x : string) (xs : list string) : Py.mem x xs = true <-> In x xs.
Proof.
  unfold Py.mem. rewrite existsb_exists. split.
  - intros (y & Hy & E). apply String.eqb_eq in E. now subst.
  - intros H. exists x. split; [exact H | apply String.eqb_refl].
Qed.

Lemma mem_not_In (x : string) (xs : list string) : Py.mem x xs = false <-> ~ In x xs.
Proof.
  rewrite <- mem_In. destruct (Py.mem x xs); split; congruence.
Qed.

(** [check_supersession] only adds to [seen_parts]. *)
Lemma check_supersession_grows (budget : nat) :
  forall seen sup,
    incl seen
         (snd (check_supersession ps stock_type adjustment_percent budget seen sup)).
Proof.
  induction budget as [|budget IH]; intros seen sup; cbn [check_supersession].
  - apply incl_refl.
  - destruct (nonblank sup) as [sup_clean|]; [|apply incl_refl].
    generalize (select_part ps stock_type sup_clean). intros sup_rows.
    revert seen. induction sup_rows as [|s_row rest IHrows]; intros seen.
    + apply incl_refl.
    + destruct (Py.mem (ps_part_number s_row) seen); [apply IHrows|].
      specialize (IH (ps_part_number s_row :: seen) (ps_superseded s_row)).
      destruct (check_supersession ps stock_type adjustment_percent budget
                  (ps_part_number s_row :: seen) (ps_superseded s_row))
        as [resup seen'].
      cbn [snd] in *. intros x Hx. apply IH. now right.
Qed.

Lemma chain_processed (row : StockItem) (replacement : bool) (sup : option Part)
    (flag : bool) :
  chain (processed adjustment_percent row replacement sup flag) =
  processed adjustment_percent row replacement sup flag ::
  match sup with
  | Some q => chain q
  | None => []
  end.
Proof. reflexivity. Qed.

Lemma select_part_active (pn : string) (row : StockItem) :
  In row (select_part ps stock_type pn) ->
  In row ps /\ ps_stock_type row = stock_type /\ ps_is_active row = true.
Proof.
  unfold select_part. intros H. apply filter_In in H as [Hin Hf].
  apply andb_true_iff in Hf as [Hf Hact]. apply andb_true_iff in Hf as [_ Hst].
  apply String.eqb_eq in Hst. auto.
Qed.

(** The replacement chain [check_supersession] returns: at most [budget]
    parts, each made from an active catalog row, each of a part number that
    was not seen before and is seen afterwards, no part number twice. *)
Lemma check_supersession_chain (budget : nat) :
  forall seen sup res seen',
    check_supersession ps stock_type adjustment_percent budget seen sup
      = (res, seen') ->
    let parts := match res with
                 | Some q => chain q
                 | None => []
                 end in
    incl seen seen' /\
    Forall (fun x => ~ In (p_part_number x) seen /\ In (p_part_number x) seen' /\
                     catalog_part ps stock_type adjustment_percent x) parts /\
    NoDup (map p_part_number parts) /\
    (length parts <= budget)%nat.
Proof.
  induction budget as [|budget IH]; intros seen sup res seen';
    cbn [check_supersession].
  - intros [= <- <-]. cbn. repeat split; try constructor. apply incl_refl.
  - destruct (nonblank sup) as [sup_clean|].
    2:{ intros [= <- <-]. cbn. repeat split; try constructor; try lia.
        apply incl_refl. }
    pose proof (select_part_active sup_clean) as Hact.
    revert Hact. generalize (select_part ps stock_type sup_clean).
    intros sup_rows. revert seen.
    induction sup_rows as [|s_row rest IHrows]; intros seen Hact.
    + intros [= <- <-]. cbn. repeat split; try constructor; try lia.
      apply incl_refl.
    + destruct (Py.mem (ps_part_number s_row) seen) eqn:Hmem.
      { apply IHrows. intros row Hrow. apply Hact. now right. }
      apply mem_not_In in Hmem.
      destruct (check_supersession ps stock_type adjustment_percent budget
                  (ps_part_number s_row :: seen) (ps_superseded s_row))
        as [resup seen2] eqn:E.
      apply IH in E as (Hincl & Hall & Hnd & Hlen).
      intros [= <- <-]. rewrite chain_processed.
      repeat split.
      * intros x Hx. apply Hincl. now right.
      * constructor.
        -- cbn [p_part_number processed]. repeat split.
           ++ exact Hmem.
           ++ apply Hincl. now left.
           ++ exists s_row. destruct (Hact s_row (or_introl eq_refl)) as (? & ? & ?).
              repeat split; auto.
        -- eapply Forall_impl; [|exact Hall].
           intros x (Hnew & Hseen & Hcat). repeat split; auto.
           intros Hin. apply Hnew. now right.
      * cbn [map]. constructor; [|exact Hnd].
        cbn [p_part_number processed]. intros Hin.
        apply in_map_iff in Hin as (x & Hx & Hin).
        pose proof (proj1 (Forall_forall _ _) Hall x Hin) as (Hnew & _).
        apply Hnew. left. now rewrite Hx.
      * cbn [length]. lia.
Qed.

(** Over the results and all their replacements: every part is made from
    an active catalog row or from a fetched row, of a part number not seen
    before, and no part number comes twice. *)
Lemma search_results_chains (rows : list StockItem) :
  Forall (fun row => In row ps /\ ps_stock_type row = stock_type /\
                     ps_is_active row = true) rows ->
  forall seen,
    let parts :=
      flat_map chain (search_results ps stock_type adjustment_percent rows seen) in
    Forall (fun x => ~ In (p_part_number x) seen /\
                     catalog_part ps stock_type adjustment_percent x) parts /\
    NoDup (map p_part_number parts).
Proof.
  induction 1 as [|row rest Hrow _ IH]; intros seen; cbn [search_results].
  - split; constructor.
  - destruct (Py.mem (ps_part_number row) seen) eqn:Hmem; [apply IH|].
    apply mem_not_In in Hmem.
    destruct (check_supersession ps stock_type adjustment_percent 6
                (ps_part_number row :: seen) (ps_superseded row))
      as [sup_obj seen'] eqn:E.
    apply check_supersession_chain in E as (Hincl & Hall & Hnd & _).
    destruct (IH seen') as [Hrest Hndrest].
    cbn [flat_map]. rewrite chain_processed. cbn [app].
    split.
    + constructor.
      * split; [exact Hmem|]. exists row. destruct Hrow as (? & ? & ?).
        repeat split; auto.
      * apply Forall_app. split.
        -- eapply Forall_impl; [|exact Hall].
           intros x (Hnew & _ & Hcat). split; [|exact Hcat].
           intros Hin. apply Hnew. now right.
        -- eapply Forall_impl; [|exact Hrest].
           intros x (Hnew & Hcat). split; [|exact Hcat].
           intros Hin. apply Hnew, Hincl. now right.
    + cbn [map]. rewrite map_app. constructor.
      * cbn [p_part_number processed]. intros Hin.
        apply in_app_or in Hin as [Hin|Hin];
          apply in_map_iff in Hin as (x & Hx & Hin).
        -- pose proof (proj1 (Forall_forall _ _) Hall x Hin) as (Hnew & _).
           apply Hnew. left. now rewrite Hx.
        -- pose proof (proj1 (Forall_forall _ _) Hrest x Hin) as (Hnew & _).
           apply Hnew, Hincl. left. now rewrite Hx.
      * apply NoDup_app; [exact Hnd | exact Hndrest |].
        intros pn Hin1 Hin2.
        apply in_map_iff in Hin1 as (x & Hx & Hin1).
        apply in_map_iff in Hin2 as (y & Hy & Hin2).
        pose proof (proj1 (Forall_forall _ _) Hall x Hin1) as (_ & Hseen & _).
        pose proof (proj1 (Forall_forall _ _) Hrest y Hin2) as (Hnew & _).
        apply Hnew. rewrite Hy, <- Hx. exact Hseen.
Qed.

(** Every result is made from the first fetched row of its part number,
    a part number that was not seen before; no part number comes twice. *)
Lemma search_results_rows (rows : list StockItem) :
  forall seen,
    let results := search_results ps stock_type adjustment_percent rows seen in
    Forall (fun p =>
              ~ In (p_part_number p) seen /\
              exists l1 row l2,
                rows = l1 ++ row :: l2 /\
                from_row adjustment_percent row p /\
                Forall (fun r => ps_part_number r <> ps_part_number row) l1)
           results /\
    NoDup (map p_part_number results).
Proof.
  induction rows as [|row rest IH]; intros seen; cbn [search_results].
  - split; constructor.
  - destruct (Py.mem (ps_part_number row) seen) eqn:Hmem.
    + destruct (IH seen) as [Hall Hnd]. split; [|exact Hnd].
      eapply Forall_impl; [|exact Hall].
      intros p (Hnew & l1 & r & l2 & -> & Hfrom & Hfirst).
      split; [exact Hnew|]. exists (row :: l1), r, l2.
      repeat split; try apply Hfrom.
      constructor; [|exact Hfirst].
      intros E. apply Hnew. destruct Hfrom as [-> _]. rewrite <- E.
      now apply mem_In.
    + pose proof (check_supersession_grows 6 (ps_part_number row :: seen)
                    (ps_superseded row)) as Hgrow.
      destruct (check_supersession ps stock_type adjustment_percent 6
                  (ps_part_number row :: seen) (ps_superseded row))
        as [sup_obj seen'].
      cbn [snd] in Hgrow. destruct (IH seen') as [Hall Hnd].
      apply mem_not_In in Hmem.
      split.
      * constructor.
        -- split; [exact Hmem|]. exists [], row, rest.
           repeat split; constructor.
        -- eapply Forall_impl; [|exact Hall].
           intros p (Hnew & l1 & r & l2 & -> & Hfrom & Hfirst).
           split; [intros Hin; apply Hnew, Hgrow; now right|].
           exists (row :: l1), r, l2. repeat split; try apply Hfrom.
           constructor; [|exact Hfirst].
           intros E. apply Hnew, Hgrow. left. destruct Hfrom as [-> _].
           exact E.
      * cbn [map]. constructor; [|exact Hnd].
        intros Hin. apply in_map_iff in Hin as (p & Hp & Hin).
        pose proof (proj1 (Forall_forall _ _) Hall p Hin) as [Hnew _].
        apply Hnew, Hgrow. left. now rewrite Hp.
Qed.

Lemma search_results_length (rows : list StockItem) :
  forall seen,
    (length (search_results ps stock_type adjustment_percent rows seen)
     <= length rows)%nat.
Proof.
  induction rows as [|row rest IH]; intros seen; cbn [search_results length];
    [lia|].
  destruct (Py.mem _ seen); [specialize (IH seen); lia|].
  destruct (check_supersession _ _ _ _ _ _) as [sup_obj seen'].
  cbn [length]. specialize (IH seen'). lia.
Qed.

(** The results keep the order of the fetched rows. *)
Lemma search_results_sorted (before : string -> string -> Prop)
    (rows : list StockItem) :
  StronglySorted (fun a b => before (ps_part_number a) (ps_part_number b)) rows ->
  forall seen,
    StronglySorted (fun p q => before (p_part_number p) (p_part_number q))
                   (search_results ps stock_type adjustment_percent rows seen).
Proof.
  induction 1 as [|row rest Hs IH Hall]; intros seen; cbn [search_results];
    [constructor|].
  destruct (Py.mem _ seen); [apply IH|].
  destruct (check_supersession _ _ _ _ _ _) as [sup_obj seen'].
  constructor; [apply IH|].
  destruct (search_results_rows rest seen') as [Hrows _].
  eapply Forall_impl; [|exact Hrows].
  intros p (_ & l1 & r & l2 & -> & [Hpn _] & _). cbn [p_part_number processed].
  rewrite Hpn. apply (proj1 (Forall_forall _ _) Hall).
  apply in_or_app. right. now left.
Qed.

Lemma firstn_In {A : Type} (n : nat) (l : list A) (x : A) :
  In x (firstn n l) -> In x l.
Proof.
  intros H. rewrite <- (firstn_skipn n l). apply in_or_app. now left.
Qed.

Lemma firstn_strongly_sorted {A : Type} (R : A -> A -> Prop) (n : nat) :
  forall l, StronglySorted R l -> StronglySorted R (firstn n l).
Proof.
  induction n as [|n IH]; intros l H; [constructor|].
  destruct H as [|x l Hs Hall]; cbn [firstn]; constructor.
  - now apply IH.
  - apply Forall_forall. intros y Hy.
    apply (proj1 (Forall_forall _ _) Hall). eapply firstn_In; eauto.
Qed.

Lemma strongly_sorted_impl {A : Type} (R R' : A -> A -> Prop) (l : list A) :
  (forall a b, R a b -> R' a b) -> StronglySorted R l -> StronglySorted R' l.
Proof.
  intros H. induction 1 as [|x l Hs IH Hall]; constructor; auto.
  eapply Forall_impl; [|exact Hall]. apply H.
Qed.

Hypothesis collate_total :
  forall a b, collate_leb a b = true \/ collate_leb b a = true.
Hypothesis collate_trans :
  forall a b c, collate_leb a b = true -> collate_leb b c = true ->
                collate_leb a c = true.

Lemma search_leb_before (cleaned : string) (a b : StockItem) :
  search_leb ilike collate_leb cleaned a b = true <->
  search_before ilike collate_leb cleaned (ps_part_number a) (ps_part_number b).
Proof.
  unfold search_leb, search_before.
  rewrite orb_true_iff, andb_true_iff, Z.ltb_lt, Z.eqb_eq. reflexivity.
Qed.

(** The rows the SELECT returns are in the order of the ORDER BY. *)
Lemma search_query_sorted (prefix : string) :
  let cleaned :=
    Py.strip (Py.replace "-" "" (sanitize_part_number (Some prefix))) in
  StronglySorted
    (fun a b => search_before ilike collate_leb cleaned
                              (ps_part_number a) (ps_part_number b))
    (search_query ilike collate_leb ps stock_type prefix).
Proof.
  intros cleaned. unfold search_query. fold cleaned.
  apply firstn_strongly_sorted.
  eapply strongly_sorted_impl;
    [|apply (sort_strongly_sorted (search_leb ilike collate_leb cleaned))].
  - intros a b. apply search_leb_before.
  - intros a b.
    destruct (Z.lt_total (search_rank ilike cleaned (ps_part_number a))
                         (search_rank ilike cleaned (ps_part_number b)))
      as [H|[H|H]].
    + left. apply search_leb_before. now left.
    + destruct (collate_total (ps_part_number a) (ps_part_number b)).
      * left. apply search_leb_before. right. auto.
      * right. apply search_leb_before. right. auto.
    + right. apply search_leb_before. now left.
  - intros a b c Hab Hbc. apply search_leb_before.
    apply search_leb_before in Hab, Hbc.
    destruct Hab as [Hab|[Eab Hab]], Hbc as [Hbc|[Ebc Hbc]].
    + left. lia.
    + left. lia.
    + left. lia.
    + right. split; [lia|]. eapply collate_trans; eauto.
Qed.

Lemma search_query_active (prefix : string) :
  Forall (fun row => In row ps /\ ps_stock_type row = stock_type /\
                     ps_is_active row = true)
         (search_query ilike collate_leb ps stock_type prefix).
Proof.
  apply Forall_forall. intros row Hrow. unfold search_query in Hrow.
  apply firstn_In, sort_In, filter_In in Hrow as [Hin Hf].
  apply andb_true_iff in Hf as [Hf Hact]. apply andb_true_iff in Hf as [_ Hst].
  apply String.eqb_eq in Hst. auto.
Qed.

(** What [get_parts_like] returns: at most 50 results; no part number
    twice, among the results and among the results with their replacement
    chains, and a result is made from the first fetched row of its part
    number; the results are in the order of the ORDER BY; and the price of
    each result, and of each replacement, is the catalog price of an
    active row of that part number, NULL counting as 0, adjusted as
    [adjust_price] does. *)
Lemma get_parts_like_results (prefix : string) :
  let results :=
    get_parts_like ilike collate_leb ps stock_type adjustment_percent prefix in
  let rows := search_query ilike collate_leb ps stock_type prefix in
  let cleaned :=
    Py.strip (Py.replace "-" "" (sanitize_part_number (Some prefix))) in
  (length results <= 50)%nat /\
  NoDup (map p_part_number results) /\
  NoDup (map p_part_number (flat_map chain results)) /\
  StronglySorted
    (fun p q => search_before ilike collate_leb cleaned
                              (p_part_number p) (p_part_number q)) results /\
  Forall (fun p =>
            exists l1 row l2,
              rows = l1 ++ row :: l2 /\
              Forall (fun r => ps_part_number r <> ps_part_number row) l1 /\
              p_part_number p = ps_part_number row /\
              p_price p =
                adjust_price (default 0%Q (ps_price row)) adjustment_percent)
         results /\
  Forall (fun p =>
            exists row,
              In row ps /\ ps_stock_type row = stock_type /\
              ps_is_active row = true /\
              p_part_number p = ps_part_number row /\
              p_price p =
                adjust_price (default 0%Q (ps_price row)) adjustment_percent)
         (flat_map chain results).
Proof.
  intros results rows cleaned. unfold results, get_parts_like. fold rows.
  destruct (search_results_rows rows []) as [Hrows Hnd].
  destruct (search_results_chains rows (search_query_active prefix) [])
    as [Hchains Hndchains].
  repeat split.
  - etransitivity; [apply search_results_length|].
    unfold rows, search_query. apply firstn_le_length.
  - exact Hnd.
  - exact Hndchains.
  - apply search_results_sorted. apply search_query_sorted.
  - eapply Forall_impl; [|exact Hrows].
    intros p (_ & l1 & row & l2 & E & (Hpn & _ & Hprice) & Hfirst).
    exists l1, row, l2. auto.
  - eapply Forall_impl; [|exact Hchains].
    intros p (_ & row & Hin & Hst & Hact & Hpn & _ & Hprice).
    exists row. auto.
Qed.

End Search.

(** The order of [String.leb], the code-point order, is transitive. *)
Lemma string_compare_not_gt_trans (a : string) :
  forall b c,
    String.compare a b <> Gt -> String.compare b c <> Gt ->
    String.compare a c <> Gt.
Proof.
  induction a as [|x a IH]; intros [|y b] [|z c]; simpl; try congruence.
  unfold Ascii.compare.
  destruct (N.compare_spec (N_of_ascii x) (N_of_ascii y));
    destruct (N.compare_spec (N_of_ascii y) (N_of_ascii z));
    destruct (N.compare_spec (N_of_ascii x) (N_of_ascii z));
    try congruence; try lia.
  apply IH.
Qed.

Lemma string_leb_trans (a b c : string) :
  String.leb a b = true -> String.leb b c = true -> String.leb a c = true.
Proof.
  unfold String.leb. intros Hab Hbc.
  destruct (String.compare a b) eqn:E1; try discriminate Hab;
    destruct (String.compare b c) eqn:E2; try discriminate Hbc;
    destruct (String.compare a c) eqn:E3; try reflexivity;
    exfalso; apply (string_compare_not_gt_trans a b c); congruence.
Qed.

(** The search for "blt" in the sample catalog, prices raised by 10%, with
    the reference ILIKE and the code-point collation. *)
Lemma get_parts_like_results_witness :
  let results :=
    get_parts_like ilike_ascii String.leb Sample.fasteners "parts_stock" (10 # 1)
                   "blt" in
  map p_part_number results = ["BLT-10"; "NUT-7"] /\
  map p_price results = [PyNum.of_exact (138 # 100); PyNum.Finite 0] /\
  NoDup (map p_part_number results) /\
  (length results <= 50)%nat.
Proof.
  intros results.
  destruct (get_parts_like_results ilike_ascii String.leb Sample.fasteners
              "parts_stock" (10 # 1) String.leb_total string_leb_trans "blt")
    as (Hlen & Hnd & _).
  repeat split; [exact Hnd | exact Hlen].
Defined.

(** The adjustment rounds the float, not the decimal: 2.675 is stored in
    binary a little below the tie, and comes out as 2.67. *)
Lemma adjust_price_rounds_the_float :
  adjust_price (2675 # 1000) 0 = PyNum.of_exact (267 # 100) /\
  round_half_even ((2675 # 1000) * 100) = 268.
Proof. split; vm_compute; reflexivity. Qed.

(** C7: the results do not come with the exact-prefix matches on the
    normalised query first.  The ORDER BY tests the part number against the
    query without its hyphens, and the catalog keeps the hyphens: for the
    query "BLT-1", which normalises to itself, the part BLT-10 starts with
    the query and the part ABLT-1X does not, yet neither starts with
    "BLT1", both fall in the second group, and ABLT-1X comes first.
    Without hyphens on either side the first group is what the claim
    says: for "BLT1", BLT10 comes before ABLT1X. *)
Theorem get_parts_like_misses_hyphenated_prefix :
  let results :=
    get_parts_like ilike_ascii String.leb Sample.bolts "parts_stock" 0 "BLT-1" in
  let plain :=
    get_parts_like ilike_ascii String.leb Sample.plain_bolts "parts_stock" 0
                   "BLT1" in
  map ps_part_number Sample.bolts = ["BLT-10"; "ABLT-1X"] /\
  sanitize_part_number (Some "BLT-1") = "BLT-1" /\
  String.prefix "BLT-1" "BLT-10" = true /\
  String.prefix "BLT-1" "ABLT-1X" = false /\
  map p_part_number results = ["ABLT-1X"; "BLT-10"] /\
  map (search_rank ilike_ascii "BLT1") ["ABLT-1X"; "BLT-10"] = [2; 2] /\
  map p_part_number plain = ["BLT10"; "ABLT1X"] /\
  map (search_rank ilike_ascii "BLT1") ["BLT10"; "ABLT1X"] = [1; 2].
Proof. vm_compute. repeat split; reflexivity. Qed.

(* ===================================================================== *)
(** * Part III: further properties of the module *)
(* ===================================================================== *)

(** ** Commit and reversal together *)

Section CommitAndReversal.

(** One more item: its allocation is taken first, when positive and from
    the rows of its key. *)
Lemma takes_cons (stype : string) (i : OrderItem) (lines : list OrderItem)
    (r : StockItem) :
  takes stype (i :: lines) r =
  takes stype lines
    (if 0 <? oi_qty i
     then if stock_key_matches (oi_part_number i) stype r
          then with_free_stock r
                 (option_map (fun f => f + - oi_qty i) (ps_free_stock r))
          else r
     else r).
Proof.
  unfold takes, stock_key_matches. cbn [restored_qty fold_right].
  fold (restored_qty lines).
  rewrite (String.eqb_sym (oi_part_number i)).
  destruct r as [pn d f p st a sup].
  cbn [ps_part_number ps_stock_type ps_free_stock].
  destruct (0 <? oi_qty i); cbn [andb]; [|reflexivity].
  destruct (String.eqb pn (oi_part_number i)); cbn [andb]; [|reflexivity].
  destruct (String.eqb st stype) eqn:E; cbn [andb].
  - unfold with_free_stock. cbn. rewrite E. destruct f as [f|]; cbn; [|reflexivity].
    now rewrite Z.sub_add_distr.
  - cbn. now rewrite E.
Qed.

Lemma takes_nil (stype : string) (r : StockItem) : takes stype [] r = r.
Proof.
  unfold takes. destruct (String.eqb _ _); [|reflexivity].
  destruct r as [pn d [f|] p st a sup]; cbn; [|reflexivity].
  unfold with_free_stock; cbn. now rewrite Z.sub_0_r.
Qed.

(** The loop of [create_order] takes from each stock row what the lines it
    inserts hold for that row. *)
Lemma create_order_items_takes (oid : Z) (stype : string) (items : list Item) :
  forall (db : DB) (total : Num) (db' : DB) (total' : Num),
    create_order_items oid stype (db, total) items = Success (db', total') ->
    exists lines,
      order_items db' = order_items db ++ lines /\
      parts_stock db' = map (takes stype lines) (parts_stock db).
Proof.
  induction items as [|item items IH]; intros db total db' total' H.
  - injection H as <- <-. exists []. rewrite app_nil_r. split; [reflexivity|].
    rewrite <- (map_id (parts_stock db)) at 1. apply map_ext. intros r.
    symmetry. apply takes_nil.
  - cbn [create_order_items] in H.
    destruct (create_order_item oid stype (db, total) item)
      as [[db1 total1]|e] eqn:E1; [|discriminate].
    apply IH in H as (lines & Hoi & Hps).
    apply create_order_item_success in E1 as (current & price & _ & _ & E1).
    cbv zeta in E1. subst db1.
    exists (mkOrderItem oid (it_part_number item) (it_description item)
                        (Z.min (it_qty item) current) (it_qty item) current
                        price (it_supersedes item) :: lines).
    destruct (0 <? Z.min (it_qty item) current) eqn:Hpos;
      cbn [order_items parts_stock set_order_items set_parts_stock] in Hoi, Hps;
      (split; [rewrite Hoi, <- app_assoc; reflexivity|]);
      rewrite Hps, (map_ext _ _ (takes_cons stype _ lines));
      cbn [oi_qty oi_part_number]; rewrite Hpos.
    + unfold add_free_stock. now rewrite map_map.
    + reflexivity.
Qed.

Lemma gives_back_takes (header : Order) (lines : list OrderItem) (r : StockItem) :
  gives_back header lines (takes (o_stock_type header) lines r) = r.
Proof.
  unfold gives_back, takes. destruct r as [pn d f p st a sup].
  cbn [ps_stock_type ps_part_number ps_free_stock].
  destruct (String.eqb st (o_stock_type header)) eqn:E; cbn; rewrite E;
    [|reflexivity].
  unfold with_free_stock; cbn. destruct f as [f|]; cbn; [|reflexivity].
  now rewrite Z.sub_add.
Qed.

Lemma find_app_fresh {A : Type} (f : A -> bool) (l : list A) (x : A) :
  existsb f l = false -> f x = true -> find f (l ++ [x]) = Some x.
Proof.
  intros Hl Hx. induction l as [|a l IH]; cbn in *; [now rewrite Hx|].
  apply orb_false_iff in Hl as [Ha Hl]. rewrite Ha. auto.
Qed.

(** What a successful [create_order] leaves behind: the header found under
    the new key, the lines found under it, and the stock taken. *)
Lemma create_order_leaves (db : DB) (user_id : Z) (items : list Item)
    (stock_type : string) (db' : DB) (oid : Z) :
  lines_key_ok db ->
  create_order db user_id items stock_type = (db', Success oid) ->
  exists lines total,
    order_header db' oid = Some (mkOrder oid user_id total "Pending" stock_type) /\
    order_lines db' oid = lines /\
    order_items db' = order_items db ++ lines /\
    orders db' = orders db ++ [mkOrder oid user_id total "Pending" stock_type] /\
    parts_stock db' = map (takes stock_type lines) (parts_stock db) /\
    existsb (fun o => Z.eqb (o_order_id o) oid) (orders db) = false /\
    exists acc,
      CommitSpec.accumulated (NInt 0) lines items = Success acc /\
      to_numeric acc = Success total /\
      CommitSpec.commits stock_type oid (parts_stock db) items (parts_stock db')
                         lines.
Proof.
  intros FK. unfold create_order.
  destruct (existsb _ (orders db)) eqn:Hfresh; [discriminate|].
  destruct (create_order_items _ _ _ items) as [[conn acc]|e] eqn:E; [|discriminate].
  destruct (to_numeric acc) as [total|e] eqn:En; [|discriminate].
  intros [= <- <-].
  pose proof (create_order_items_commits _ _ _ _ _ _ _ E)
    as (lines0 & Hcm & Hoi0 & Htotal & Ho & _).
  apply create_order_items_takes in E as (lines & Hoi & Hps).
  assert (lines0 = lines) as -> by (rewrite Hoi0 in Hoi; now apply app_inv_head in Hoi).
  cbn [parts_stock cart orders order_items set_orders set_orders_seq set_cart] in *.
  assert (Hos : orders
                  (set_cart
                     (filter (fun c => negb (cart_user_id c =? user_id)) (cart conn))
                     (set_orders
                        (map (fun o =>
                                if o_order_id o =? orders_seq db
                                then mkOrder (o_order_id o) (o_user_id o) total
                                             (order_status o) (o_stock_type o)
                                else o) (orders conn)) conn)) =
                orders db ++ [mkOrder (orders_seq db) user_id total "Pending" stock_type]).
  { cbn [orders set_cart set_orders]. rewrite Ho.
    exact (update_fresh_header (orders db)
             (mkOrder (orders_seq db) user_id 0%Q "Pending" stock_type)
             (fun o => mkOrder (o_order_id o) (o_user_id o) total
                               (order_status o) (o_stock_type o)) Hfresh). }
  exists lines, total. repeat split.
  - unfold order_header. rewrite Hos. apply find_app_fresh; [exact Hfresh|].
    cbn. apply Z.eqb_refl.
  - unfold order_lines. cbn [order_items set_cart set_orders].
    rewrite Hoi, filter_app, (no_line_of_fresh_order db _ FK Hfresh). cbn [app].
    apply filter_all.
    eapply Forall_impl; [|exact (commits_lines_order _ _ _ _ _ _ Hcm)].
    intros l ->. apply Z.eqb_refl.
  - exact Hoi.
  - exact Hos.
  - exact Hps.
  - exact Hfresh.
  - exists acc. auto.
Qed.

(** X1: an order that has just been committed can be undone: deleting it,
    or rejecting it, puts every stock row back exactly as it was before the
    commit, whatever the items were and however many rows share their
    keys. *)
Theorem commit_then_reversal_restores_stock
    (db : DB) (user_id : Z) (items : list Item) (stock_type : string)
    (db' : DB) (oid : Z) :
  lines_key_ok db ->
  create_order db user_id items stock_type = (db', Success oid) ->
  parts_stock (fst (delete_order db' oid)) = parts_stock db /\
  parts_stock (fst (update_order_status db' oid "Rejected")) = parts_stock db.
Proof.
  intros FK H.
  destruct (create_order_leaves _ _ _ _ _ _ FK H)
    as (lines & total & Hh & Hl & _ & _ & Hps & _).
  assert (Hback : map (gives_back (mkOrder oid user_id total "Pending" stock_type)
                                  (order_lines db' oid)) (parts_stock db') =
                  parts_stock db).
  { rewrite Hl, Hps, map_map. rewrite <- (map_id (parts_stock db)) at 2.
    apply map_ext. intros r.
    exact (gives_back_takes (mkOrder oid user_id total "Pending" stock_type) lines r). }
  split.
  - unfold delete_order. cbn [fst parts_stock set_orders set_order_items].
    now rewrite (restore_stock_from_order_rows _ _ _ Hh).
  - rewrite update_order_status_parts, Hh. cbn.
    now rewrite (restore_stock_from_order_rows _ _ _ Hh).
Qed.

Lemma commit_then_reversal_restores_stock_witness :
  let committed :=
    fst (create_order Sample.two_generations 7
                      [Sample.ten_widgets; Sample.ten_widgets] "parts_stock") in
  parts_stock (fst (delete_order committed 1)) =
    parts_stock Sample.two_generations /\
  parts_stock (fst (update_order_status committed 1 "Rejected")) =
    parts_stock Sample.two_generations.
Proof.
  apply (commit_then_reversal_restores_stock Sample.two_generations 7
           [Sample.ten_widgets; Sample.ten_widgets] "parts_stock").
  - constructor.
  - reflexivity.
Defined.

End CommitAndReversal.

(** ** What the reversal paths do to the stock table *)

Section ReversalFrame.

Lemma raised_in_place_refl (ps : list StockItem) : raised_in_place ps ps.
Proof.
  unfold raised_in_place. induction ps as [|r ps IH]; constructor; [|exact IH].
  split; [apply with_free_stock_same|].
  destruct (ps_free_stock r); [lia | exact I].
Qed.

Lemma raised_in_place_trans (ps1 ps2 ps3 : list StockItem) :
  raised_in_place ps1 ps2 -> raised_in_place ps2 ps3 -> raised_in_place ps1 ps3.
Proof.
  unfold raised_in_place. intros H12. revert ps3.
  induction H12 as [|r1 r2 l1 l2 [E12 L12] _ IH]; intros ps3 H23;
    inversion H23 as [|r2' r3 l2' l3 [E23 L23] H23']; subst; constructor.
  - split.
    + rewrite <- E12, <- E23. now destruct r3.
    + destruct (ps_free_stock r1), (ps_free_stock r2), (ps_free_stock r3);
        try contradiction; try exact I. lia.
  - now apply IH.
Qed.

Lemma gives_back_raises (header : Order) (items : list OrderItem)
    (ps : list StockItem) :
  raised_in_place ps (map (gives_back header items) ps).
Proof.
  unfold raised_in_place. induction ps as [|r ps IH]; cbn [map]; constructor;
    [|exact IH].
  unfold gives_back. destruct (String.eqb _ _).
  - split; [now destruct r|]. cbn.
    pose proof (restored_qty_nonneg items (ps_part_number r)).
    destruct (ps_free_stock r); cbn; [lia | exact I].
  - split; [apply with_free_stock_same|].
    destruct (ps_free_stock r); [lia | exact I].
Qed.

Lemma restore_raises (db : DB) (oid : Z) :
  raised_in_place (parts_stock db) (parts_stock (restore_stock_from_order db oid)).
Proof.
  destruct (order_header db oid) as [h|] eqn:E.
  - rewrite (restore_stock_from_order_rows _ _ _ E). apply gives_back_raises.
  - rewrite (restore_stock_from_order_orphan _ _ E). apply raised_in_place_refl.
Qed.

Lemma restore_all_raises (todo : list Order) :
  forall db,
    raised_in_place (parts_stock db)
      (parts_stock
         (fold_left (fun db row => restore_stock_from_order db (o_order_id row))
                    todo db)).
Proof.
  induction todo as [|o todo IH]; intros db; cbn [fold_left];
    [apply raised_in_place_refl|].
  eapply raised_in_place_trans; [apply restore_raises | apply IH].
Qed.

Lemma Forall2_rows_paired (R : StockItem -> StockItem -> Prop)
    (ps ps' : list StockItem) :
  Forall2 R ps ps' -> rows_paired R ps ps'.
Proof. intros H. now exists ps, ps'. Qed.

(** X2: no reversal path ever lowers a [free_stock] or touches anything
    else of a stock row: after a status change, the deletion of an order or
    either history wipe, every row of the stock table has its counterpart,
    one for one, with the same part number, description, price, stock
    type, activity flag and marker, and a [free_stock] that is no lower
    than before (NULL staying NULL). *)
Theorem reversals_only_raise_free_stock (db : DB) :
  (forall oid status,
      only_raised (parts_stock db)
                  (parts_stock (fst (update_order_status db oid status)))) /\
  (forall oid,
      only_raised (parts_stock db) (parts_stock (fst (delete_order db oid)))) /\
  only_raised (parts_stock db) (parts_stock (fst (delete_all_users_history db))) /\
  (forall stock_type,
      only_raised (parts_stock db)
                  (parts_stock (fst (delete_all_orders db stock_type)))).
Proof.
  split; [|split; [|split]].
  - intros oid status. apply Forall2_rows_paired.
    rewrite update_order_status_parts.
    destruct (order_header db oid); [|apply raised_in_place_refl].
    destruct (_ && _); [apply restore_raises | apply raised_in_place_refl].
  - intros oid. apply Forall2_rows_paired. cbn. apply restore_raises.
  - apply Forall2_rows_paired. cbn. apply restore_all_raises.
  - intros stock_type. apply Forall2_rows_paired. cbn. apply restore_all_raises.
Qed.

(** X3: deleting an order whose status is already ['Rejected'] gives its
    quantities back a second time: [delete_order] has no guard on the
    status, so after a rejection and a deletion every stock row of the
    order's stock type has gained the lines' quantities twice. *)
Theorem delete_after_reject_restores_twice
    (db : DB) (oid : Z) (header : Order) :
  order_header db oid = Some header ->
  order_status header <> "Rejected" ->
  let rejected := fst (update_order_status db oid "Rejected") in
  parts_stock (fst (delete_order rejected oid)) =
  map (gives_back header (order_lines db oid))
      (map (gives_back header (order_lines db oid)) (parts_stock db)).
Proof.
  intros Hh Hst rejected.
  destruct (update_order_status_orders db oid "Rejected") as [Hh' Hl'].
  fold rejected in Hh', Hl'. rewrite Hh in Hh'. cbn [option_map] in Hh'.
  assert (Hp : parts_stock rejected =
               map (gives_back header (order_lines db oid)) (parts_stock db)).
  { unfold rejected. rewrite update_order_status_parts, Hh.
    apply String.eqb_neq in Hst. rewrite Hst, String.eqb_refl. cbn [negb andb].
    now rewrite (restore_stock_from_order_rows _ _ _ Hh). }
  unfold delete_order. cbn [fst parts_stock set_orders set_order_items].
  rewrite (restore_stock_from_order_rows _ _ _ Hh'). cbn [parts_stock set_parts_stock].
  rewrite Hl', Hp. apply map_ext. intros r. now apply gives_back_stock_type.
Qed.

Lemma delete_after_reject_restores_twice_witness :
  let committed :=
    fst (create_order Sample.four_widgets 7 [Sample.ten_widgets] "parts_stock") in
  map ps_free_stock
      (parts_stock
         (fst (delete_order (fst (update_order_status committed 1 "Rejected")) 1)))
  = [Some 8].
Proof.
  intros committed.
  rewrite (delete_after_reject_restores_twice committed 1
             (mkOrder 1 7 (10 # 1) "Pending" "parts_stock")).
  - reflexivity.
  - reflexivity.
  - discriminate.
Defined.

Lemma find_by_unique_key {A : Type} (key : A -> Z) (l : list A) (x : A) :
  NoDup (map key l) -> In x l ->
  find (fun y => Z.eqb (key y) (key x)) l = Some x.
Proof.
  induction l as [|a l IH]; cbn; [tauto|].
  intros ND [->|Hin]; [now rewrite Z.eqb_refl|].
  inversion ND as [|k ks Hnot ND']; subst.
  destruct (Z.eqb_spec (key a) (key x)) as [E|]; [|auto].
  exfalso. apply Hnot. rewrite E. now apply in_map.
Qed.

End ReversalFrame.

(** ** History wipes *)

Section HistoryWipes.

Lemma restore_all_tables (todo : list Order) :
  forall db,
    let db' := fold_left (fun db row => restore_stock_from_order db (o_order_id row))
                         todo db in
    orders db' = orders db /\ order_items db' = order_items db /\
    cart db' = cart db /\
    parts_stock db' =
      fold_left (restore_rows (orders db) (order_items db)) todo (parts_stock db).
Proof.
  induction todo as [|o todo IH]; intros db; cbn [fold_left]; [auto|].
  destruct (IH (restore_stock_from_order db (o_order_id o)))
    as (Ho & Hi & Hc & Hp).
  destruct (restore_keeps_orders db (o_order_id o)) as [Ho1 Hi1].
  assert (Hc1 : cart (restore_stock_from_order db (o_order_id o)) = cart db).
  { destruct (order_header db (o_order_id o)) as [h|] eqn:E.
    - now rewrite (restore_stock_from_order_rows _ _ _ E).
    - now rewrite (restore_stock_from_order_orphan _ _ E). }
  rewrite Ho, Hi, Hc, Hp, Ho1, Hi1, Hc1. repeat split.
  f_equal. unfold restore_rows. fold (order_header db (o_order_id o)).
  fold (order_lines db (o_order_id o)).
  destruct (order_header db (o_order_id o)) as [h|] eqn:E.
  - now rewrite (restore_stock_from_order_rows _ _ _ E).
  - now rewrite (restore_stock_from_order_orphan _ _ E).
Qed.

Lemma same_outside_refl (st : string) (ps : list StockItem) : same_outside st ps ps.
Proof. unfold same_outside. induction ps; constructor; auto. Qed.

Lemma same_outside_trans (st : string) (ps1 ps2 ps3 : list StockItem) :
  same_outside st ps1 ps2 -> same_outside st ps2 ps3 -> same_outside st ps1 ps3.
Proof.
  unfold same_outside. intros H12. revert ps3.
  induction H12 as [|r1 r2 l1 l2 E12 _ IH]; intros ps3 H23;
    inversion H23 as [|r2' r3 l2' l3 E23 H23']; subst; constructor.
  - intros Hne. pose proof (E12 Hne) as E. subst r2. now apply E23.
  - now apply IH.
Qed.

Lemma restore_rows_outside (os : list Order) (ois : list OrderItem)
    (st : string) (o : Order) (ps : list StockItem) :
  NoDup (map o_order_id os) -> In o os -> o_stock_type o = st ->
  same_outside st ps (restore_rows os ois ps o).
Proof.
  intros ND Hin Hst. unfold restore_rows.
  rewrite (find_by_unique_key o_order_id os o ND Hin).
  unfold same_outside. induction ps as [|r ps IH]; cbn [map]; constructor;
    [|exact IH].
  intros Hne. unfold gives_back. rewrite Hst.
  apply String.eqb_neq in Hne. now rewrite Hne.
Qed.

Lemma restore_rows_all_outside (os : list Order) (ois : list OrderItem)
    (st : string) (todo : list Order) :
  NoDup (map o_order_id os) ->
  Forall (fun o => In o os /\ o_stock_type o = st) todo ->
  forall ps, same_outside st ps (fold_left (restore_rows os ois) todo ps).
Proof.
  intros ND. induction 1 as [|o todo [Hin Hst] _ IH]; intros ps; cbn [fold_left];
    [apply same_outside_refl|].
  apply (same_outside_trans st ps (restore_rows os ois ps o));
    [now apply restore_rows_outside | apply IH].
Qed.

(** X4: [delete_all_orders(stock_type)] is confined to its stock type: the
    stock rows of every other stock type come out exactly as they were, the
    orders of other stock types are all kept, in order, a line is kept
    exactly when no order of the stock type carries its [order_id], and the
    cart is not touched. *)
Theorem delete_all_orders_confined (db : DB) (stock_type : string) :
  orders_key_ok db ->
  let db' := fst (delete_all_orders db stock_type) in
  same_outside stock_type (parts_stock db) (parts_stock db') /\
  orders db' =
    filter (fun o => negb (String.eqb (o_stock_type o) stock_type)) (orders db) /\
  (forall i,
      In i (order_items db') <->
      In i (order_items db) /\
      ~ exists o, In o (orders db) /\ o_stock_type o = stock_type /\
                  o_order_id o = oi_order_id i) /\
  cart db' = cart db.
Proof.
  intros ND db'. unfold db', delete_all_orders.
  set (todo := filter _ (orders db)).
  destruct (restore_all_tables todo db) as (Ho & Hi & Hc & Hp).
  cbn [fst parts_stock orders order_items cart set_orders set_order_items].
  rewrite Ho, Hi, Hc, Hp.
  split; [|split; [reflexivity|split; [|reflexivity]]].
  - apply restore_rows_all_outside; [exact ND|].
    apply Forall_forall. intros o Ho'. apply filter_In in Ho' as [Hin Hf].
    apply andb_true_iff in Hf as [Hst _]. apply String.eqb_eq in Hst. auto.
  - intros i. split.
    { intros Hin. apply filter_In in Hin as [Hin Hf]. split; [exact Hin|].
      intros (o & Ho' & Hst & Hid). apply negb_true_iff in Hf.
      assert (existsb (fun o0 => o_order_id o0 =? oi_order_id i)
                      (filter (fun o0 => String.eqb (o_stock_type o0) stock_type)
                              (orders db)) = true) as Hex; [|congruence].
      apply existsb_exists. exists o. split.
      - apply filter_In. split; [exact Ho'|]. now apply String.eqb_eq.
      - now apply Z.eqb_eq. }
    intros [Hin Hno]. apply filter_In. split; [exact Hin|].
    apply negb_true_iff. destruct (existsb _ _) eqn:E; [|reflexivity].
    exfalso. apply Hno. apply existsb_exists in E as (o & Ho' & Hid).
    apply filter_In in Ho' as [Ho' Hst]. exists o.
    apply String.eqb_eq in Hst. apply Z.eqb_eq in Hid. auto.
Qed.

Lemma delete_all_orders_confined_witness :
  let db' := fst (delete_all_orders SampleOrders.two_types "parts_stock") in
  same_outside "parts_stock" (parts_stock SampleOrders.two_types) (parts_stock db') /\
  map o_order_id (orders db') = [2] /\
  map ps_free_stock (parts_stock db') = [Some 4; Some 7].
Proof.
  intros db'.
  destruct (delete_all_orders_confined SampleOrders.two_types "parts_stock")
    as (Hout & _).
  - vm_compute. repeat constructor; simpl; intuition discriminate.
  - split; [exact Hout|]. split; reflexivity.
Defined.

End HistoryWipes.

(** ** Commits followed by a wipe of the whole history *)

Section CommitsThenWipe.

Lemma find_app_found {A : Type} (f : A -> bool) (l l' : list A) (x : A) :
  In x l -> f x = true -> find f (l ++ l') = find f l.
Proof.
  induction l as [|a l IH]; cbn; [tauto|].
  intros [->|Hin] Hx; [now rewrite Hx|].
  destruct (f a); auto.
Qed.

Lemma NoDup_snoc {A : Type} (l : list A) (x : A) :
  NoDup l -> ~ In x l -> NoDup (l ++ [x]).
Proof.
  induction 1 as [|a l Ha _ IH]; intros Hx; cbn.
  - constructor; [tauto|constructor].
  - constructor.
    + rewrite in_app_iff. cbn. intros [H|[H|[]]]; [tauto|].
      apply Hx. now left.
    + apply IH. intros H. apply Hx. now right.
Qed.

Lemma fresh_key_not_in (os : list Order) (oid : Z) :
  existsb (fun o => Z.eqb (o_order_id o) oid) os = false ->
  forall o, In o os -> o_order_id o <> oid.
Proof.
  intros Hf o Hin E.
  assert (existsb (fun o => o_order_id o =? oid) os = true); [|congruence].
  apply existsb_exists. exists o. split; [exact Hin|]. now apply Z.eqb_eq.
Qed.

(** Giving back one order and taking for another commute on every row. *)
Lemma gives_back_takes_comm (header : Order) (lines : list OrderItem)
    (stype : string) (taken : list OrderItem) (r : StockItem) :
  gives_back header lines (takes stype taken r) =
  takes stype taken (gives_back header lines r).
Proof.
  unfold gives_back, takes. destruct r as [pn d f p st a sup].
  cbn [ps_stock_type ps_part_number ps_free_stock].
  destruct (String.eqb st stype) eqn:E1;
    destruct (String.eqb st (o_stock_type header)) eqn:E2;
    unfold with_free_stock; cbn; rewrite ?E1, ?E2; cbn; try reflexivity.
  destruct f as [f|]; cbn; [|reflexivity].
  do 2 f_equal. lia.
Qed.

Lemma restore_rows_takes (os : list Order) (ois : list OrderItem)
    (stype : string) (taken : list OrderItem) (todo : list Order) :
  forall ps,
    fold_left (restore_rows os ois) todo (map (takes stype taken) ps) =
    map (takes stype taken) (fold_left (restore_rows os ois) todo ps).
Proof.
  induction todo as [|o todo IH]; intros ps; cbn [fold_left]; [reflexivity|].
  rewrite <- IH. f_equal. unfold restore_rows.
  destruct (find _ os) as [h|]; [|reflexivity].
  rewrite !map_map. apply map_ext. intros r. apply gives_back_takes_comm.
Qed.

(** The orders already in the store are given back the same way once a
    fresh order and its lines are appended. *)
Lemma restore_rows_older (os : list Order) (ois : list OrderItem)
    (h : Order) (lines : list OrderItem) (todo : list Order) :
  existsb (fun o => Z.eqb (o_order_id o) (o_order_id h)) os = false ->
  Forall (fun l => oi_order_id l = o_order_id h) lines ->
  Forall (fun o => In o os) todo ->
  forall ps,
    fold_left (restore_rows (os ++ [h]) (ois ++ lines)) todo ps =
    fold_left (restore_rows os ois) todo ps.
Proof.
  intros Hfresh Hlines. induction 1 as [|o todo Hin _ IH]; intros ps;
    cbn [fold_left]; [reflexivity|].
  rewrite IH. f_equal. unfold restore_rows.
  rewrite (find_app_found _ os [h] o Hin (Z.eqb_refl _)), filter_app.
  replace (filter (fun i => oi_order_id i =? o_order_id o) lines) with
    (@nil OrderItem); [now rewrite app_nil_r|].
  symmetry. pose proof (fresh_key_not_in os _ Hfresh o Hin) as Hne.
  clear - Hlines Hne. induction Hlines as [|l lines Hl _ IH]; [reflexivity|].
  cbn. rewrite Hl. destruct (Z.eqb_spec (o_order_id h) (o_order_id o)); [|exact IH].
  congruence.
Qed.

Lemma create_order_cases (db : DB) (user_id : Z) (items : list Item)
    (stock_type : string) :
  (exists oid, create_order db user_id items stock_type =
               (fst (create_order db user_id items stock_type), Success oid)) \/
  fst (create_order db user_id items stock_type) =
    set_orders_seq (orders_seq db + 1) db.
Proof.
  unfold create_order. destruct (existsb _ (orders db)); [now right|].
  destruct (create_order_items _ _ _ items) as [[conn total]|e]; [|now right].
  destruct (to_numeric total) as [tot|e]; [|now right].
  left. now exists (orders_seq db).
Qed.

(** One commit keeps the keys of the order tables, adds no rejected order,
    and leaves what giving everything back would produce as it was. *)
Lemma create_order_keeps_undone (db : DB) (user_id : Z) (items : list Item)
    (stock_type : string) :
  orders_key_ok db -> lines_key_ok db -> none_rejected db ->
  let db' := fst (create_order db user_id items stock_type) in
  orders_key_ok db' /\ lines_key_ok db' /\ none_rejected db' /\
  undone db' = undone db.
Proof.
  intros PK FK NR db'. subst db'.
  destruct (create_order_cases db user_id items stock_type) as [[oid H]| ->];
    [|now repeat split].
  set (db' := fst (create_order db user_id items stock_type)) in *.
  destruct (create_order_leaves _ _ _ _ _ _ FK H)
    as (lines & total & Hh & Hl & Hoi & Hos & Hps & Hfresh & _).
  set (h := mkOrder oid user_id total "Pending" stock_type) in *.
  assert (Hlines : Forall (fun l => oi_order_id l = o_order_id h) lines).
  { apply Forall_forall. intros l Hin. rewrite <- Hl in Hin.
    apply filter_In in Hin as [_ E]. now apply Z.eqb_eq in E. }
  unfold orders_key_ok, lines_key_ok, none_rejected, undone.
  rewrite Hos, Hoi, Hps. repeat split.
  - rewrite map_app. apply NoDup_snoc; [exact PK|].
    intros Hin. apply in_map_iff in Hin as (o & E & Hin).
    exact (fresh_key_not_in _ _ Hfresh o Hin E).
  - apply Forall_app. split.
    + eapply Forall_impl; [|exact FK]. intros i (o & Hin & E).
      exists o. split; [|exact E]. apply in_or_app. now left.
    + eapply Forall_impl; [|exact Hlines]. intros l E. exists h.
      split; [|now symmetry]. apply in_or_app. right. now left.
  - apply Forall_app. split; [exact NR|]. constructor; [|constructor].
    cbn. discriminate.
  - rewrite fold_left_app. cbn [fold_left].
    rewrite (restore_rows_older _ _ h lines (orders db) Hfresh Hlines);
      [|now apply Forall_forall].
    rewrite restore_rows_takes. fold (undone db).
    unfold restore_rows. change (o_order_id h) with oid.
    rewrite <- Hos, <- Hoi. fold (order_header db' oid). fold (order_lines db' oid).
    rewrite Hh, Hl, map_map. rewrite <- (map_id (undone db)) at 2.
    apply map_ext. intros r. exact (gives_back_takes h lines r).
Qed.

Lemma commit_all_keeps_undone (commits : list (Z * list Item * string)) :
  forall db,
    orders_key_ok db -> lines_key_ok db -> none_rejected db ->
    none_rejected (commit_all db commits) /\
    undone (commit_all db commits) = undone db.
Proof.
  induction commits as [|[[u items] st] commits IH]; intros db PK FK NR;
    cbn [commit_all fold_left fst snd]; [now split|].
  destruct (create_order_keeps_undone db u items st PK FK NR)
    as (PK' & FK' & NR' & E).
  destruct (IH _ PK' FK' NR') as [NR'' E'].
  split; [exact NR''|]. unfold commit_all in E'. now rewrite E'.
Qed.

Lemma delete_all_users_history_undone (db : DB) :
  none_rejected db ->
  parts_stock (fst (delete_all_users_history db)) = undone db.
Proof.
  intros NR. unfold delete_all_users_history.
  cbn [fst parts_stock set_orders set_order_items].
  rewrite filter_all.
  - now destruct (restore_all_tables (orders db) db) as (_ & _ & _ & ->).
  - eapply Forall_impl; [|exact NR]. intros o Hne. cbn in Hne.
    apply negb_true_iff. now apply String.eqb_neq.
Qed.

(** X5: whatever orders are committed on top of a store, wiping the whole
    history afterwards leaves the stock rows that wiping it straight away
    would have left; from a store with no order yet, the wipe therefore
    returns every stock row to what it was before the first commit.  The
    commits may fail or succeed, share part numbers, and meet several rows
    under one key. *)
Theorem history_wipe_undoes_commits (db : DB)
    (commits : list (Z * list Item * string)) :
  orders_key_ok db -> lines_key_ok db -> none_rejected db ->
  parts_stock (fst (delete_all_users_history (commit_all db commits))) =
    parts_stock (fst (delete_all_users_history db)) /\
  (orders db = [] ->
   parts_stock (fst (delete_all_users_history (commit_all db commits))) =
     parts_stock db).
Proof.
  intros PK FK NR.
  destruct (commit_all_keeps_undone commits db PK FK NR) as [NR' E].
  rewrite (delete_all_users_history_undone _ NR'), E,
    (delete_all_users_history_undone _ NR).
  split; [reflexivity|]. intros Hnone. unfold undone. now rewrite Hnone.
Qed.

Lemma history_wipe_undoes_commits_witness :
  let commits :=
    [(7, [Sample.ten_widgets; Sample.ten_widgets], "parts_stock");
     (8, [mkItem "W-100" (Some "Widget") 1 (NDecimal (5 # 2)) None], "parts_stock")] in
  map ps_free_stock (parts_stock (commit_all Sample.two_generations commits)) =
    [Some 0; Some (-8)] /\
  parts_stock (fst (delete_all_users_history
                      (commit_all Sample.two_generations commits))) =
    parts_stock Sample.two_generations.
Proof.
  intros commits. split; [reflexivity|].
  apply (history_wipe_undoes_commits Sample.two_generations commits).
  - constructor.
  - constructor.
  - constructor.
  - reflexivity.
Defined.

End CommitsThenWipe.

(** ** Stock management *)

Section StockManagement.

Lemma filter_none {A : Type} (f : A -> bool) (l : list A) :
  Forall (fun x => f x = false) l -> filter f l = [].
Proof.
  induction 1 as [|x l Hx _ IH]; [reflexivity|]. cbn. now rewrite Hx.
Qed.




(** X7: [reset_stock(stock_type)] leaves nothing of the stock type to read:
    the download is empty and no part number is found.  Every other stock
    type reads as before, and the order tables and the cart are not
    touched. *)
Theorem reset_stock_clears_only_its_type (db : DB) (stock_type : string) :
  let db' := reset_stock db stock_type in
  get_stock_csv_frame db' stock_type = [] /\
  (forall pn, get_part_by_number db' pn stock_type = None) /\
  (forall other, other <> stock_type ->
     get_stock_csv_frame db' other = get_stock_csv_frame db other /\
     forall pn, get_part_by_number db' pn other = get_part_by_number db pn other) /\
  orders db' = orders db /\ order_items db' = order_items db /\ cart db' = cart db.
Proof.
  intros db'. subst db'.
  unfold get_stock_csv_frame, get_part_by_number, reset_stock.
  cbn [parts_stock set_parts_stock orders order_items cart].
  split; [|split; [|split; [|repeat split]]].
  - rewrite filter_none; [reflexivity|]. apply Forall_forall.
    intros r Hin. apply filter_In in Hin as [_ Hne].
    apply negb_true_iff in Hne. now rewrite Hne.
  - intros pn. destruct (find _ _) as [r|] eqn:E; [|reflexivity].
    apply find_some in E as [Hin E]. apply filter_In in Hin as [_ Hne].
    apply negb_true_iff in Hne. rewrite Hne, andb_false_r in E. discriminate.
  - intros other Hne. apply String.eqb_neq in Hne.
    assert (Hkeep : forall r, String.eqb (ps_stock_type r) other = true ->
                              negb (String.eqb (ps_stock_type r) stock_type) = true).
    { intros r E. apply String.eqb_eq in E. rewrite E. now rewrite Hne. }
    induction (parts_stock db) as [|r ps [IH1 IH2]]; [now split|].
    cbn [filter]. destruct (String.eqb (ps_stock_type r) stock_type) eqn:Est; cbn.
    + assert (String.eqb (ps_stock_type r) other = false) as ->.
      { apply String.eqb_eq in Est. now rewrite Est, String.eqb_sym. }
      cbn. split; [exact IH1|].
      intros pn. rewrite andb_false_r. cbn. apply IH2.
    + split.
      * destruct (String.eqb (ps_stock_type r) other && ps_is_active r); cbn;
          [f_equal|]; exact IH1.
      * intros pn. destruct (_ && _ && _); [reflexivity|apply IH2].
Qed.

Lemma reset_stock_clears_only_its_type_witness :
  get_stock_csv_frame (reset_stock SampleOrders.two_types "parts_stock") "HBD_stock" =
    [("W-100", Some "Widget", Some 7)] /\
  get_part_by_number (reset_stock SampleOrders.two_types "parts_stock")
                     "W-100" "parts_stock" = None.
Proof.
  destruct (reset_stock_clears_only_its_type SampleOrders.two_types "parts_stock")
    as (_ & Hnone & Hother & _).
  destruct (Hother "HBD_stock") as [Hcsv _]; [discriminate|].
  split; [rewrite Hcsv; reflexivity | apply Hnone].
Defined.

End StockManagement.

(** ** What a commit can do to the stock *)

Section CommitFrame.

Lemma Forall2_map_left {A : Type} (P : A -> A -> Prop) (f : A -> A) (l : list A) :
  (forall x, P (f x) x) -> Forall2 P (map f l) l.
Proof. intros H. induction l; simpl; constructor; auto. Qed.

Lemma takes_lowers (stype : string) (lines : list OrderItem) (r : StockItem) :
  with_free_stock r (ps_free_stock (takes stype lines r)) = takes stype lines r /\
  match ps_free_stock (takes stype lines r), ps_free_stock r with
  | Some f, Some f' => f <= f'
  | None, None => True
  | _, _ => False
  end.
Proof.
  unfold takes. pose proof (restored_qty_nonneg lines (ps_part_number r)) as Hq.
  destruct r as [pn d [f|] p st a sup]; cbn in *;
    destruct (String.eqb st stype); cbn; split; try reflexivity; try exact I; lia.
Qed.

Lemma takes_outside (stype : string) (lines : list OrderItem) (r : StockItem) :
  ps_stock_type r <> stype -> takes stype lines r = r.
Proof.
  intros Hne. unfold takes. apply String.eqb_neq in Hne. now rewrite Hne.
Qed.

(** X8: a commit never raises a [free_stock] and changes no other column
    and no row count of [parts_stock]: every row has its counterpart, one
    for one, which differs in nothing but a [free_stock] that is no higher,
    and which is the row itself when the row is of another stock type; and
    when the commit fails, the transaction is rolled back whole: stock,
    orders, lines and cart are what they were, only the order number drawn
    from the sequence is spent. *)
Theorem create_order_only_lowers_free_stock
    (db : DB) (user_id : Z) (items : list Item) (stock_type : string) :
  let db' := fst (create_order db user_id items stock_type) in
  rows_paired (fun r r' => raised r' r /\
                           (ps_stock_type r <> stock_type -> r' = r))
              (parts_stock db) (parts_stock db') /\
  (forall e, snd (create_order db user_id items stock_type) = Failure e ->
     parts_stock db' = parts_stock db /\ orders db' = orders db /\
     order_items db' = order_items db /\ cart db' = cart db /\
     orders_seq db' = orders_seq db + 1).
Proof.
  intros db'. subst db'.
  assert (Hsame : forall ps : list StockItem,
             Forall2 (fun r r' => raised r' r /\
                                  (ps_stock_type r <> stock_type -> r' = r))
                     ps ps).
  { intros ps. induction ps as [|r ps IH]; constructor; [|exact IH].
    split; [|reflexivity]. split; [apply with_free_stock_same|].
    destruct (ps_free_stock r); [lia | exact I]. }
  unfold create_order.
  destruct (existsb _ (orders db)).
  { cbn. split; [apply Forall2_rows_paired, Hsame | now intros _ _]. }
  destruct (create_order_items _ _ _ items) as [[conn total]|e] eqn:E;
    [|cbn; split; [apply Forall2_rows_paired, Hsame | now intros _ _]].
  destruct (to_numeric total) as [tot|e];
    [|cbn; split; [apply Forall2_rows_paired, Hsame | now intros _ _]].
  apply create_order_items_takes in E as (lines & _ & Hps).
  cbn [fst snd parts_stock set_cart set_orders set_orders_seq] in *.
  rewrite Hps. split; [|discriminate].
  apply Forall2_rows_paired, Forall2_map_same. intros r.
  split; [apply takes_lowers | apply takes_outside].
Qed.

Lemma create_order_only_lowers_free_stock_witness :
  let unknown_stock :=
    mkDB [mkStock "W-100" (Some "Widget") None None "parts_stock" true None;
          Sample.widget 4 true] [] [] [] 1 1 in
  let db' := fst (create_order unknown_stock 7
                               [mkItem "W-9" None 1 (NDecimal (1 # 1)) None; Sample.ten_widgets]
                               "parts_stock") in
  parts_stock db' = parts_stock unknown_stock /\ orders db' = [] /\
  order_items db' = [] /\ cart db' = [] /\ orders_seq db' = 2.
Proof.
  intros unknown_stock db'.
  destruct (create_order_only_lowers_free_stock unknown_stock 7
              [mkItem "W-9" None 1 (NDecimal (1 # 1)) None; Sample.ten_widgets] "parts_stock")
    as (_ & Hfail).
  exact (Hfail _ eq_refl).
Defined.

(** A commit in which no item has anything to take leaves the stock rows
    of the connection as they are. *)
Lemma create_order_items_idle (oid : Z) (stype : string) (items : list Item) :
  forall (db : DB) (total : Num) (db' : DB) (total' : Num),
    Forall (fun it =>
              it_qty it <= 0 \/
              forall r, find (stock_key_matches (it_part_number it) stype)
                             (parts_stock db) = Some r ->
                        exists f, ps_free_stock r = Some f /\ f <= 0) items ->
    create_order_items oid stype (db, total) items = Success (db', total') ->
    parts_stock db' = parts_stock db /\
    exists lines,
      order_items db' = order_items db ++ lines /\
      Forall (fun l => oi_qty l <= 0) lines.
Proof.
  induction items as [|item items IH]; intros db total db' total' Hidle H.
  - injection H as <- <-. split; [reflexivity|]. exists []. now rewrite app_nil_r.
  - cbn [create_order_items] in H. inversion Hidle as [|? ? Hitem Hrest]; subst.
    destruct (create_order_item oid stype (db, total) item)
      as [[db1 total1]|e] eqn:E1; [|discriminate].
    apply create_order_item_success in E1 as (current & price & Hcur & _ & E1).
    cbv zeta in E1.
    assert (Hle : Z.min (it_qty item) current <= 0).
    { destruct Hitem as [Hq|Hrow]; [lia|].
      destruct (find _ (parts_stock db)) as [r|] eqn:Ef.
      - destruct (Hrow r eq_refl) as (f & Hf & Hf0).
        assert (f = current) by congruence. lia.
      - injection Hcur as <-. lia. }
    apply Z.ltb_ge in Hle. rewrite Hle in E1. subst db1.
    apply IH in H as (Hps & lines & Hoi & Hl); [|exact Hrest].
    cbn [parts_stock order_items set_order_items] in *.
    split; [exact Hps|].
    eexists (_ :: lines). rewrite Hoi, <- app_assoc. split; [reflexivity|].
    constructor; [|exact Hl]. cbn. now apply Z.ltb_ge.
Qed.

(** X9: an order in which every item either asks for no positive quantity
    or meets, as the row its SELECT reads, a row with no positive stock (no
    row at all included) takes nothing: whether it succeeds or fails, the
    stock rows afterwards are the stock rows before.  In particular an order
    against a stock type that was just reset changes no stock. *)
Theorem create_order_with_nothing_to_take
    (db : DB) (user_id : Z) (items : list Item) (stock_type : string) :
  Forall (fun it =>
            it_qty it <= 0 \/
            forall r, find (stock_key_matches (it_part_number it) stock_type)
                           (parts_stock db) = Some r ->
                      exists f, ps_free_stock r = Some f /\ f <= 0) items ->
  parts_stock (fst (create_order db user_id items stock_type)) = parts_stock db.
Proof.
  intros Hidle. unfold create_order.
  destruct (existsb _ (orders db)); [reflexivity|].
  destruct (create_order_items _ _ _ items) as [[conn total]|e] eqn:E;
    [|reflexivity].
  destruct (to_numeric total) as [tot|e]; [|reflexivity].
  apply create_order_items_idle in E as [Hps _]; [exact Hps | exact Hidle].
Qed.

Lemma create_order_with_nothing_to_take_witness :
  parts_stock
    (fst (create_order (reset_stock SampleOrders.two_types "parts_stock") 7
            [Sample.ten_widgets; mkItem "W-100" None 0 (NDecimal (1 # 1)) None] "parts_stock")) =
  parts_stock (reset_stock SampleOrders.two_types "parts_stock").
Proof.
  apply create_order_with_nothing_to_take.
  constructor; [|constructor; [|constructor]];
    right; intros r Hr; vm_compute in Hr; discriminate.
Defined.

End CommitFrame.

(** ** Normal forms of part numbers *)

Section NormalForm.

Import NormalizeSpec.

Lemma sanitize_as_passes (s : string) :
  sanitize_part_number (Some s) =
  Py.strip (map_chars o_to_zero (drop_chars is_symbol (map_chars Py.upper_char s))).
Proof.
  destruct s as [|c s]; [reflexivity|].
  unfold sanitize_part_number.
  rewrite symbols_removed, upper_map_chars, replace_char_char.
  apply (f_equal Py.strip), map_chars_ext. intros d. unfold o_to_zero.
  now rewrite Ascii.eqb_sym.
Qed.

Lemma normal_char_after_passes (c : ascii) :
  is_symbol (Py.upper_char c) = true \/
  normal_char (o_to_zero (Py.upper_char c)) = true.
Proof.
  destruct c as [[] [] [] [] [] [] [] []]; vm_compute; auto.
Qed.

Lemma passes_normal (s : string) :
  all_chars normal_char
    (map_chars o_to_zero (drop_chars is_symbol (map_chars Py.upper_char s))) = true.
Proof.
  induction s as [|c s IH]; [reflexivity|]. cbn [map_chars drop_chars].
  destruct (is_symbol (Py.upper_char c)) eqn:E; [exact IH|].
  cbn [map_chars all_chars]. rewrite IH, andb_true_r.
  destruct (normal_char_after_passes c) as [H|H]; [congruence | exact H].
Qed.

Lemma all_chars_lstrip (p : ascii -> bool) (s : string) :
  all_chars p s = true -> all_chars p (Py.lstrip s) = true.
Proof.
  induction s as [|c s IH]; [auto|]. cbn [Py.lstrip]. intros H.
  destruct (Py.isspace c); [|exact H].
  apply IH. cbn in H. now apply andb_true_iff in H.
Qed.

Lemma all_chars_rstrip (p : ascii -> bool) (s : string) :
  all_chars p s = true -> all_chars p (Py.rstrip s) = true.
Proof.
  induction s as [|c s IH]; [auto|]. cbn [Py.rstrip all_chars]. intros H.
  apply andb_true_iff in H as [Hc Hs]. specialize (IH Hs).
  destruct (Py.rstrip s) as [|d t].
  - destruct (Py.isspace c); [reflexivity|]. cbn. now rewrite Hc.
  - cbn [all_chars]. cbn [all_chars] in IH. now rewrite Hc, IH.
Qed.

Lemma lstrip_fixed (s : string) : starts_blank s = false -> Py.lstrip s = s.
Proof. destruct s as [|c s]; [reflexivity|]. cbn. now intros ->. Qed.

Lemma rstrip_fixed (s : string) : ends_blank s = false -> Py.rstrip s = s.
Proof.
  induction s as [|c s IH]; [reflexivity|]. cbn [ends_blank Py.rstrip].
  destruct s as [|d t].
  - cbn. now intros ->.
  - intros H. now rewrite (IH H).
Qed.

Lemma strip_twice (s : string) : Py.strip (Py.strip s) = Py.strip s.
Proof.
  destruct (strip_trimmed s) as (l & r & _ & _ & _ & Hstart & Hend).
  unfold Py.strip at 1. now rewrite (lstrip_fixed _ Hstart), (rstrip_fixed _ Hend).
Qed.

Lemma normal_passes_fixed (s : string) :
  all_chars normal_char s = true ->
  map_chars o_to_zero (drop_chars is_symbol (map_chars Py.upper_char s)) = s.
Proof.
  induction s as [|c s IH]; [reflexivity|]. cbn [all_chars]. intros H.
  apply andb_true_iff in H as [Hc Hs]. unfold normal_char in Hc.
  apply andb_true_iff in Hc as [Hc Hup]. apply andb_true_iff in Hc as [Hsym HO].
  apply Ascii.eqb_eq in Hup. apply negb_true_iff in Hsym, HO.
  cbn [map_chars drop_chars]. rewrite Hup, Hsym. cbn [map_chars].
  unfold o_to_zero at 1. now rewrite HO, (IH Hs).
Qed.

Lemma sanitize_normal (s : string) :
  all_chars normal_char (sanitize_part_number (Some s)) = true.
Proof.
  rewrite sanitize_as_passes. unfold Py.strip.
  apply all_chars_rstrip, all_chars_lstrip, passes_normal.
Qed.

(** Sanitising a sanitised part number changes nothing. *)
Lemma sanitize_twice (raw : option string) :
  sanitize_part_number (Some (sanitize_part_number raw)) = sanitize_part_number raw.
Proof.
  destruct raw as [s|]; [|reflexivity].
  rewrite (sanitize_as_passes (sanitize_part_number (Some s))).
  rewrite (normal_passes_fixed _ (sanitize_normal s)), sanitize_as_passes.
  apply strip_twice.
Qed.

(** X10: [sanitize_part_number] is idempotent, and what it returns holds
    no [*], [@] or [+], no letter O and no lower-case letter, and neither
    starts nor ends with white space: a key stored by the cart is found
    again under its own spelling. *)
Theorem sanitize_part_number_idempotent (raw : option string) :
  sanitize_part_number (Some (sanitize_part_number raw)) = sanitize_part_number raw /\
  all_chars normal_char (sanitize_part_number raw) = true /\
  starts_blank (sanitize_part_number raw) = false /\
  ends_blank (sanitize_part_number raw) = false.
Proof.
  split; [apply sanitize_twice|].
  destruct raw as [s|]; [|repeat split; reflexivity].
  split; [apply sanitize_normal|]. rewrite sanitize_as_passes.
  destruct (strip_trimmed
              (map_chars o_to_zero
                 (drop_chars is_symbol (map_chars Py.upper_char s))))
    as (l & r & _ & _ & _ & Hstart & Hend).
  now split.
Qed.

End NormalForm.

(** ** The cart as a table *)

Section CartTable.

Lemma NoDup_map_filter {A B : Type} (key : A -> B) (f : A -> bool) (l : list A) :
  NoDup (map key l) -> NoDup (map key (filter f l)).
Proof.
  induction l as [|a l IH]; cbn; [auto|]. intros ND.
  inversion ND as [|k ks Hnot ND']; subst.
  destruct (f a); cbn; [|auto].
  constructor; [|auto]. intros Hin. apply Hnot.
  apply in_map_iff in Hin as (x & E & Hx). apply filter_In in Hx as [Hx _].
  rewrite <- E. now apply in_map.
Qed.

Lemma map_key_update {A B : Type} (key : A -> B) (g : A -> A) (l : list A) :
  (forall x, key (g x) = key x) -> map key (map g l) = map key l.
Proof. intros H. rewrite map_map. apply map_ext. exact H. Qed.

Lemma cart_ok_filter (db : DB) (f : CartLine -> bool) :
  cart_ok db -> cart_ok (set_cart (filter f (cart db)) db).
Proof.
  intros (Hid & Hkey & Hnf). unfold cart_ok. cbn [cart set_cart].
  repeat split.
  - now apply NoDup_map_filter.
  - now apply NoDup_map_filter.
  - apply Forall_forall. intros c Hc. apply filter_In in Hc as [Hc _].
    rewrite Forall_forall in Hnf. now apply Hnf.
Qed.

Lemma cart_ok_requantified (db : DB) (g : CartLine -> Z) (hit : CartLine -> bool) :
  cart_ok db ->
  cart_ok (set_cart
             (map (fun c =>
                     if hit c
                     then mkCart (cart_id c) (cart_user_id c) (cart_part_number c)
                                 (cart_description c) (g c) (cart_price c)
                                 (cart_supersedes c)
                     else c) (cart db)) db).
Proof.
  intros (Hid & Hkey & Hnf). unfold cart_ok. cbn [cart set_cart].
  rewrite !map_key_update; try (intros c; destruct (hit c); reflexivity).
  repeat split; auto.
  apply Forall_forall. intros c Hc. apply in_map_iff in Hc as (c0 & <- & Hc0).
  rewrite Forall_forall in Hnf. specialize (Hnf c0 Hc0).
  destruct (hit c0); [cbn|]; exact Hnf.
Qed.

Lemma cart_ok_same_cart (db db' : DB) : cart db' = cart db -> cart_ok db -> cart_ok db'.
Proof. unfold cart_ok. now intros ->. Qed.

Lemma add_to_cart_db_keeps_cart_ok (db : DB) (user_id : Z) (part_number : string)
    (description : option string) (qty : Z) (price : Q)
    (supersedes : option string) :
  cart_ok db ->
  cart_ok (add_to_cart_db db user_id part_number description qty price supersedes).
Proof.
  intros Hok. unfold add_to_cart_db.
  destruct (find _ (cart db)) as [curr|] eqn:Ef.
  - exact (cart_ok_requantified db (fun _ => cart_qty curr + qty)
             (fun c => cart_id c =? cart_id curr) Hok).
  - cbn [cart set_cart_seq].
    destruct (existsb _ (cart db)) eqn:Efresh;
      [now apply (cart_ok_same_cart db)|].
    destruct Hok as (Hid & Hkey & Hnf). unfold cart_ok.
    cbn [cart set_cart set_cart_seq]. rewrite !map_app. cbn [map].
    cbn [cart_id cart_user_id cart_part_number]. repeat split.
    + apply NoDup_snoc; [exact Hid|]. intros Hin.
      apply in_map_iff in Hin as (c & E & Hc).
      assert (existsb (fun c => cart_id c =? cart_seq db) (cart db) = true);
        [|congruence].
      apply existsb_exists. exists c. split; [exact Hc|]. now apply Z.eqb_eq.
    + apply NoDup_snoc; [exact Hkey|]. intros Hin.
      apply in_map_iff in Hin as (c & E & Hc). injection E as Eu Ep.
      apply (find_none _ _ Ef) in Hc. rewrite Eu, Ep, Z.eqb_refl, String.eqb_refl in Hc.
      discriminate.
    + apply Forall_app. split; [exact Hnf|]. constructor; [|constructor].
      cbn [cart_part_number]. apply sanitize_twice.
Qed.

Lemma remove_all_keeps_cart_ok {A : Type} (cid : A -> Z) (rows : list A) :
  forall db, cart_ok db ->
             cart_ok (fold_left (fun db row => remove_from_cart_db db (cid row))
                                rows db).
Proof.
  induction rows as [|row rows IH]; intros db Hok; cbn [fold_left]; [exact Hok|].
  apply IH. now apply cart_ok_filter.
Qed.

Lemma create_order_cart (db : DB) (user_id : Z) (items : list Item)
    (stock_type : string) :
  cart (fst (create_order db user_id items stock_type)) = cart db \/
  ((exists oid, snd (create_order db user_id items stock_type) = Success oid) /\
   cart (fst (create_order db user_id items stock_type)) =
     filter (fun c => negb (Z.eqb (cart_user_id c) user_id)) (cart db)).
Proof.
  unfold create_order. destruct (existsb _ (orders db)); [now left|].
  destruct (create_order_items _ _ _ items) as [[conn total]|e] eqn:E; [|now left].
  destruct (to_numeric total) as [tot|e]; [|now left].
  right. split; [now exists (orders_seq db)|].
  pose proof (create_order_items_commits _ _ _ _ _ _ _ E)
    as (lines & _ & _ & _ & _ & Hc & _).
  cbn [fst cart set_cart set_orders set_orders_seq] in *. now rewrite Hc.
Qed.

Lemma create_order_keeps_cart_ok (db : DB) (user_id : Z) (items : list Item)
    (stock_type : string) :
  cart_ok db -> cart_ok (fst (create_order db user_id items stock_type)).
Proof.
  intros Hok.
  destruct (create_order_cart db user_id items stock_type) as [E|[_ E]].
  - now apply (cart_ok_same_cart db).
  - apply (cart_ok_same_cart
             (set_cart (filter (fun c => negb (cart_user_id c =? user_id)) (cart db))
                       db)); [exact E|].
    now apply cart_ok_filter.
Qed.

Lemma cart_step_keeps_cart_ok (db : DB) (op : CartOp) :
  cart_ok db -> cart_ok (cart_step db op).
Proof.
  intros Hok. destruct op as [u pn d q p s|cid|cid q|u|u sel st|u items st];
    cbn [cart_step].
  - now apply add_to_cart_db_keeps_cart_ok.
  - now apply cart_ok_filter.
  - exact (cart_ok_requantified db (fun _ => q) (fun c => cart_id c =? cid) Hok).
  - now apply cart_ok_filter.
  - unfold checkout_selected. destruct sel as [|row sel]; [exact Hok|].
    pose proof (create_order_keeps_cart_ok db u (map snd (row :: sel)) st Hok) as H.
    destruct (create_order db u (map snd (row :: sel)) st) as [db1 [oid|e]];
      cbn [fst] in *; [|exact H].
    now apply remove_all_keeps_cart_ok.
  - now apply create_order_keeps_cart_ok.
Qed.

(** X11: the cart never holds two lines with one [id], never two lines of
    one user for one part number, and only part numbers in normal form:
    every operation that writes the cart (adding, removing, changing a
    quantity, clearing, checking out, committing an order) keeps these
    three, so they hold after any run of them from an empty cart. *)
Theorem cart_keeps_one_line_per_part (db : DB) (ops : list CartOp) :
  cart_ok db -> cart_ok (cart_run db ops).
Proof.
  revert db. induction ops as [|op ops IH]; intros db Hok; [exact Hok|].
  cbn [cart_run fold_left]. apply IH. now apply cart_step_keeps_cart_ok.
Qed.

Lemma cart_keeps_one_line_per_part_witness :
  let ops :=
    [CartAdd 7 "ab*o-1" (Some "Washer") 2 (5 # 4) None;
     CartAdd 7 " AB0-1" None 3 (1 # 1) None;
     CartAdd 8 "ab0-1" None 1 (1 # 1) None;
     CartUpdate 2 9;
     CartAdd 7 "w-100" None 1 (5 # 2) None;
     CartRemove 3] in
  cart_ok (cart_run Sample.no_catalog ops) /\
  map (fun c => (cart_id c, cart_user_id c, cart_part_number c, cart_qty c))
      (cart (cart_run Sample.no_catalog ops)) =
    [(1, 7, "AB0-1", 5); (2, 8, "AB0-1", 9)].
Proof.
  intros ops. split; [|reflexivity].
  apply (cart_keeps_one_line_per_part Sample.no_catalog ops).
  repeat split; constructor.
Defined.

End CartTable.

(** ** Cart lines in and out *)

Section CartLines.

Lemma cart_view_quantities (c : CartLine) (available_qty : option Z) :
  let v := cart_view c available_qty in
  let avail := default 0 (cv_available_qty v) in
  cv_id v = cart_id c /\ cv_part_number v = cart_part_number c /\
  cv_qty v = cart_qty c /\ cv_available_qty v = available_qty /\
  cv_no_record v = false /\ 0 <= cv_back_order v /\
  (0 <= avail ->
   cv_allocated_qty v = Z.min (cv_qty v) avail /\
   cv_allocated_qty v + cv_back_order v = cv_qty v) /\
  (cv_qty v <= avail -> cv_status v = "Fully Allocated") /\
  (avail < cv_qty v -> 0 < avail -> cv_status v = "Partial Fulfillment") /\
  (avail < cv_qty v -> avail <= 0 ->
   cv_status v = "Out of Stock" /\ cv_allocated_qty v = 0).
Proof.
  unfold cart_view. cbn.
  destruct (Z.leb_spec (cart_qty c) (default 0 available_qty));
    [|destruct (Z.ltb_spec 0 (default 0 available_qty))]; cbn;
    repeat split; intros; try reflexivity; lia.
Qed.

(** X12: what [get_user_cart] shows.  Every row is a line of the user,
    with its id, part number and quantity; every line of the user has a
    row; the back order is never negative; and when the stock figure is not
    negative (a missing one counting as zero) the allocation is the minimum
    of the request and the stock, and allocation and back order add up to
    the request.  The status is "Fully Allocated" when the stock covers
    the request, "Partial Fulfillment" when it covers a part, and "Out of
    Stock", with nothing allocated, otherwise. *)
Theorem get_user_cart_rows (db : DB) (user_id : Z) (stock_type : string) :
  (forall v, In v (get_user_cart db user_id stock_type) ->
     let avail := default 0 (cv_available_qty v) in
     (exists c, In c (cart db) /\ cart_user_id c = user_id /\
                cv_id v = cart_id c /\ cv_part_number v = cart_part_number c /\
                cv_qty v = cart_qty c) /\
     cv_no_record v = false /\ 0 <= cv_back_order v /\
     (0 <= avail ->
      cv_allocated_qty v = Z.min (cv_qty v) avail /\
      cv_allocated_qty v + cv_back_order v = cv_qty v) /\
     (cv_qty v <= avail -> cv_status v = "Fully Allocated") /\
     (avail < cv_qty v -> 0 < avail -> cv_status v = "Partial Fulfillment") /\
     (avail < cv_qty v -> avail <= 0 ->
      cv_status v = "Out of Stock" /\ cv_allocated_qty v = 0)) /\
  (forall c, In c (cart db) -> cart_user_id c = user_id ->
     exists v, In v (get_user_cart db user_id stock_type) /\ cv_id v = cart_id c).
Proof.
  unfold get_user_cart. split.
  - intros v Hv. apply in_flat_map in Hv as (c & Hc & Hv).
    apply in_rev, filter_In in Hc as [Hc Hu]. apply Z.eqb_eq in Hu.
    assert (Hview : exists a, v = cart_view c a).
    { destruct (filter _ (parts_stock db)) as [|p found].
      - destruct Hv as [<-|[]]. now exists None.
      - apply in_map_iff in Hv as (p' & <- & _). now eexists. }
    destruct Hview as (a & ->).
    pose proof (cart_view_quantities c a)
      as (Hid & Hpn & Hq & _ & Hnr & Hbo & Hmin & Hfull & Hpart & Hout).
    split; [exists c; auto|]. repeat split; auto; try apply Hmin; try apply Hout; auto.
  - intros c Hc Hu.
    assert (Hin : In c (rev (filter (fun c => cart_user_id c =? user_id) (cart db)))).
    { apply in_rev. rewrite rev_involutive. apply filter_In. split; [exact Hc|].
      now apply Z.eqb_eq. }
    destruct (filter (fun p => String.eqb (cart_part_number c) (ps_part_number p) &&
                               String.eqb (ps_stock_type p) stock_type &&
                               ps_is_active p) (parts_stock db))
      as [|p found] eqn:Ef.
    + exists (cart_view c None). split; [|reflexivity].
      apply in_flat_map. exists c. split; [exact Hin|]. rewrite Ef. now left.
    + exists (cart_view c (ps_free_stock p)). split; [|reflexivity].
      apply in_flat_map. exists c. split; [exact Hin|]. rewrite Ef. now left.
Qed.

Lemma get_user_cart_rows_witness :
  let db :=
    add_to_cart_db
      (add_to_cart_db Sample.two_generations 7 "w-100" (Some "Widget") 5 (5 # 2) None)
      7 "x-1" None 3 (1 # 1) None in
  map (fun v => (cv_part_number v, cv_qty v, cv_available_qty v, cv_allocated_qty v,
                 cv_back_order v, cv_status v))
      (get_user_cart db 7 "parts_stock") =
    [("X-1", 3, None, 0, 3, "Out of Stock");
     ("W-100", 5, Some 2, 2, 3, "Partial Fulfillment")] /\
  exists v, In v (get_user_cart db 7 "parts_stock") /\ cv_id v = 1.
Proof.
  intros db. split; [reflexivity|].
  destruct (get_user_cart_rows db 7 "parts_stock") as [_ Hrow].
  apply (Hrow (mkCart 1 7 "W-100" (Some "Widget") 5 (5 # 2) None)).
  - left. reflexivity.
  - reflexivity.
Defined.

(** X13: a line that was just inserted is taken out again by
    [remove_from_cart_db] with its id, and the cart is what it was: when
    the user has no line for the part number yet and the id drawn from the
    sequence is free. *)
Theorem add_then_remove_restores_cart (db : DB) (user_id : Z) (part_number : string)
    (description : option string) (qty : Z) (price : Q)
    (supersedes : option string) :
  find (fun c => Z.eqb (cart_user_id c) user_id &&
                 String.eqb (cart_part_number c)
                            (sanitize_part_number (Some part_number)))
       (cart db) = None ->
  existsb (fun c => Z.eqb (cart_id c) (cart_seq db)) (cart db) = false ->
  let added :=
    add_to_cart_db db user_id part_number description qty price supersedes in
  cart added =
    cart db ++ [mkCart (cart_seq db) user_id (sanitize_part_number (Some part_number))
                       description qty price supersedes] /\
  cart (remove_from_cart_db added (cart_seq db)) = cart db.
Proof.
  intros Hnone Hfresh added. subst added. unfold add_to_cart_db.
  rewrite Hnone. cbn [cart set_cart_seq]. rewrite Hfresh.
  unfold remove_from_cart_db. cbn [cart set_cart set_cart_seq].
  split; [reflexivity|].
  rewrite filter_app. cbn [filter cart_id]. rewrite Z.eqb_refl. cbn.
  rewrite app_nil_r. apply filter_all.
  apply Forall_forall. intros c Hc. apply negb_true_iff.
  destruct (cart_id c =? cart_seq db) eqn:E; [|reflexivity].
  assert (existsb (fun c => cart_id c =? cart_seq db) (cart db) = true);
    [|congruence].
  apply existsb_exists. now exists c.
Qed.

Lemma add_then_remove_restores_cart_witness :
  cart (remove_from_cart_db
          (add_to_cart_db Sample.cart_db 7 "w-100" None 1 (5 # 2) None)
          (cart_seq Sample.cart_db)) =
  cart Sample.cart_db.
Proof.
  apply (add_then_remove_restores_cart Sample.cart_db 7 "w-100" None 1 (5 # 2) None);
    reflexivity.
Defined.

Lemma remove_absent (db : DB) (cid : Z) :
  Forall (fun c => cart_id c <> cid) (cart db) ->
  cart (remove_from_cart_db db cid) = cart db.
Proof.
  intros H. unfold remove_from_cart_db. cbn [cart set_cart]. apply filter_all.
  eapply Forall_impl; [|exact H]. intros c Hne. cbn in Hne.
  apply negb_true_iff. now apply Z.eqb_neq.
Qed.

Lemma remove_all_absent (selected : list (Z * Item)) :
  forall db,
    Forall (fun row => Forall (fun c => cart_id c <> fst row) (cart db)) selected ->
    cart (fold_left (fun db row => remove_from_cart_db db (fst row)) selected db) =
    cart db.
Proof.
  induction selected as [|row selected IH]; intros db H; cbn [fold_left];
    [reflexivity|].
  inversion H as [|? ? Hrow Hrest]; subst.
  rewrite IH; [now apply remove_absent|].
  eapply Forall_impl; [|exact Hrest]. intros r Hr. now rewrite remove_absent.
Qed.

Lemma remove_all_subset (selected : list (Z * Item)) :
  forall db c,
    In c (cart (fold_left (fun db row => remove_from_cart_db db (fst row))
                          selected db)) ->
    In c (cart db).
Proof.
  induction selected as [|row selected IH]; intros db c H; cbn [fold_left] in H;
    [exact H|].
  apply IH in H. unfold remove_from_cart_db in H. cbn [cart set_cart] in H.
  now apply filter_In in H.
Qed.

(** X14: a successful "Checkout Selected" leaves the user with an empty
    cart, whatever was selected: [create_order] deletes every line of the
    user, the unselected ones included.  When the selected rows are rows of
    the user's own cart and the ids are a key, the lines of every other
    user are all kept, in order.  A checkout that fails leaves the cart
    as it was. *)
Theorem checkout_selected_empties_cart (db : DB) (user_id : Z)
    (selected : list (Z * Item)) (stock_type : string) :
  let result := checkout_selected db user_id selected stock_type in
  ((exists oid, snd result = Success oid) ->
   Forall (fun c => cart_user_id c <> user_id) (cart (fst result)) /\
   (NoDup (map cart_id (cart db)) ->
    Forall (fun row => exists c, In c (cart db) /\ cart_id c = fst row /\
                                 cart_user_id c = user_id) selected ->
    cart (fst result) =
      filter (fun c => negb (Z.eqb (cart_user_id c) user_id)) (cart db))) /\
  ((exists e, snd result = Failure e) -> cart (fst result) = cart db).
Proof.
  intros result. subst result. unfold checkout_selected.
  destruct selected as [|row selected].
  { cbn. split; [intros [oid H]; discriminate | reflexivity]. }
  set (rows := row :: selected).
  destruct (create_order_cart db user_id (map snd rows) stock_type) as [E|[[o Ho] E]];
    destruct (create_order db user_id (map snd rows) stock_type)
      as [db1 [oid|e]] eqn:Eco; cbn [fst snd] in *; try discriminate.
  - (* the cart comes back unchanged: the user had no line in it *)
    unfold create_order in Eco. destruct (existsb _ (orders db)); [discriminate|].
    destruct (create_order_items _ _ _ (map snd rows)) as [[conn total]|e] eqn:Ei;
      [|discriminate].
    destruct (to_numeric total) as [tot0|e]; [|discriminate].
    pose proof (create_order_items_commits _ _ _ _ _ _ _ Ei)
      as (lines & _ & _ & _ & _ & Hc & _).
    injection Eco as <- <-. cbn [cart set_cart set_orders set_orders_seq] in *.
    assert (Hclear : Forall (fun c => cart_user_id c <> user_id) (cart db)).
    { rewrite <- E, Hc. apply Forall_forall. intros c Hin.
      apply filter_In in Hin as [_ Hne]. apply negb_true_iff in Hne.
      now apply Z.eqb_neq. }
    split; [|intros [e He]; discriminate]. intros _. split.
    + apply Forall_forall. intros c Hin. apply remove_all_subset in Hin.
      cbn [cart set_cart] in Hin. rewrite Hc in Hin.
      apply filter_In in Hin as [_ Hne]. apply negb_true_iff in Hne.
      now apply Z.eqb_neq.
    + intros _ Hsel. exfalso. subst rows.
      apply Forall_inv in Hsel. destruct Hsel as (c & Hin & _ & Hu).
      rewrite Forall_forall in Hclear. exact (Hclear c Hin Hu).
  - split; [intros [o Ho]; discriminate | now intros _].
  - split; [|intros [e He]; discriminate]. intros _. split.
    + apply Forall_forall. intros c Hin. apply remove_all_subset in Hin.
      rewrite E in Hin. apply filter_In in Hin as [_ Hne].
      apply negb_true_iff in Hne. now apply Z.eqb_neq.
    + intros ND Hsel. rewrite remove_all_absent; [exact E|].
      eapply Forall_impl; [|exact Hsel]. intros r (c & Hin & Hid & Hu).
      rewrite E. apply Forall_forall. intros c' Hin' Heq.
      apply filter_In in Hin' as [Hin' Hne]. apply negb_true_iff in Hne.
      apply Z.eqb_neq in Hne. apply Hne.
      assert (c' = c); [|now subst].
      assert (Hfind := find_by_unique_key cart_id (cart db) c ND Hin).
      assert (Hfind' := find_by_unique_key cart_id (cart db) c' ND Hin').
      rewrite Heq, <- Hid in Hfind'. congruence.
Qed.

Lemma checkout_selected_empties_cart_witness :
  let db :=
    add_to_cart_db
      (add_to_cart_db
         (add_to_cart_db Sample.four_widgets 8 "b-1" None 1 (1 # 1) None)
         7 "w-100" (Some "Widget") 2 (5 # 2) None)
      7 "x-1" None 3 (1 # 1) None in
  let result :=
    checkout_selected db 7 [(2, mkItem "W-100" (Some "Widget") 2 (NDecimal (5 # 2)) None)]
                      "parts_stock" in
  map cart_id (cart db) = [1; 2; 3] /\
  map cart_id (cart (fst result)) = [1].
Proof.
  intros db result. split; [reflexivity|].
  destruct (checkout_selected_empties_cart db 7
              [(2, mkItem "W-100" (Some "Widget") 2 (NDecimal (5 # 2)) None)] "parts_stock")
    as [Hok _].
  destruct Hok as [_ Hcart]; [now exists 1|].
  subst result. rewrite Hcart; [reflexivity| |].
  - vm_compute. repeat constructor; simpl; intuition discriminate.
  - constructor; [|constructor].
    exists (mkCart 2 7 "W-100" (Some "Widget") 2 (5 # 2) None).
    repeat split. right. left. reflexivity.
Defined.

End CartLines.

(** ** The review table of a bulk enquiry *)

Section BulkTable.

Lemma bulk_rows_each (stock : list StockFrameRow) (rows : list MergedRow) :
  forall results,
    bulk_rows stock rows = Success results ->
    (forall m, In m rows ->
       exists out, bulk_row stock m = Success out /\ incl out results) /\
    (forall r, In r results ->
       exists m out, In m rows /\ bulk_row stock m = Success out /\ In r out).
Proof.
  induction rows as [|row rows IH]; intros results H; cbn [bulk_rows] in H.
  - injection H as <-. split; [intros m []|intros r []].
  - destruct (bulk_row stock row) as [out|e] eqn:E1; [|discriminate].
    destruct (bulk_rows stock rows) as [outs|e] eqn:E2; [|discriminate].
    injection H as <-. destruct (IH outs eq_refl) as [IH1 IH2]. split.
    + intros m [<-|Hm].
      * exists out. split; [exact E1|]. intros r Hr. apply in_or_app. now left.
      * destruct (IH1 m Hm) as (o & Ho & Hincl). exists o. split; [exact Ho|].
        intros r Hr. apply in_or_app. right. now apply Hincl.
    + intros r Hr. apply in_app_or in Hr as [Hr|Hr].
      * exists row, out. repeat split; auto. now left.
      * destruct (IH2 r Hr) as (m & o & Hm & Ho & Hin).
        exists m, o. repeat split; auto. now right.
Qed.

(** The rows one merged row yields: the first carries the sheet's part
    number and quantity, every row allocates no more than the stock it
    shows, and only a replacement row follows the first. *)
Lemma bulk_row_shape (stock : list StockFrameRow) (row : MergedRow)
    (out : list OutRow) :
  bulk_row stock row = Success out ->
  (exists first rest,
      out = first :: rest /\
      r_original_part_number first = m_original_part_number row /\
      r_requested_qty first = m_qty row /\
      r_status first <> "Superseded fulfillment") /\
  Forall (fun r =>
            r_original_part_number r = m_original_part_number row /\
            r_allocated_qty r <= r_available_qty r /\
            (r_status r <> "Superseded fulfillment" ->
             r_allocated_qty r + r_back_order r = r_requested_qty r) /\
            (r_status r = "Superseded fulfillment" ->
             r_requested_qty r = 0 /\ r_back_order r = 0 /\
             0 < r_allocated_qty r /\ r_no_record r = false /\
             (exists x, r_price r = Some (NFloat x)) /\
              r_allocated_part_number r <> None)) out.
Proof.
  unfold bulk_row.
  destruct (match m_stock row with Some s => sf_description s | None => None end)
    as [desc|].
  2:{ intros [= <-]. split.
      - eexists _, _. repeat split; cbn; discriminate.
      - constructor; [|constructor]. cbn. repeat split; try lia; discriminate. }
  set (avail := match m_stock row with
                | Some s => default 0 (sf_free_stock s)
                | None => 0
                end).
  destruct (Z.leb_spec (m_qty row - Z.min (m_qty row) avail) 0) as [Hle|Hgt].
  { intros [= <-]. split.
    - eexists _, _. repeat split; cbn; discriminate.
    - constructor; [|constructor]. cbn. repeat split; try lia; discriminate. }
  assert (Hplain : forall status,
             status <> "Superseded fulfillment" ->
             let r := mkOutRow (SNoStr (Py.str_int (m_sno row)))
                        (m_original_part_number row) (Some desc)
                        match m_stock row with
                        | Some s => sf_price s
                        | None => None
                        end avail (m_qty row) (Z.min (m_qty row) avail)
                        (Z.max 0 (m_qty row - Z.min (m_qty row) avail)) false status
                        (Some match m_stock row with
                              | Some s => sf_part_number s
                              | None => m_original_part_number row
                              end)
                        (nonblank match m_stock row with
                                  | Some s => sf_superseded s
                                  | None => None
                                  end) in
             r_original_part_number r = m_original_part_number row /\
             r_allocated_qty r <= r_available_qty r /\
             (r_status r <> "Superseded fulfillment" ->
              r_allocated_qty r + r_back_order r = r_requested_qty r) /\
             (r_status r = "Superseded fulfillment" ->
              r_requested_qty r = 0 /\ r_back_order r = 0 /\
              0 < r_allocated_qty r /\ r_no_record r = false /\
              (exists x, r_price r = Some (NFloat x)) /\
              r_allocated_part_number r <> None)).
  { intros status Hs. cbn. repeat split; try lia; try discriminate; contradiction. }
  assert (Hstatus : forall a b : string,
             a <> "Superseded fulfillment" -> b <> "Superseded fulfillment" ->
             (if 0 <? Z.min (m_qty row) avail then a else b)
               <> "Superseded fulfillment").
  { intros a b Ha Hb. now destruct (0 <? Z.min (m_qty row) avail). }
  assert (Hstandard :
            forall out,
              Success
                [mkOutRow (SNoStr (Py.str_int (m_sno row)))
                   (m_original_part_number row) (Some desc)
                   match m_stock row with
                   | Some s => sf_price s
                   | None => None
                   end avail (m_qty row) (Z.min (m_qty row) avail)
                   (Z.max 0 (m_qty row - Z.min (m_qty row) avail)) false
                   (if 0 <? Z.min (m_qty row) avail then "Partial"
                    else "Out of Stock")
                   (Some match m_stock row with
                         | Some s => sf_part_number s
                         | None => m_original_part_number row
                         end)
                   (nonblank match m_stock row with
                             | Some s => sf_superseded s
                             | None => None
                             end)] = Success out ->
              (exists first rest,
                  out = first :: rest /\
                  r_original_part_number first = m_original_part_number row /\
                  r_requested_qty first = m_qty row /\
                  r_status first <> "Superseded fulfillment") /\
              Forall (fun r =>
                        r_original_part_number r = m_original_part_number row /\
                        r_allocated_qty r <= r_available_qty r /\
                        (r_status r <> "Superseded fulfillment" ->
                         r_allocated_qty r + r_back_order r = r_requested_qty r) /\
                        (r_status r = "Superseded fulfillment" ->
                         r_requested_qty r = 0 /\ r_back_order r = 0 /\
                         0 < r_allocated_qty r /\ r_no_record r = false /\
                         (exists x, r_price r = Some (NFloat x)) /\
              r_allocated_part_number r <> None))
                     out).
  { intros o [= <-]. split.
    - eexists _, _. repeat split; cbn. apply Hstatus; discriminate.
    - constructor; [|constructor]. apply Hplain. apply Hstatus; discriminate. }
  destruct (if 0 <? m_qty row - Z.min (m_qty row) avail
            then match nonblank match m_stock row with
                                | Some s => sf_superseded s
                                | None => None
                                end with
                 | Some new_pn => superseded_lookup stock new_pn
                 | None => None
                 end
            else None) as [d|]; [|apply Hstandard].
  destruct (replacement_stock stock d) as [sup_avail|e]; [|discriminate].
  destruct (Z.ltb_spec 0 sup_avail) as [Hpos|Hno]; [|apply Hstandard].
  destruct (num_float _) as [sup_price|e]; [|discriminate].
  intros [= <-]. split.
  - eexists _, _. repeat split; cbn. apply Hstatus; discriminate.
  - constructor; [|constructor; [|constructor]].
    + apply Hplain. apply Hstatus; discriminate.
    + cbn. split; [reflexivity|]. split; [lia|].
      split; [intros H; now contradiction H|]. intros _.
      repeat split; try lia; try discriminate. now exists sup_price.
Qed.

Lemma merge_left_rows (stock : list StockFrameRow) (df : list BulkRow) :
  (forall b, In b df ->
     exists m, In m (merge_left df stock) /\
               m_original_part_number m = b_part_number b /\ m_qty m = b_qty b) /\
  (forall m, In m (merge_left df stock) ->
     exists b, In b df /\
               m_original_part_number m = b_part_number b /\ m_qty m = b_qty b).
Proof.
  unfold merge_left. split.
  - intros b Hb.
    destruct (filter (fun s => String.eqb (sf_match_key s)
                        (Py.replace "-" ""
                           (sanitize_part_number (Some (b_part_number b))))) stock)
      as [|s found] eqn:Ef.
    + exists (mkMergedRow (b_sno b) (b_part_number b) (b_qty b) None).
      split; [|now split]. apply in_flat_map. exists b. split; [exact Hb|].
      rewrite Ef. now left.
    + exists (mkMergedRow (b_sno b) (b_part_number b) (b_qty b) (Some s)).
      split; [|now split]. apply in_flat_map. exists b. split; [exact Hb|].
      rewrite Ef. now left.
  - intros m Hm. apply in_flat_map in Hm as (b & Hb & Hm). exists b.
    split; [exact Hb|].
    destruct (filter _ stock) as [|s found].
    + destruct Hm as [<-|[]]. now split.
    + apply in_map_iff in Hm as (s' & <- & _). now split.
Qed.

Lemma process_bulk_enquiry_results (db : DB) (df_bulk : list BulkRow)
    (stock_type : string) (adjustment_percent : Q) (out : list OutRow) :
  process_bulk_enquiry db df_bulk stock_type adjustment_percent = Success out ->
  exists stock results,
    bulk_rows stock
              (merge_left (Py.sort (fun a b => b_sno a <=? b_sno b) df_bulk) stock)
      = Success results /\
    forall r, In r out <-> In r results.
Proof.
  intros H. apply process_bulk_enquiry_frame in H as (stock & results & _ & E & ->).
  exists stock, results. split; [exact E|].
  intros r. apply sort_In.
Qed.

(** X15: in the table a bulk enquiry returns, every row allocates no more
    than the stock it shows; on every row but a replacement row, allocation
    and back order add up to the request; and a replacement row
    ("Superseded fulfillment") requests nothing, has no back order and
    allocates a positive quantity. *)
Theorem bulk_output_quantities (db : DB) (df_bulk : list BulkRow)
    (stock_type : string) (adjustment_percent : Q) (out : list OutRow) :
  process_bulk_enquiry db df_bulk stock_type adjustment_percent = Success out ->
  Forall (fun r =>
            r_allocated_qty r <= r_available_qty r /\
            (r_status r <> "Superseded fulfillment" ->
             r_allocated_qty r + r_back_order r = r_requested_qty r) /\
            (r_status r = "Superseded fulfillment" ->
             r_requested_qty r = 0 /\ r_back_order r = 0 /\
             0 < r_allocated_qty r)) out.
Proof.
  intros H. apply process_bulk_enquiry_results in H as (stock & results & Hrows & Hin).
  apply Forall_forall. intros r Hr. apply Hin in Hr.
  destruct (bulk_rows_each _ _ _ Hrows) as [_ Hfrom].
  destruct (Hfrom r Hr) as (m & o & _ & Ho & Hro).
  apply bulk_row_shape in Ho as [_ Hall]. rewrite Forall_forall in Hall.
  destruct (Hall r Hro) as (_ & Hle & Hsum & Hsup).
  repeat split; auto; now apply Hsup.
Qed.

Lemma bulk_output_quantities_witness :
  exists out,
    process_bulk_enquiry Sample.pumps [mkBulkRow 1 "p-1" 8; mkBulkRow 2 "zz" (-1)]
                         "parts_stock" 0 = Success out /\
    map (fun r => (r_available_qty r, r_requested_qty r, r_allocated_qty r,
                   r_back_order r, r_status r)) out =
      [(0, -1, 0, -1, "Invalid Part"); (5, 8, 5, 3, "Partial - Split");
       (30, 0, 3, 0, "Superseded fulfillment")] /\
    Forall (fun r => r_allocated_qty r <= r_available_qty r) out.
Proof.
  eexists. split; [reflexivity|]. split; [reflexivity|].
  eapply Forall_impl;
    [|apply (bulk_output_quantities Sample.pumps
               [mkBulkRow 1 "p-1" 8; mkBulkRow 2 "zz" (-1)] "parts_stock" 0);
      reflexivity].
  intros r H. apply H.
Defined.

(** X16: a bulk enquiry that returns a table drops no row of the sheet and
    invents none: every sheet row has a row of its own in the table, with
    its part number as typed and its quantity, and every row of the table
    carries the part number of a sheet row. *)
Theorem bulk_output_covers_sheet (db : DB) (df_bulk : list BulkRow)
    (stock_type : string) (adjustment_percent : Q) (out : list OutRow) :
  process_bulk_enquiry db df_bulk stock_type adjustment_percent = Success out ->
  (forall b, In b df_bulk ->
     exists r, In r out /\ r_original_part_number r = b_part_number b /\
               r_requested_qty r = b_qty b /\
               r_status r <> "Superseded fulfillment") /\
  (forall r, In r out ->
     exists b, In b df_bulk /\ r_original_part_number r = b_part_number b).
Proof.
  intros H. apply process_bulk_enquiry_results in H as (stock & results & Hrows & Hin).
  destruct (bulk_rows_each _ _ _ Hrows) as [Hto Hfrom].
  destruct (merge_left_rows stock
              (Py.sort (fun a b => b_sno a <=? b_sno b) df_bulk)) as [Hm1 Hm2].
  split.
  - intros b Hb. apply (sort_In (fun a b => b_sno a <=? b_sno b)) in Hb.
    destruct (Hm1 b Hb) as (m & Hm & Hpn & Hq).
    destruct (Hto m Hm) as (o & Ho & Hincl).
    apply bulk_row_shape in Ho as [(first & rest & -> & Hf1 & Hf2 & Hf3) _].
    exists first. split; [apply Hin, Hincl; now left|].
    rewrite Hf1, Hf2. auto.
  - intros r Hr. apply Hin in Hr.
    destruct (Hfrom r Hr) as (m & o & Hm & Ho & Hro).
    apply bulk_row_shape in Ho as [_ Hall]. rewrite Forall_forall in Hall.
    destruct (Hall r Hro) as (Hpn & _).
    destruct (Hm2 m Hm) as (b & Hb & Hbpn & _).
    exists b. split; [now apply (sort_In (fun a b => b_sno a <=? b_sno b))|].
    congruence.
Qed.

Lemma bulk_output_covers_sheet_witness :
  exists out,
    process_bulk_enquiry Sample.pumps [mkBulkRow 1 "p-1" 8; mkBulkRow 2 "zz" (-1)]
                         "parts_stock" 0 = Success out /\
    exists r, In r out /\ r_original_part_number r = "zz" /\
              r_requested_qty r = -1 /\ r_status r <> "Superseded fulfillment".
Proof.
  eexists. split; [reflexivity|].
  destruct (bulk_output_covers_sheet Sample.pumps
              [mkBulkRow 1 "p-1" 8; mkBulkRow 2 "zz" (-1)] "parts_stock" 0 _ eq_refl)
    as [Hcover _].
  apply (Hcover (mkBulkRow 2 "zz" (-1))). right. now left.
Defined.

End BulkTable.

(** ** From the review table to the order *)

Section BulkCommit.

Import CommitSpec.

(** Every item of a commit has its line. *)
Lemma commits_line_of_item (stype : string) (oid : Z) ps items ps' lines :
  commits stype oid ps items ps' lines ->
  forall item, In item items ->
    exists current price,
      In (mkOrderItem oid (it_part_number item) (it_description item)
                      (Z.min (it_qty item) current) (it_qty item) current
                      price (it_supersedes item)) lines.
Proof.
  induction 1 as [|ps item items ps1 ps' current price lines _ _ _ _ IH];
    intros it Hit; [destruct Hit|].
  destruct Hit as [->|Hit].
  - exists current, price. now left.
  - destruct (IH it Hit) as (c & p & Hc). exists c, p. now right.
Qed.

(** X17: the replacement rows of a review table are committed empty.  A
    "Superseded fulfillment" row of the table a bulk enquiry returned
    shows a positive allocation and has a price; but the item "Process
    Bulk Order" makes of it asks for the row's requested quantity, which is
    0, so in any order that goes through with that item among its items it
    ends as a line of the replacement part with requested quantity 0 and
    nothing allocated: the commit takes no stock of the replacement for
    it. *)
Theorem bulk_order_commits_replacements_empty
    (catalog : DB) (df_bulk : list BulkRow) (stock_type : string)
    (adjustment_percent : Q) (out : list OutRow) (r : OutRow) :
  process_bulk_enquiry catalog df_bulk stock_type adjustment_percent = Success out ->
  In r out -> r_status r = "Superseded fulfillment" ->
  0 < r_allocated_qty r /\ r_no_record r = false /\
  exists price,
    r_price r = Some (NFloat price) /\
    forall (db : DB) (user_id : Z) (items : list Item) (order_stock_type : string)
           (db' : DB) (oid : Z),
      In (bulk_order_item r price) items ->
      create_order db user_id items order_stock_type = (db', Success oid) ->
      exists l, In l (order_items db') /\ oi_order_id l = oid /\
                Some (oi_part_number l) = r_allocated_part_number r /\
                oi_requested_qty l = 0 /\ oi_qty l <= 0.
Proof.
  intros Henq Hr Hstatus.
  apply process_bulk_enquiry_results in Henq as (stock & results & Hrows & Hin).
  destruct (bulk_rows_each _ _ _ Hrows) as [_ Hfrom].
  destruct (Hfrom r (proj1 (Hin r) Hr)) as (m & o & _ & Ho & Hro).
  apply bulk_row_shape in Ho as [_ Hall]. rewrite Forall_forall in Hall.
  destruct (Hall r Hro) as (_ & _ & _ & Hsup).
  destruct (Hsup Hstatus) as (Hreq & _ & Hpos & Hnr & Hprice & Hpn).
  split; [exact Hpos|]. split; [exact Hnr|].
  destruct Hprice as (price & Hprice).
  exists price. split; [exact Hprice|].
  intros db user_id items order_stock_type db' oid Hitem Hord.
  unfold create_order in Hord.
  destruct (existsb _ (orders db)); [discriminate|].
  destruct (create_order_items _ _ _ items) as [[conn total]|e] eqn:E;
    [|discriminate].
  destruct (to_numeric total) as [tot0|e]; [|discriminate].
  injection Hord as <- <-.
  pose proof (create_order_items_commits _ _ _ _ _ _ _ E)
    as (lines & Hcm & Hoi & _).
  destruct (commits_line_of_item _ _ _ _ _ _ Hcm _ Hitem)
    as (current & stored & Hl).
  cbn [bulk_order_item it_part_number it_qty it_description it_price
       it_supersedes] in Hl.
  eexists. split.
  - cbn [order_items set_cart set_orders]. rewrite Hoi. apply in_or_app. right.
    exact Hl.
  - cbn. destruct (r_allocated_part_number r) as [pn|]; [|congruence].
    rewrite Hreq. repeat split. lia.
Qed.

Lemma bulk_order_commits_replacements_empty_witness :
  let out :=
    match process_bulk_enquiry Sample.pumps [mkBulkRow 1 "p-1" 8] "parts_stock" 0 with
    | Success out => out
    | Failure _ => []
    end in
  let items :=
    [mkItem "P-1" (Some "Pump") 8 (NFloat (PyNum.Finite (10 # 1))) (Some "P-2");
     mkItem "P-2" (Some "(Superseded) Pump v2") 0
            (NFloat (PyNum.Finite (12 # 1))) None] in
  let db' := fst (create_order Sample.pumps 7 items "parts_stock") in
  map (fun r => (r_allocated_part_number r, r_allocated_qty r)) out =
    [(Some "P-1", 5); (Some "P-2", 3)] /\
  map (fun l => (oi_part_number l, oi_requested_qty l, oi_qty l)) (order_items db') =
    [("P-1", 8, 5); ("P-2", 0, 0)] /\
  map ps_free_stock (parts_stock db') = [Some 0; Some 30] /\
  exists l, In l (order_items db') /\ oi_order_id l = 1 /\
            Some (oi_part_number l) = Some "P-2" /\
            oi_requested_qty l = 0 /\ oi_qty l <= 0.
Proof.
  intros out items db'.
  split; [vm_compute; reflexivity|]. split; [vm_compute; reflexivity|].
  split; [vm_compute; reflexivity|].
  assert (Henq : process_bulk_enquiry Sample.pumps [mkBulkRow 1 "p-1" 8]
                                      "parts_stock" 0 = Success out)
    by (vm_compute; reflexivity).
  destruct (bulk_order_commits_replacements_empty _ _ _ _ _
              (mkOutRow (SNoStr "1.1") "p-1" (Some "(Superseded) Pump v2")
                        (Some (NFloat (PyNum.Finite (12 # 1)))) 30 0 3 0 false
                        "Superseded fulfillment" (Some "P-2") None) Henq)
    as (_ & _ & price & Hprice & Hcommit).
  - vm_compute. right. left. reflexivity.
  - reflexivity.
  - injection Hprice as <-.
    apply (Hcommit Sample.pumps 7 items "parts_stock" db' 1).
    + right. left. reflexivity.
    + vm_compute. reflexivity.
Defined.

End BulkCommit.

(** ** The enquiry table *)

Section EnquiryTable.

(** Induction along a replacement chain. *)
Lemma part_chain_ind (P : Part -> Prop) :
  (forall pn d fs price stp sup repl flag,
      P (mkPart pn d fs price stp sup repl None flag)) ->
  (forall pn d fs price stp sup repl q flag,
      P q -> P (mkPart pn d fs price stp sup repl (Some q) flag)) ->
  forall p, P p.
Proof.
  intros Hend Hnext. fix ind 1. intros [pn d fs price stp sup repl [q|] flag].
  - apply Hnext, ind.
  - apply Hend.
Qed.

Lemma seq_offset_map (a n : nat) :
  forall counter,
    map (fun i => counter + Z.of_nat i) (seq a n) =
    map (fun i => counter + Z.of_nat a + Z.of_nat i) (seq 0 n).
Proof.
  induction a as [|a IH]; intros counter.
  - apply map_ext. intros i. lia.
  - rewrite <- seq_shift, map_map.
    rewrite (map_ext _ (fun i => counter + 1 + Z.of_nat i)) by (intros i; lia).
    rewrite IH. apply map_ext. intros i. lia.
Qed.

(** One call of [add_to_results]: the rows it appends, one per part of the
    chain, numbered from the counter on. *)
Lemma add_to_results_rows (part_obj : Part) :
  forall is_superseded parent_pn counter res_data,
    exists rows,
      add_to_results part_obj is_superseded parent_pn (counter, res_data) =
        (counter + Z.of_nat (length rows), res_data ++ rows) /\
      map e_part_number rows = map p_part_number (chain part_obj) /\
      map e_sno rows = map (fun i => counter + Z.of_nat i) (seq 0 (length rows)) /\
      Forall (fun e => e_select e = false /\
                       e_requested_qty e = (if 0 <? e_available_qty e then 1 else 0))
             rows /\
      match rows with
      | [] => False
      | first :: rest =>
          e_supersedes first =
            (if is_superseded then parent_pn
             else option_map p_part_number (p_superseded_part part_obj)) /\
          Forall2 (fun parent child => e_supersedes child = Some parent)
                  (removelast (map e_part_number rows)) rest
      end.
Proof.
  induction part_obj as [pn d fs price stp sup repl flag
                        |pn d fs price stp sup repl q flag IH] using part_chain_ind;
    intros is_superseded parent_pn counter res_data; cbn [add_to_results].
  - eexists [_]. cbn. rewrite Z.add_0_r. repeat split; constructor; auto.
  - destruct (IH true (Some pn) (counter + 1)
                 (res_data ++
                  [mkEnquiryRow counter pn d price (default 0 fs)
                     (if 0 <? default 0 fs then 1 else 0)
                     (if is_superseded then parent_pn
                      else option_map p_part_number (Some q)) false]))
      as (rows & Hst & Hpn & Hsno & Hall & Hsup).
    rewrite Hst. eexists (_ :: rows). rewrite <- app_assoc. cbn [app length].
    split; [f_equal; lia|]. split; [cbn; now rewrite Hpn|].
    split; [cbn [map seq]; rewrite Hsno, Z.add_0_r, (seq_offset_map 1); reflexivity|].
    split; [constructor; [now split|exact Hall]|].
    cbn [e_supersedes p_superseded_part]. split; [reflexivity|].
    destruct rows as [|first rest]; [destruct Hsup|].
    destruct Hsup as [Hfirst Hrest]. cbn [map e_part_number] in *.
    cbn [removelast]. constructor; [exact Hfirst|exact Hrest].
Qed.

Lemma enquiry_fold_rows (results : list Part) :
  forall counter res_data,
    exists rows,
      fold_left (fun st r => add_to_results r false None st) results
                (counter, res_data) =
        (counter + Z.of_nat (length rows), res_data ++ rows) /\
      map e_part_number rows = map p_part_number (flat_map chain results) /\
      map e_sno rows = map (fun i => counter + Z.of_nat i) (seq 0 (length rows)) /\
      Forall (fun e => e_select e = false /\
                       e_requested_qty e = (if 0 <? e_available_qty e then 1 else 0))
             rows.
Proof.
  induction results as [|r results IH]; intros counter res_data; cbn [fold_left].
  - exists []. cbn. rewrite Z.add_0_r, app_nil_r. repeat split; constructor.
  - destruct (add_to_results_rows r false None counter res_data)
      as (rows1 & Hst1 & Hpn1 & Hsno1 & Hall1 & _).
    rewrite Hst1.
    destruct (IH (counter + Z.of_nat (length rows1)) (res_data ++ rows1))
      as (rows2 & Hst2 & Hpn2 & Hsno2 & Hall2).
    rewrite Hst2. exists (rows1 ++ rows2).
    rewrite <- app_assoc, length_app, Nat2Z.inj_add, Z.add_assoc.
    split; [reflexivity|]. cbn [flat_map]. rewrite !map_app, Hpn1, Hpn2.
    split; [reflexivity|]. split; [|now apply Forall_app].
    rewrite Hsno1, Hsno2, seq_app, map_app. f_equal.
    cbn [Nat.add]. now rewrite (seq_offset_map (length rows1)).
Qed.

Lemma search_results_chain_lengths (ps : list StockItem) (stock_type : string)
    (adjustment_percent : Q) (rows : list StockItem) :
  forall seen,
    Forall (fun p => (length (chain p) <= 7)%nat)
           (search_results ps stock_type adjustment_percent rows seen).
Proof.
  induction rows as [|row rest IH]; intros seen; cbn [search_results];
    [constructor|].
  destruct (Py.mem (ps_part_number row) seen); [apply IH|].
  destruct (check_supersession ps stock_type adjustment_percent 6
              (ps_part_number row :: seen) (ps_superseded row))
    as [sup_obj seen'] eqn:E.
  apply check_supersession_chain in E as (_ & _ & _ & Hlen).
  constructor; [|apply IH]. rewrite chain_processed. cbn [length].
  destruct sup_obj; cbn [length] in *; lia.
Qed.

Lemma flat_map_length_bound {A B : Type} (f : A -> list B) (k : nat) (l : list A) :
  Forall (fun x => (length (f x) <= k)%nat) l ->
  (length (flat_map f l) <= k * length l)%nat.
Proof.
  induction 1 as [|x l Hx _ IH]; cbn [flat_map length]; [lia|].
  rewrite length_app. lia.
Qed.

(** X18: the table the enquiry screen shows for a search.  Its rows are the
    results of [get_parts_like], each followed by its chain of
    replacements; they are numbered 1, 2, 3, ... without a gap; no part
    number comes twice; there are at most 350 of them (50 results, each
    with at most 6 replacements); no row is preselected, and the quantity
    offered is 1 exactly when the part has stock. *)
Theorem enquiry_table_of_search
    (ilike : string -> string -> bool) (collate_leb : string -> string -> bool)
    (ps : list StockItem) (stock_type : string) (adjustment_percent : Q)
    (prefix : string) :
  let results :=
    get_parts_like ilike collate_leb ps stock_type adjustment_percent prefix in
  let table := enquiry_table results in
  map e_sno table = map Z.of_nat (seq 1 (length table)) /\
  map e_part_number table = map p_part_number (flat_map chain results) /\
  NoDup (map e_part_number table) /\
  (length table <= 350)%nat /\
  Forall (fun e => e_select e = false /\
                   e_requested_qty e = (if 0 <? e_available_qty e then 1 else 0))
         table.
Proof.
  intros results table. subst table. unfold enquiry_table.
  destruct (enquiry_fold_rows results 1 []) as (rows & Hst & Hpn & Hsno & Hall).
  rewrite Hst. cbn [snd app].
  assert (Hlen : length rows = length (flat_map chain results)).
  { rewrite <- (length_map e_part_number), Hpn. apply length_map. }
  split; [|split; [exact Hpn|split; [|split; [|exact Hall]]]].
  - rewrite Hsno, <- seq_shift, map_map. apply map_ext. intros i. lia.
  - rewrite Hpn. unfold results, get_parts_like.
    apply (search_results_chains ps stock_type adjustment_percent).
    apply search_query_active.
  - rewrite Hlen. unfold results, get_parts_like.
    etransitivity;
      [apply (flat_map_length_bound chain 7), search_results_chain_lengths|].
    assert (length (search_results ps stock_type adjustment_percent
                      (search_query ilike collate_leb ps stock_type prefix) [])
            <= 50)%nat; [|lia].
    etransitivity; [apply search_results_length|].
    unfold search_query. apply firstn_le_length.
Qed.

End EnquiryTable.

(** ** The order history *)

Section OrderHistory.

(** Over [Decimal] prices the header of the history and [create_order] do
    the same arithmetic. *)
Lemma header_totals_alloc (details : list OrderItem) :
  forall (items : list Item) (total total' : Num) (req alloc t : Q),
    Forall2 (fun l item => to_numeric (it_price item) = Success (oi_price l))
            details items ->
    Forall (fun item => exists q, it_price item = NDecimal q) items ->
    CommitSpec.exact_value total = Some t -> Qeq alloc t ->
    CommitSpec.accumulated total details items = Success total' ->
    exists t',
      CommitSpec.exact_value total' = Some t' /\
      Qeq (snd (fold_left
                  (fun tot d =>
                     (PyNum.dec_round
                        (fst tot +
                         PyNum.dec_round
                           (oi_price d * inject_Z (oi_requested_qty d)))%Q,
                      PyNum.dec_round
                        (snd tot +
                         PyNum.dec_round (oi_price d * inject_Z (oi_qty d)))%Q))
                  details (req, alloc)))
          t'.
Proof.
  induction details as [|d details IH];
    intros items total total' req alloc t HP HD Ht Hq HA.
  - cbn in HA. injection HA as <-. exists t. auto.
  - inversion HP as [|d0 item ds items' Hp HP']; subst.
    inversion HD as [|i0 is0 (q & Hprice) HD']; subst.
    cbn [CommitSpec.accumulated] in HA. cbn [fold_left fst snd].
    rewrite Hprice in Hp, HA. cbn in Hp. injection Hp as Hp.
    cbn [num_mul_int] in HA.
    destruct (num_add total _) as [total1|] eqn:Ea; [|discriminate].
    assert (Hprod : PyNum.dec_round (oi_price d * inject_Z (oi_qty d)) =
                    PyNum.dec_round (inject_Z (oi_qty d) * q)).
    { apply dec_round_Qeq. rewrite <- Hp. apply Qmult_comm. }
    rewrite Hprod.
    destruct total as [a|p|x]; cbn in Ht; try discriminate;
      injection Ht as <-; cbn in Ea; injection Ea as <-.
    + eapply IH; eauto; [reflexivity|].
      rewrite (dec_round_Qeq _ (inject_Z a +
                                PyNum.dec_round (inject_Z (oi_qty d) * q))).
      * reflexivity.
      * now rewrite Hq.
    + eapply IH; eauto; [reflexivity|].
      rewrite (dec_round_Qeq _ (p + PyNum.dec_round (inject_Z (oi_qty d) * q))).
      * reflexivity.
      * now rewrite Hq.
Qed.

(** X19: for an order that [create_order] has just committed with prices
    that are [Decimal]s, as the store returns them, the allocated total the
    history header computes from the order's lines is the [total_price]
    stored on the order; and whatever the prices, every line allocates at
    most what was requested, so the 'Back Order' column of the history is
    the request less the allocation, and the status shown is "Fully
    Allocated" exactly when the two are equal. *)
Theorem history_header_matches_order
    (db : DB) (user_id : Z) (items : list Item) (stock_type : string)
    (db' : DB) (oid : Z) :
  lines_key_ok db ->
  create_order db user_id items stock_type = (db', Success oid) ->
  exists header,
    order_header db' oid = Some header /\
    (Forall (fun item => exists q, it_price item = NDecimal q) items ->
     Qeq (snd (header_totals (order_lines db' oid))) (total_price header)) /\
    Forall (fun d =>
              oi_qty d <= oi_requested_qty d /\
              Z.max 0 (oi_requested_qty d - oi_qty d) =
                oi_requested_qty d - oi_qty d /\
              (get_status (oi_requested_qty d) (oi_qty d) = "Fully Allocated" <->
               oi_qty d = oi_requested_qty d))
           (order_lines db' oid).
Proof.
  intros FK H.
  destruct (create_order_leaves _ _ _ _ _ _ FK H)
    as (lines & total & Hh & Hl & Hoi & _ & _ & _ & acc & Hacc & Hnum & Hcm).
  eexists. split; [exact Hh|]. rewrite Hl. cbn [total_price]. split.
  - intros Hdec. unfold header_totals.
    destruct (header_totals_alloc lines items (NInt 0) acc 0%Q 0%Q 0%Q
                (commits_prices _ _ _ _ _ _ Hcm) Hdec eq_refl (Qeq_refl 0) Hacc)
      as (t' & Ht' & Hq).
    rewrite Hq.
    destruct acc as [n|q|x]; cbn in Ht', Hnum; try discriminate;
      injection Ht' as <-; injection Hnum as <-; reflexivity.
  - clear - Hcm.
    induction Hcm as [|ps item items ps1 ps' current price lines _ _ _ _ IH];
      constructor; [|exact IH].
    cbn [oi_qty oi_requested_qty]. unfold get_status.
    split; [lia|]. split; [lia|].
    destruct (Z.leb_spec (it_qty item) (Z.min (it_qty item) current)).
    + split; [lia | reflexivity].
    + split; [|lia]. destruct (0 <? Z.min (it_qty item) current); discriminate.
Qed.

Lemma history_header_matches_order_witness :
  let db' :=
    fst (create_order Sample.four_widgets 7
           [Sample.ten_widgets; mkItem "X-1" None 2 (NDecimal (1 # 4)) None]
           "parts_stock") in
  exists header,
    order_header db' 1 = Some header /\
    Qeq (snd (header_totals (order_lines db' 1))) (total_price header) /\
    Qeq (total_price header) (10 # 1).
Proof.
  intros db'.
  destruct (history_header_matches_order Sample.four_widgets 7
              [Sample.ten_widgets; mkItem "X-1" None 2 (NDecimal (1 # 4)) None]
              "parts_stock" db' 1) as (header & Hh & Htot & _).
  - constructor.
  - reflexivity.
  - exists header. split; [exact Hh|]. split.
    + apply Htot. repeat constructor; eexists; reflexivity.
    + vm_compute in Hh. injection Hh as <-. reflexivity.
Defined.

(** X20: the two totals shown inside an order of the history are always
    zero, whatever the lines of the order: the loop reads the keys
    'price', 'requested_qty' and 'allocated_qty' from rows whose columns
    were renamed to 'Price', 'Requested_Qty' and 'Allocated_Qty', and
    falls back on its default each time.  The header totals, computed
    before the renaming, are not affected. *)
Theorem history_detail_totals_are_zero (details : list OrderItem) :
  detail_totals (history_rows details) = (0%Q, 0%Q).
Proof.
  unfold history_rows. generalize (seq 1 (length details)). intros numbers.
  unfold detail_totals.
  revert numbers. induction details as [|d details IH]; intros [|n numbers];
    try reflexivity.
  cbn [combine map fold_left]. exact (IH numbers).
Qed.

End OrderHistory.

(** ** Accounts *)

Section Accounts.

Variable admin_user admin_pass : string.

Lemma fold_max_bound (ids : list Z) :
  forall id, id <= fold_left Z.max ids id /\
             Forall (fun x => x <= fold_left Z.max ids id) ids.
Proof.
  induction ids as [|x ids IH]; intros id; cbn [fold_left].
  - split; [lia|constructor].
  - destruct (IH (Z.max id x)) as [H1 H2]. split; [lia|].
    constructor; [lia|exact H2].
Qed.

(** The next user id is beyond every id in the table. *)
Lemma get_next_user_id_fresh (users : list Customer) :
  Forall (fun u => cu_user_id u < get_next_user_id users) users.
Proof.
  unfold get_next_user_id. destruct users as [|u users]; [constructor|].
  cbn [map]. destruct (fold_max_bound (map cu_user_id users) (cu_user_id u))
    as [H1 H2].
  constructor; [lia|]. rewrite Forall_map in H2.
  eapply Forall_impl; [|exact H2]. cbn. intros; lia.
Qed.

Lemma find_map_same {A : Type} (p : A -> bool) (f : A -> A) (l : list A) :
  (forall x, p (f x) = p x) -> find p (map f l) = option_map f (find p l).
Proof.
  intros Hp. induction l as [|a l IH]; [reflexivity|]. cbn.
  rewrite Hp. destruct (p a); [reflexivity | exact IH].
Qed.

Lemma find_by_unique_name (l : list Customer) (x : Customer) :
  NoDup (map cu_user_name l) -> In x l ->
  find (fun y => String.eqb (cu_user_name y) (cu_user_name x)) l = Some x.
Proof.
  induction l as [|a l IH]; cbn; [tauto|].
  intros ND [->|Hin]; [now rewrite String.eqb_refl|].
  inversion ND as [|k ks Hnot ND']; subst.
  destruct (String.eqb_spec (cu_user_name a) (cu_user_name x)) as [E|]; [|auto].
  exfalso. apply Hnot. rewrite E. now apply in_map.
Qed.

Lemma find_after_update (set : Customer -> Customer) (user_id : Z)
    (users : list Customer) (user_name : string) :
  (forall u, cu_user_name (set u) = cu_user_name u) ->
  find (fun u => String.eqb (cu_user_name u) user_name)
       (update_customer set user_id users) =
  option_map (fun u => if Z.eqb (cu_user_id u) user_id then set u else u)
             (find (fun u => String.eqb (cu_user_name u) user_name) users).
Proof.
  intros Hname. unfold update_customer. apply find_map_same.
  intros u. destruct (cu_user_id u =? user_id); [now rewrite Hname | reflexivity].
Qed.

(** X21: registration and first login.  [register_user] succeeds exactly
    when the user name is not taken; the id it assigns is
    [get_next_user_id], which lies beyond every id of the table, so the
    primary key never refuses it.  The new account cannot log in: until
    [update_user_status] activates it, its own name and password are
    answered with "Account pending approval"; once activated they open a
    session of that id, not an administrator's, on the stock type
    'parts_stock', with no price adjustment. *)
Theorem register_then_login (users : list Customer) (user_name password : string)
    (mail_id phone_number : option string) :
  let registered := register_user users user_name password mail_id phone_number in
  let uid := get_next_user_id users in
  Forall (fun u => cu_user_id u < uid) users /\
  ((exists u, In u users /\ cu_user_name u = user_name) ->
   fst registered = users /\ exists e, snd registered = Failure e) /\
  ((forall u, In u users -> cu_user_name u <> user_name) ->
   snd registered = Success uid /\
   (String.eqb user_name admin_user && String.eqb password admin_pass = false ->
    authenticate_user admin_user admin_pass (fst registered) user_name password =
      AuthError "Account pending approval" /\
    authenticate_user admin_user admin_pass
      (fst (update_user_status (fst registered) uid true)) user_name password =
      Authenticated (mkSession uid user_name mail_id phone_number false
                               (Some "Standard User") "parts_stock" (Some false)
                               0%Q))).
Proof.
  intros registered uid.
  assert (Hfresh : Forall (fun u => cu_user_id u < uid) users).
  { apply get_next_user_id_fresh. }
  assert (Hpk : existsb (fun u => cu_user_id u =? uid) users = false).
  { destruct (existsb _ users) eqn:E; [|reflexivity].
    apply existsb_exists in E as (u & Hu & E). apply Z.eqb_eq in E.
    rewrite Forall_forall in Hfresh. specialize (Hfresh u Hu). lia. }
  subst registered. unfold register_user. fold uid. rewrite Hpk.
  split; [exact Hfresh|]. split.
  - intros (u & Hu & Hname).
    assert (existsb (fun u => String.eqb (cu_user_name u) user_name) users = true)
      as ->.
    { apply existsb_exists. exists u. split; [exact Hu|]. now apply String.eqb_eq. }
    cbn. split; [reflexivity | now eexists].
  - intros Hfree.
    assert (Hnone : existsb (fun u => String.eqb (cu_user_name u) user_name) users
                    = false).
    { destruct (existsb (fun u => String.eqb (cu_user_name u) user_name) users)
        eqn:E; [|reflexivity].
      apply existsb_exists in E as (u & Hu & E). apply String.eqb_eq in E.
      now destruct (Hfree u Hu). }
    rewrite Hnone. cbn [fst snd]. split; [reflexivity|].
    intros Hadmin. unfold authenticate_user, update_user_status. cbn [fst].
    rewrite Hadmin, find_after_update by reflexivity.
    rewrite (find_app_fresh _ users _ Hnone) by (cbn; apply String.eqb_refl).
    cbn. rewrite Z.eqb_refl. cbn. rewrite !String.eqb_refl. cbn.
    split; reflexivity.
Qed.

(** X22: changing a password.  With the keys of the table in force,
    [change_password] succeeds exactly when the account exists and the
    current password is the stored one; it then changes that account only,
    the new password opens the session of an active account, with the
    obligation to change the password lifted, and the old password, when
    different, no longer does.  A refused change leaves the table as it
    was. *)
Theorem change_password_then_login (users : list Customer) (row : Customer)
    (current_password new_password : string) :
  customers_ok users -> In row users ->
  let changed :=
    change_password users (cu_user_id row) current_password new_password in
  (cu_password row <> current_password ->
   changed = (users, Failure "Incorrect current password")) /\
  (cu_password row = current_password ->
   snd changed = Success "Password changed successfully" /\
   Forall2 (fun u u' => cu_user_id u <> cu_user_id row -> u' = u)
           users (fst changed) /\
   (String.eqb (cu_user_name row) admin_user = false ->
    cu_is_active row = Some true ->
    (exists s,
        authenticate_user admin_user admin_pass (fst changed)
                          (cu_user_name row) new_password = Authenticated s /\
        s_user_id s = cu_user_id row /\
        s_require_password_change s = Some false) /\
    (new_password <> current_password ->
     authenticate_user admin_user admin_pass (fst changed)
                       (cu_user_name row) current_password = NoMatch))).
Proof.
  intros [Hid Hname] Hin changed. subst changed. unfold change_password.
  rewrite (find_by_unique_key cu_user_id users row Hid Hin). split.
  - intros Hne. apply String.eqb_neq in Hne. now rewrite Hne.
  - intros <-. rewrite String.eqb_refl. cbn [fst snd]. split; [reflexivity|].
    split.
    + unfold update_customer. apply Forall2_map_same. intros u Hne.
      apply Z.eqb_neq in Hne. now rewrite Hne.
    + intros Hadmin Hactive. unfold authenticate_user. rewrite Hadmin. cbn [andb].
      rewrite find_after_update by reflexivity.
      rewrite (find_by_unique_name users row Hname Hin). cbn [option_map].
      rewrite Z.eqb_refl. cbn [cu_password cu_is_active cu_user_id
                                 cu_require_password_change].
      rewrite Hactive. split.
      * rewrite String.eqb_refl. eexists. split; [reflexivity|]. now split.
      * intros Hne. apply String.eqb_neq in Hne. rewrite String.eqb_sym in Hne.
        now rewrite Hne.
Qed.

End Accounts.

Lemma change_password_then_login_witness :
  let users :=
    fst (update_user_status
           (fst (register_user
                   (fst (register_user [] "ann" "pw1" None None))
                   "bob" "pw2" None (Some "555")))
           1002 true) in
  let changed := change_password users 1002 "pw2" "pw3" in
  map cu_password (fst changed) = ["pw1"; "pw3"] /\
  authenticate_user "root" "secret" (fst changed) "bob" "pw2" = NoMatch.
Proof.
  intros users changed. split; [reflexivity|].
  destruct (change_password_then_login "root" "secret" users
              (mkCustomer 1002 "bob" "pw2" None (Some "555") (Some true)
                          (Some "Standard User") (Some "parts_stock") (Some false)
                          (Some 0%Q)) "pw2" "pw3") as [_ Hok].
  - split; cbn; repeat constructor; simpl; intuition discriminate.
  - right. left. reflexivity.
  - destruct (Hok eq_refl) as (_ & _ & Hlogin).
    destruct (Hlogin eq_refl eq_refl) as [_ Hold].
    apply Hold. discriminate.
Defined.

Lemma register_then_login_witness :
  let users := fst (register_user [] "ann" "pw1" None None) in
  snd (register_user users "bob" "pw2" None None) = Success 1002 /\
  authenticate_user "root" "secret" (fst (register_user users "bob" "pw2" None None))
                    "bob" "pw2" = AuthError "Account pending approval".
Proof.
  intros users.
  destruct (register_then_login "root" "secret" users "bob" "pw2" None None)
    as (_ & _ & Hfree).
  destruct Hfree as [Hok Hlogin].
  - intros u [<-|[]]. discriminate.
  - split; [exact Hok|]. now destruct (Hlogin eq_refl).
Defined.

(** ** Part numbers the cart cannot reach *)

Section UnreachableParts.

Import CommitSpec.

Lemma commits_lines_name_items (stype : string) (oid : Z) ps items ps' lines :
  commits stype oid ps items ps' lines ->
  Forall (fun l => exists item, In item items /\
                                oi_part_number l = it_part_number item) lines.
Proof.
  induction 1 as [|ps item items ps1 ps' current price lines _ _ _ _ IH]; constructor.
  - exists item. split; [now left | reflexivity].
  - eapply Forall_impl; [|exact IH]. intros l (it & Hit & E).
    exists it. split; [now right | exact E].
Qed.

Lemma restored_qty_unnamed (lines : list OrderItem) (pn : string) :
  Forall (fun l => oi_part_number l <> pn) lines -> restored_qty lines pn = 0.
Proof.
  induction 1 as [|l lines Hne _ IH]; [reflexivity|]. cbn [restored_qty fold_right].
  fold (restored_qty lines pn). apply String.eqb_neq in Hne.
  now rewrite Hne, andb_false_r.
Qed.

Lemma takes_unnamed (stype : string) (lines : list OrderItem) (r : StockItem) :
  Forall (fun l => oi_part_number l <> ps_part_number r) lines ->
  takes stype lines r = r.
Proof.
  intros H. unfold takes. rewrite (restored_qty_unnamed _ _ H).
  destruct (String.eqb _ _); [|reflexivity].
  destruct r as [pn d [f|] p st a sup]; unfold with_free_stock; cbn;
    [now rewrite Z.sub_0_r | reflexivity].
Qed.

Lemma Forall2_fixed {A : Type} (P : A -> Prop) (l l' : list A) :
  Forall2 (fun r r' => P r -> r' = r) l l' -> Forall P l -> l' = l.
Proof.
  induction 1 as [|r r' l l' Hr _ IH]; intros HP; [reflexivity|].
  inversion HP; subst. now rewrite Hr, IH.
Qed.

(** X23: a commit leaves alone every stock row whose part number none of
    its items names, whether it succeeds or fails.  In particular an order
    whose items carry sanitised part numbers, as every cart line does,
    never takes stock from a catalog row whose part number sanitising
    would change. *)
Theorem create_order_touches_only_named_parts
    (db : DB) (user_id : Z) (items : list Item) (stock_type : string) :
  let db' := fst (create_order db user_id items stock_type) in
  Forall2 (fun r r' =>
             (forall item, In item items -> it_part_number item <> ps_part_number r) ->
             r' = r)
          (parts_stock db) (parts_stock db') /\
  (Forall (fun item => sanitize_part_number (Some (it_part_number item)) =
                       it_part_number item) items ->
   Forall2 (fun r r' =>
              sanitize_part_number (Some (ps_part_number r)) <> ps_part_number r ->
              r' = r)
           (parts_stock db) (parts_stock db')).
Proof.
  intros db'.
  assert (Hnamed :
            Forall2 (fun r r' =>
                       (forall item, In item items ->
                                     it_part_number item <> ps_part_number r) ->
                       r' = r)
                    (parts_stock db) (parts_stock db')).
  { subst db'. unfold create_order.
    destruct (existsb _ (orders db));
      [cbn; rewrite <- (map_id (parts_stock db)) at 2;
       apply Forall2_map_same; reflexivity|].
    destruct (create_order_items _ _ _ items) as [[conn total]|e] eqn:E;
      [|cbn; rewrite <- (map_id (parts_stock db)) at 2;
        apply Forall2_map_same; reflexivity].
    destruct (to_numeric total) as [tot0|e];
      [|cbn; rewrite <- (map_id (parts_stock db)) at 2;
        apply Forall2_map_same; reflexivity].
    pose proof (create_order_items_commits _ _ _ _ _ _ _ E) as (lines0 & Hcm & Hoi0 & _).
    apply create_order_items_takes in E as (lines & Hoi & Hps).
    assert (lines0 = lines) as -> by (rewrite Hoi0 in Hoi; now apply app_inv_head in Hoi).
    cbn [fst parts_stock set_cart set_orders set_orders_seq] in *. rewrite Hps.
    apply Forall2_map_same. intros r Hr. apply takes_unnamed.
    eapply Forall_impl; [|exact (commits_lines_name_items _ _ _ _ _ _ Hcm)].
    intros l (item & Hitem & E) Heq. apply (Hr item Hitem). congruence. }
  split; [exact Hnamed|]. intros Hnormal.
  eapply Forall2_impl; [|exact Hnamed]. intros r r' Hrr Hraw. apply Hrr.
  intros item Hitem Heq. rewrite Forall_forall in Hnormal.
  apply Hraw. rewrite <- Heq. now apply Hnormal.
Qed.

Lemma create_order_touches_only_named_parts_witness :
  let db :=
    mkDB [mkStock "BOLT-1" (Some "Bolt") (Some 5) (Some (1 # 1)) "parts_stock" true
                  None] [] [] [] 1 1 in
  let in_cart := add_to_cart_db db 7 "BOLT-1" (Some "Bolt") 2 (1 # 1) None in
  map cart_part_number (cart in_cart) = ["B0LT-1"] /\
  parts_stock
    (fst (create_order in_cart 7 [mkItem "B0LT-1" (Some "Bolt") 2 (NDecimal (1 # 1)) None]
                       "parts_stock")) = parts_stock db.
Proof.
  intros db in_cart. split; [reflexivity|].
  destruct (create_order_touches_only_named_parts in_cart 7
              [mkItem "B0LT-1" (Some "Bolt") 2 (NDecimal (1 # 1)) None] "parts_stock")
    as [_ Hraw].
  assert (Hn : Forall (fun item => sanitize_part_number (Some (it_part_number item)) =
                                   it_part_number item)
                      [mkItem "B0LT-1" (Some "Bolt") 2 (NDecimal (1 # 1)) None])
    by (constructor; [reflexivity | constructor]).
  apply (Forall2_fixed _ _ _ (Hraw Hn)).
  constructor; [|constructor]. vm_compute. discriminate.
Defined.

(** X24: the cart never shows the stock of a catalog row whose part number
    sanitising would change (a letter O, a lower-case letter, one of [*],
    [@], [+], white space at an end).  After any run of cart operations
    from a cart that is in order, no row of [get_user_cart] carries such a
    part number, so the join, which compares part numbers for equality,
    finds no stock for it: a part added from such a row is shown with no
    stock figure. *)
Theorem cart_never_joins_unsanitised_part (db : DB) (ops : list CartOp)
    (user_id : Z) (stock_type : string) :
  cart_ok db ->
  let db' := cart_run db ops in
  forall v, In v (get_user_cart db' user_id stock_type) ->
    sanitize_part_number (Some (cv_part_number v)) = cv_part_number v /\
    (forall p, In p (parts_stock db') ->
       sanitize_part_number (Some (ps_part_number p)) <> ps_part_number p ->
       cv_part_number v <> ps_part_number p) /\
    ((forall p, In p (parts_stock db') -> ps_stock_type p = stock_type ->
                ps_is_active p = true ->
                sanitize_part_number (Some (ps_part_number p)) <> ps_part_number p) ->
     cv_available_qty v = None /\ cv_allocated_qty v = Z.min (cv_qty v) 0).
Proof.
  intros Hok db' v Hv.
  assert (Hrun : forall ops db, cart_ok db -> cart_ok (cart_run db ops)).
  { clear. induction ops as [|op ops IH]; intros db Hok; [exact Hok|].
    cbn [cart_run fold_left]. apply IH. now apply cart_step_keeps_cart_ok. }
  assert (Hok' : cart_ok db') by now apply Hrun.
  destruct Hok' as (_ & _ & Hnf). rewrite Forall_forall in Hnf.
  unfold get_user_cart in Hv. apply in_flat_map in Hv as (c & Hc & Hv).
  apply in_rev, filter_In in Hc as [Hc _]. specialize (Hnf c Hc).
  assert (Hpn : cv_part_number v = cart_part_number c).
  { destruct (filter _ (parts_stock db')) as [|p found].
    - destruct Hv as [<-|[]]. reflexivity.
    - apply in_map_iff in Hv as (p' & <- & _). reflexivity. }
  rewrite Hpn. split; [exact Hnf|]. split.
  - intros p _ Hraw Heq. apply Hraw. now rewrite <- Heq.
  - intros Hall.
    destruct (filter (fun p => String.eqb (cart_part_number c) (ps_part_number p) &&
                               String.eqb (ps_stock_type p) stock_type &&
                               ps_is_active p) (parts_stock db'))
      as [|p found] eqn:Ef.
    + destruct Hv as [<-|[]]. unfold cart_view. cbn.
      destruct (Z.leb_spec (cart_qty c) 0); cbn; split; try reflexivity; lia.
    + exfalso.
      assert (Hp : In p (filter (fun p => String.eqb (cart_part_number c)
                                                     (ps_part_number p) &&
                                          String.eqb (ps_stock_type p) stock_type &&
                                          ps_is_active p) (parts_stock db')))
        by (rewrite Ef; now left).
      apply filter_In in Hp as [Hp Hf].
      apply andb_true_iff in Hf as [Hf Hact]. apply andb_true_iff in Hf as [Heq Hst].
      apply String.eqb_eq in Heq, Hst.
      apply (Hall p Hp Hst Hact). now rewrite <- Heq.
Qed.

Lemma cart_never_joins_unsanitised_part_witness :
  let db :=
    mkDB [mkStock "BOLT-1" (Some "Bolt") (Some 5) (Some (1 # 1)) "parts_stock" true
                  None] [] [] [] 1 1 in
  let ops := [CartAdd 7 "BOLT-1" (Some "Bolt") 2 (1 # 1) None] in
  map (fun v => (cv_part_number v, cv_available_qty v, cv_status v))
      (get_user_cart (cart_run db ops) 7 "parts_stock") =
    [("B0LT-1", None, "Out of Stock")] /\
  forall v, In v (get_user_cart (cart_run db ops) 7 "parts_stock") ->
            cv_part_number v <> "BOLT-1".
Proof.
  intros db ops. split; [reflexivity|]. intros v Hv.
  destruct (cart_never_joins_unsanitised_part db ops 7 "parts_stock") with (v := v)
    as (_ & Hnot & _).
  - repeat split; constructor.
  - exact Hv.
  - apply (Hnot (mkStock "BOLT-1" (Some "Bolt") (Some 5) (Some (1 # 1))
                         "parts_stock" true None)).
    + left. reflexivity.
    + vm_compute. discriminate.
Defined.

End UnreachableParts.

(** ** Saving the cart editor *)

Section SaveChanges.

Variable user_id : Z.

Lemma get_user_cart_ids (db : DB) (stock_type : string) :
  (forall v, In v (get_user_cart db user_id stock_type) ->
     exists c, In c (cart db) /\ cart_user_id c = user_id /\ cv_id v = cart_id c) /\
  (forall c, In c (cart db) -> cart_user_id c = user_id ->
     exists v, In v (get_user_cart db user_id stock_type) /\ cv_id v = cart_id c).
Proof.
  unfold get_user_cart. split.
  - intros v Hv. apply in_flat_map in Hv as (c & Hc & Hv).
    apply in_rev, filter_In in Hc as [Hc Hu]. apply Z.eqb_eq in Hu.
    exists c. repeat split; auto.
    destruct (filter _ (parts_stock db)) as [|p found].
    + destruct Hv as [<-|[]]. reflexivity.
    + apply in_map_iff in Hv as (p' & <- & _). reflexivity.
  - intros c Hc Hu.
    assert (Hin : In c (rev (filter (fun c => cart_user_id c =? user_id) (cart db)))).
    { apply in_rev. rewrite rev_involutive. apply filter_In. split; [exact Hc|].
      now apply Z.eqb_eq. }
    destruct (filter (fun p => String.eqb (cart_part_number c) (ps_part_number p) &&
                               String.eqb (ps_stock_type p) stock_type &&
                               ps_is_active p) (parts_stock db))
      as [|p found] eqn:Ef.
    + exists (cart_view c None). split; [|reflexivity].
      apply in_flat_map. exists c. split; [exact Hin|]. rewrite Ef. now left.
    + exists (cart_view c (ps_free_stock p)). split; [|reflexivity].
      apply in_flat_map. exists c. split; [exact Hin|]. rewrite Ef. now left.
Qed.

(** The removals of the second loop, as one DELETE. *)
Lemma remove_where (cond : CartView -> bool) (items : list CartView) :
  forall db,
    cart (fold_left (fun db item => if cond item
                                    then remove_from_cart_db db (cv_id item)
                                    else db) items db) =
    filter (fun c => negb (existsb (fun item => cond item &&
                                                Z.eqb (cart_id c) (cv_id item))
                                   items)) (cart db).
Proof.
  induction items as [|item items IH]; intros db; cbn [fold_left existsb].
  - symmetry. apply filter_all. now apply Forall_forall.
  - rewrite IH. destruct (cond item); cbn [andb orb].
    + unfold remove_from_cart_db. cbn [cart set_cart].
      induction (cart db) as [|c l IHl]; [reflexivity|]. cbn [filter].
      destruct (cart_id c =? cv_id item); cbn [negb orb filter]; [exact IHl|].
      destruct (negb (existsb _ items)); [now rewrite IHl | exact IHl].
    + reflexivity.
Qed.

(** The updates of the first loop: quantities of the user's own lines,
    nothing else. *)
Lemma save_updates_own_lines (db : DB) (cart_items : list CartView)
    (edited : list (option Z * Z)) :
  NoDup (map cart_id (cart db)) ->
  (forall v, In v cart_items ->
     exists c, In c (cart db) /\ cart_user_id c = user_id /\ cv_id v = cart_id c) ->
  forall db1,
    (exists f, cart db1 = map f (cart db) /\
               forall l, In l (cart db) ->
                 cart_id (f l) = cart_id l /\ cart_user_id (f l) = cart_user_id l /\
                 (cart_user_id l <> user_id -> f l = l)) ->
    exists f,
      cart (fold_left
              (fun db row =>
                 match fst row with
                 | Some id =>
                     match find (fun x => Z.eqb (cv_id x) id) cart_items with
                     | Some db_item =>
                         if negb (Z.eqb (snd row) (cv_qty db_item))
                         then update_cart_item_db db id (snd row)
                         else db
                     | None => db
                     end
                 | None => db
                 end) edited db1) = map f (cart db) /\
      forall l, In l (cart db) ->
        cart_id (f l) = cart_id l /\ cart_user_id (f l) = cart_user_id l /\
        (cart_user_id l <> user_id -> f l = l).
Proof.
  intros ND Hown. induction edited as [|[[id|] q] edited IH]; intros db1 Hinv;
    cbn [fold_left fst snd]; [exact Hinv| |now apply IH].
  destruct (find (fun x => cv_id x =? id) cart_items) as [db_item|] eqn:Ef;
    [|now apply IH].
  destruct (negb (q =? cv_qty db_item)); [|now apply IH].
  apply IH. destruct Hinv as (f & Hcart & Hf).
  apply find_some in Ef as [Hitem Eid]. apply Z.eqb_eq in Eid.
  destruct (Hown db_item Hitem) as (c0 & Hc0 & Hu0 & Hid0).
  exists (fun l => if cart_id (f l) =? id
                   then mkCart (cart_id (f l)) (cart_user_id (f l))
                               (cart_part_number (f l)) (cart_description (f l)) q
                               (cart_price (f l)) (cart_supersedes (f l))
                   else f l).
  split.
  - unfold update_cart_item_db. cbn [cart set_cart]. now rewrite Hcart, map_map.
  - intros l Hl. destruct (Hf l Hl) as (H1 & H2 & H3).
    destruct (Z.eqb_spec (cart_id (f l)) id) as [E|_]; [|auto].
    cbn. repeat split; auto. intros Hne. exfalso. apply Hne.
    assert (l = c0); [|now subst].
    pose proof (find_by_unique_key cart_id (cart db) l ND Hl) as F1.
    pose proof (find_by_unique_key cart_id (cart db) c0 ND Hc0) as F2.
    assert (cart_id l = cart_id c0) as Ekey by congruence.
    rewrite Ekey in F1. congruence.
Qed.

Lemma in_current_ids (edited : list (option Z * Z)) (id : Z) :
  existsb (Z.eqb id)
          (flat_map (fun row : option Z * Z =>
                       match fst row with
                       | Some id => [id]
                       | None => []
                       end) edited) = true ->
  In (Some id) (map fst edited).
Proof.
  intros H. apply existsb_exists in H as (x & Hx & E). apply Z.eqb_eq in E. subst x.
  apply in_flat_map in Hx as ([[i|] q] & Hrow & Hi); cbn in Hi; [|destruct Hi].
  destruct Hi as [->|[]]. apply in_map_iff. now exists (Some id, q).
Qed.

Lemma filter_others_kept (f : CartLine -> CartLine) (keep : CartLine -> bool)
    (l : list CartLine) :
  Forall (fun x => cart_user_id (f x) = cart_user_id x /\
                   (cart_user_id x <> user_id -> f x = x /\ keep x = true)) l ->
  filter (fun c => negb (Z.eqb (cart_user_id c) user_id)) (filter keep (map f l)) =
  filter (fun c => negb (Z.eqb (cart_user_id c) user_id)) l.
Proof.
  induction 1 as [|x l [Hu Hx] _ IH]; [reflexivity|]. cbn [map filter].
  destruct (Z.eqb_spec (cart_user_id x) user_id) as [E|Hne]; cbn [negb].
  - destruct (keep (f x)); [|exact IH]. cbn [filter].
    rewrite Hu, E, Z.eqb_refl. exact IH.
  - destruct (Hx Hne) as [-> ->]. cbn [filter].
    apply Z.eqb_neq in Hne. rewrite Hne. cbn [negb]. now rewrite IH.
Qed.

(** X25: what "Save Changes" does to the cart.  Whatever the editor hands
    back, the lines of every other user come out exactly as they were, and
    in the same order; and every line the user still has afterwards is a
    line whose id the editor handed back.  The ids of the cart are taken to
    be a key, as the table declares. *)
Theorem save_changes_keeps_other_users (db : DB) (stock_type : string)
    (edited : list (option Z * Z)) :
  NoDup (map cart_id (cart db)) ->
  let db' := save_changes db user_id (get_user_cart db user_id stock_type) edited in
  filter (fun c => negb (Z.eqb (cart_user_id c) user_id)) (cart db') =
    filter (fun c => negb (Z.eqb (cart_user_id c) user_id)) (cart db) /\
  Forall (fun c => cart_user_id c = user_id -> In (Some (cart_id c)) (map fst edited))
         (cart db').
Proof.
  intros ND db'. destruct (get_user_cart_ids db stock_type) as [Hown Hview].
  set (cart_items := get_user_cart db user_id stock_type) in *.
  destruct (save_updates_own_lines db cart_items edited ND Hown db) as (f & Hcart & Hf).
  { exists (fun l => l). split; [now rewrite map_id | auto]. }
  assert (Hshape :
            exists keep,
              cart db' = filter keep (map f (cart db)) /\
              (forall l, In l (cart db) -> cart_user_id l <> user_id ->
                         keep l = true) /\
              (forall l, In l (cart db) -> cart_user_id l = user_id ->
                         keep (f l) = true ->
                         In (Some (cart_id l)) (map fst edited))).
  { subst db'. unfold save_changes. fold cart_items.
    destruct edited as [|row edited].
    - exists (fun c => negb (cart_user_id c =? user_id)).
      unfold clear_cart_db. cbn [fold_left] in Hcart. cbn [cart set_cart fold_left].
      split; [now rewrite <- Hcart|]. split.
      + intros l _ Hne. apply negb_true_iff. now apply Z.eqb_neq.
      + intros l Hl Hu Hkeep. destruct (Hf l Hl) as (_ & Hu' & _).
        rewrite Hu', Hu, Z.eqb_refl in Hkeep. discriminate.
    - set (rows := row :: edited) in *.
      set (current_ids := flat_map _ rows).
      eexists. split.
      + rewrite (remove_where
                   (fun item => negb (existsb (Z.eqb (cv_id item)) current_ids))).
        rewrite Hcart. reflexivity.
      + split.
        * intros l Hl Hne. apply negb_true_iff.
          destruct (existsb _ cart_items) eqn:E; [|reflexivity]. exfalso.
          apply existsb_exists in E as (item & Hitem & E).
          apply andb_true_iff in E as [_ E]. apply Z.eqb_eq in E.
          destruct (Hown item Hitem) as (c0 & Hc0 & Hu0 & Hid0).
          apply Hne.
          assert (l = c0); [|now subst].
          pose proof (find_by_unique_key cart_id (cart db) l ND Hl) as F1.
          pose proof (find_by_unique_key cart_id (cart db) c0 ND Hc0) as F2.
          assert (cart_id l = cart_id c0) as Ekey by congruence.
          rewrite Ekey in F1. congruence.
        * intros l Hl Hu Hkeep. cbn beta in Hkeep.
          destruct (Hview l Hl Hu) as (v & Hv & Hid).
          destruct (Hf l Hl) as (Hfid & _).
          apply negb_true_iff in Hkeep.
          destruct (existsb (Z.eqb (cv_id v)) current_ids) eqn:Ecur.
          -- rewrite Hid in Ecur. now apply in_current_ids.
          -- exfalso.
             assert (existsb
                       (fun item =>
                          negb (existsb (Z.eqb (cv_id item)) current_ids) &&
                          (cart_id (f l) =? cv_id item)) cart_items = true);
               [|congruence].
             apply existsb_exists. exists v. split; [exact Hv|].
             rewrite Ecur, Hfid, Hid. cbn. apply Z.eqb_refl. }
  destruct Hshape as (keep & Hcart' & Hothers & Hmine). rewrite Hcart'. split.
  - apply filter_others_kept. apply Forall_forall. intros l Hl.
    destruct (Hf l Hl) as (_ & Hu & Hsame). split; [exact Hu|].
    intros Hne. split; [now apply Hsame | now apply Hothers].
  - apply Forall_forall. intros c' Hc' Hu'. apply filter_In in Hc' as [Hc' Hkeep].
    apply in_map_iff in Hc' as (l & <- & Hl).
    destruct (Hf l Hl) as (Hid & Hu & _). rewrite Hid.
    apply (Hmine l Hl); [congruence | exact Hkeep].
Qed.

End SaveChanges.

Lemma save_changes_keeps_other_users_witness :
  let db :=
    add_to_cart_db
      (add_to_cart_db
         (add_to_cart_db Sample.four_widgets 8 "b-1" None 1 (1 # 1) None)
         7 "w-100" (Some "Widget") 2 (5 # 2) None)
      7 "x-1" None 3 (1 # 1) None in
  let db' :=
    save_changes db 7 (get_user_cart db 7 "parts_stock") [(Some 2, 6); (None, 1)] in
  map (fun c => (cart_id c, cart_user_id c, cart_qty c)) (cart db') =
    [(1, 8, 1); (2, 7, 6)] /\
  filter (fun c => negb (Z.eqb (cart_user_id c) 7)) (cart db') =
    filter (fun c => negb (Z.eqb (cart_user_id c) 7)) (cart db).
Proof.
  intros db db'. split; [reflexivity|].
  apply (save_changes_keeps_other_users 7 db "parts_stock" [(Some 2, 6); (None, 1)]).
  vm_compute. repeat constructor; simpl; intuition discriminate.
Defined.
